(** * A text-adventure runtime driven by a generative backend (main.py)

    Shallow embedding of [src/main.py] and of the Python built-ins and
    [json] functions it calls.

    Scope of the model.
    - Python [str] values are modelled by [string]: sequences of the code
      points 0..255.  Every built-in below ([lower], [strip], [int], ...)
      is the restriction of the Python one to that range.
    - JSON values are [None], booleans, unbounded integers, strings, lists
      and string-keyed dictionaries.  Real numbers are not modelled: the
      decoder answers [Beyond] on a number with a fraction or an exponent,
      on [NaN] and the infinities, and on a [\uXXXX] escape above 00ff.
      Nesting depth and the number of digits of an integer are unbounded.
    - A dictionary keeps insertion order, as Python's does; it is an
      association list whose keys are pairwise distinct ([wf_value]).
    - The state of the engine is a dictionary: a save file that holds
      another kind of value, a [START] that is a list or a string, and
      the ordering of two lists are [Beyond] as well.
    - Exceptions are results ([Raise]); [sys.exit] is the exception
      [SystemExit].  The files and the backend are fields of a [world]
      passed along; a text file holds the string written to it.
    - Console output is left out; the exceptions that computing a printed
      text can raise are kept. *)

From Stdlib Require Import ZArith NArith List String Ascii Bool Lia.
Import ListNotations.

Local Open Scope string_scope.
Local Open Scope Z_scope.

(** ** Values *)

#[warnings="-register-all"]
Inductive value : Type :=
| VNone
| VBool (b : bool)
| VInt (z : Z)
| VStr (s : string)
| VList (l : list value)
| VDict (d : list (string * value)).

Definition dict : Type := list (string * value).

(** ** Exceptions and results *)

Inductive exit_code : Type :=
| ExitStatus (n : Z)
| ExitMessage (msg : string).

Inductive exn : Type :=
| AttributeError
| TypeError
| ValueError
| IndexError
| FileNotFoundError
| JSONDecodeError
| SystemExit (code : exit_code).

(** [Beyond]: the run leaves the scope of the model (see the header);
    nothing is stated about it. *)
Inductive result (A : Type) : Type :=
| Ok (a : A)
| Raise (e : exn)
| Beyond.

Arguments Ok {A} a.
Arguments Raise {A} e.
Arguments Beyond {A}.

Definition bind {A B : Type} (m : result A) (k : A -> result B) : result B :=
  match m with
  | Ok a => k a
  | Raise e => Raise e
  | Beyond => Beyond
  end.

Notation "x <- m ;; k" := (bind m (fun x => k))
  (at level 61, m at next level, right associativity).

(** ** Characters *)

Definition dquote : ascii := "034"%char.
Definition newline : ascii := "010"%char.
Definition backslash : ascii := "\"%char.

Definition code (c : ascii) : N := N_of_ascii c.

Definition in_range (lo hi : N) (c : ascii) : bool :=
  ((lo <=? code c) && (code c <=? hi))%N.

(** ** Built-ins on [str] *)

Module Py.

(** [str.isspace] on one character: U+0009..000D, U+001C..0020, U+0085,
    U+00A0. *)
Definition isspace (c : ascii) : bool :=
  in_range 9 13 c || in_range 28 32 c || (code c =? 133)%N || (code c =? 160)%N.

Fixpoint lstrip (s : string) : string :=
  match s with
  | String c r => if isspace c then lstrip r else s
  | EmptyString => EmptyString
  end.

Fixpoint rstrip (s : string) : string :=
  match s with
  | EmptyString => EmptyString
  | String c r =>
      match rstrip r with
      | EmptyString => if isspace c then EmptyString else String c EmptyString
      | r' => String c r'
      end
  end.

(** [s.strip()] *)
Definition strip (s : string) : string := rstrip (lstrip s).

(** [s.startswith(p)] *)
Fixpoint startswith (s p : string) {struct p} : bool :=
  match p with
  | EmptyString => true
  | String c p' =>
      match s with
      | String a s' => Ascii.eqb a c && startswith s' p'
      | EmptyString => false
      end
  end.

(** [s.endswith(p)] *)
Definition endswith (s p : string) : bool :=
  let n := String.length s in
  let m := String.length p in
  (m <=? n)%nat && (substring (n - m) m s =? p)%string.

(** [s.split(sep, 1)] for a one-character separator. *)
Fixpoint split1 (sep : ascii) (s : string) : list string :=
  match s with
  | EmptyString => [EmptyString]
  | String c r =>
      if Ascii.eqb c sep then [EmptyString; r]
      else match split1 sep r with
           | h :: t => String c h :: t
           | [] => []
           end
  end.

(** [l[i]] for [i >= 0]. *)
Definition subscript {A : Type} (l : list A) (i : nat) : result A :=
  match nth_error l i with
  | Some x => Ok x
  | None => Raise IndexError
  end.

(** [sub in s] for two strings. *)
Fixpoint contains (s sub : string) : bool :=
  startswith s sub ||
  match s with
  | EmptyString => false
  | String _ r => contains r sub
  end.

(** [s.find(c)] for a one-character [c]: the first index, or -1. *)
Fixpoint find (c : ascii) (s : string) : Z :=
  match s with
  | EmptyString => -1
  | String a r =>
      if Ascii.eqb a c then 0
      else let i := find c r in if i =? -1 then -1 else i + 1
  end.

(** [s.rfind(c)] for a one-character [c]: the last index, or -1. *)
Fixpoint rfind (c : ascii) (s : string) : Z :=
  match s with
  | EmptyString => -1
  | String a r =>
      let i := rfind c r in
      if i =? -1 then (if Ascii.eqb a c then 0 else -1) else i + 1
  end.

(** [s[i:j]], negative indices counting from the end. *)
Definition slice (s : string) (i j : Z) : string :=
  let n := Z.of_nat (String.length s) in
  let norm k := if k <? 0 then Z.max 0 (k + n) else Z.min k n in
  substring (Z.to_nat (norm i)) (Z.to_nat (norm j - norm i)) s.

(** [c.lower()]: A..Z, and U+00C0..00DE except the multiplication sign. *)
Definition lower_char (c : ascii) : ascii :=
  if in_range 65 90 c
     || (in_range 192 222 c && negb (code c =? 215)%N)
  then ascii_of_N (code c + 32)
  else c.

Fixpoint lower (s : string) : string :=
  match s with
  | EmptyString => EmptyString
  | String c r => String (lower_char c) (lower r)
  end.

Definition isdigit (c : ascii) : bool := in_range 48 57 c.

Definition digit_value (c : ascii) : Z := Z.of_N (code c) - 48.

(** The digits of an [int] literal: decimal digits, any two of them
    separated by at most one underscore.  [seen] tells that the character
    before was a digit. *)
Fixpoint int_digits (acc : Z) (seen : bool) (s : string) : option Z :=
  match s with
  | EmptyString => if seen then Some acc else None
  | String c r =>
      if isdigit c then int_digits (10 * acc + digit_value c) true r
      else if Ascii.eqb c "_" then
             if seen then int_digits acc false r else None
           else None
  end.

(** [int(s)]: [None] stands for [ValueError]. *)
Definition int (s : string) : option Z :=
  match strip s with
  | String "-" r => option_map Z.opp (int_digits 0 false r)
  | String "+" r => int_digits 0 false r
  | t => int_digits 0 false t
  end.

End Py.

(** ** Dictionaries *)

(** [d.get(k)] *)
Fixpoint dict_get (d : dict) (k : string) : option value :=
  match d with
  | [] => None
  | (k', v) :: r => if (k' =? k)%string then Some v else dict_get r k
  end.

(** [d.get(k, dflt)] *)
Definition get_default (d : dict) (k : string) (dflt : value) : value :=
  match dict_get d k with
  | Some v => v
  | None => dflt
  end.

(** [d[k] = v]: a key already there keeps its place. *)
Fixpoint dict_set (d : dict) (k : string) (v : value) : dict :=
  match d with
  | [] => [(k, v)]
  | (k', v') :: r =>
      if (k' =? k)%string then (k', v) :: r else (k', v') :: dict_set r k v
  end.

(** [d.setdefault(k, dflt)]: the dictionary afterwards. *)
Definition setdefault (d : dict) (k : string) (dflt : value) : dict :=
  match dict_get d k with
  | Some _ => d
  | None => dict_set d k dflt
  end.

(** ** Operators on values *)

(** [v + n] for an integer [n]; [bool] is a subclass of [int]. *)
Definition add_int (v : value) (n : Z) : result Z :=
  match v with
  | VInt z => Ok (z + n)
  | VBool b => Ok (Z.b2z b + n)
  | _ => Raise TypeError
  end.

(** [x == VStr item] on a value [x]. *)
Definition eq_str (item : string) (x : value) : bool :=
  match x with
  | VStr s => (s =? item)%string
  | _ => false
  end.

(** [item in l] for a list [l]. *)
Definition in_list (item : string) (l : list value) : bool :=
  existsb (eq_str item) l.

(** [item in v] *)
Definition py_in (item : string) (v : value) : result bool :=
  match v with
  | VList l => Ok (in_list item l)
  | VStr s => Ok (Py.contains s item)
  | VDict d => Ok (match dict_get d item with Some _ => true | None => false end)
  | _ => Raise TypeError
  end.

(** [l.remove(item)] when [item in l]: the first equal element goes. *)
Fixpoint remove_first (item : string) (l : list value) : list value :=
  match l with
  | [] => []
  | x :: r => if eq_str item x then r else x :: remove_first item r
  end.

(** [for x in v]: the elements visited. *)
Definition iterate (v : value) : result (list value) :=
  match v with
  | VList l => Ok l
  | VStr s => Ok (map (fun c => VStr (String c EmptyString)) (list_ascii_of_string s))
  | VDict d => Ok (map (fun kv => VStr (fst kv)) d)
  | _ => Raise TypeError
  end.

(** [bool(v)] *)
Definition truthy (v : value) : bool :=
  match v with
  | VNone => false
  | VBool b => b
  | VInt z => negb (z =? 0)
  | VStr s => negb (s =? "")%string
  | VList l => match l with [] => false | _ => true end
  | VDict d => match d with [] => false | _ => true end
  end.

(** ** The state mutator: [GameEngine.apply_state_changes] *)

(** [atom.split(":",1)[1]] *)
Definition payload (atom : string) : result string :=
  Py.subscript (Py.split1 ":" atom) 1.

(** [self.state["inventory"].append(item)], after the membership test
    found [item] absent. *)
Definition inventory_append (s : dict) (item : string) : result dict :=
  match get_default s "inventory" VNone with
  | VList l => Ok (dict_set s "inventory" (VList (l ++ [VStr item])))
  | _ => Raise AttributeError
  end.

(** [self.state["inventory"].remove(item)], after the membership test
    found [item] present. *)
Definition inventory_remove (s : dict) (item : string) : result dict :=
  match get_default s "inventory" VNone with
  | VList l => Ok (dict_set s "inventory" (VList (remove_first item l)))
  | _ => Raise AttributeError
  end.

(** [self.state.setdefault("flags", {})[flag] = True] *)
Definition raise_flag (s : dict) (flag : string) : result dict :=
  let s1 := setdefault s "flags" (VDict []) in
  match get_default s1 "flags" VNone with
  | VDict f => Ok (dict_set s1 "flags" (VDict (dict_set f flag (VBool true))))
  | _ => Raise TypeError
  end.

(** One turn of the [for atom in changes] loop, for an atom that is a
    string. *)
Definition apply_atom (s : dict) (atom : string) : result dict :=
  if Py.startswith atom "move_to:" then
    p <- payload atom ;;
    Ok (dict_set s "location" (VStr (Py.strip p)))
  else if Py.startswith atom "add_item:" then
    p <- payload atom ;;
    let item := Py.strip p in
    let s1 := setdefault s "inventory" (VList []) in
    present <- py_in item (get_default s1 "inventory" VNone) ;;
    if present then Ok s1 else inventory_append s1 item
  else if Py.startswith atom "remove_item:" then
    p <- payload atom ;;
    let item := Py.strip p in
    present <- py_in item (get_default s "inventory" (VList [])) ;;
    if present then inventory_remove s item else Ok s
  else if Py.startswith atom "set_flag:" then
    p <- payload atom ;;
    raise_flag s (Py.strip p)
  else if Py.startswith atom "hp_delta:" then
    p <- payload atom ;;
    let delta := match Py.int p with Some z => z | None => 0 end in
    hp <- add_int (get_default s "hp" (VInt 0)) delta ;;
    let s1 := dict_set s "hp" (VInt hp) in
    if hp <=? 0 then raise_flag s1 "hp_zero" else Ok s1
  else Ok s.

(** The loop: an element that is not a string has no [startswith]. *)
Fixpoint apply_atoms (s : dict) (atoms : list value) : result dict :=
  match atoms with
  | [] => Ok s
  | VStr atom :: rest => s1 <- apply_atom s atom ;; apply_atoms s1 rest
  | _ :: _ => Raise AttributeError
  end.

Definition apply_state_changes (s : dict) (changes : value) : result dict :=
  atoms <- iterate changes ;;
  s1 <- apply_atoms s atoms ;;
  t <- add_int (get_default s1 "turns" (VInt 0)) 1 ;;
  Ok (dict_set s1 "turns" (VInt t)).

(** A batch of string atoms, as the backend is asked to send it. *)
Definition batch (atoms : list string) : value := VList (map VStr atoms).

(** The fields of the state the mutator computes with have the types of
    the data model when they are present. *)
Definition list_or_absent (o : option value) : bool :=
  match o with
  | None | Some (VList _) => true
  | _ => false
  end.

Definition dict_or_absent (o : option value) : bool :=
  match o with
  | None | Some (VDict _) => true
  | _ => false
  end.

Definition int_or_absent (o : option value) : bool :=
  match o with
  | None | Some (VInt _) | Some (VBool _) => true
  | _ => false
  end.

Definition typed_state (s : dict) : bool :=
  list_or_absent (dict_get s "inventory")
  && dict_or_absent (dict_get s "flags")
  && int_or_absent (dict_get s "hp")
  && int_or_absent (dict_get s "turns").

(** Readers used in the statements. *)
Definition inventory (s : dict) : list value :=
  match dict_get s "inventory" with
  | Some (VList l) => l
  | _ => []
  end.

Definition flags (s : dict) : dict :=
  match dict_get s "flags" with
  | Some (VDict f) => f
  | _ => []
  end.

Definition int_field (s : dict) (k : string) : Z :=
  match dict_get s k with
  | Some (VInt z) => z
  | Some (VBool b) => Z.b2z b
  | _ => 0
  end.

(** ** The end-condition evaluator: [GameEngine.check_end_conditions] *)

(** [v.get(k, dflt)]: only a dictionary has the method. *)
Definition method_get (v : value) (k : string) (dflt : value) : result value :=
  match v with
  | VDict d => Ok (get_default d k dflt)
  | _ => Raise AttributeError
  end.

(** [flags.get(f)]: the keys of a dictionary are strings, so any other
    hashable [f] is absent; lists and dictionaries are not hashable. *)
Definition flag_lookup (flags : value) (f : value) : result value :=
  match flags with
  | VDict d =>
      match f with
      | VStr k => Ok (get_default d k VNone)
      | VList _ | VDict _ => Raise TypeError
      | _ => Ok VNone
      end
  | _ => Raise AttributeError
  end.

(** [all(flags.get(f) for f in fs)]: stops at the first falsy value. *)
Fixpoint all_flags (flags : value) (fs : list value) : result bool :=
  match fs with
  | [] => Ok true
  | f :: rest =>
      x <- flag_lookup flags f ;;
      if truthy x then all_flags flags rest else Ok false
  end.

(** [any(flags.get(f) for f in fs)]: stops at the first truthy value. *)
Fixpoint any_flag (flags : value) (fs : list value) : result bool :=
  match fs with
  | [] => Ok false
  | f :: rest =>
      x <- flag_lookup flags f ;;
      if truthy x then Ok true else any_flag flags rest
  end.

(** [a >= b].  Ordering two lists is outside the model. *)
Definition py_ge (a b : value) : result bool :=
  match a, b with
  | (VInt _ | VBool _), (VInt _ | VBool _) =>
      let z v := match v with VInt n => n | VBool c => Z.b2z c | _ => 0 end in
      Ok (z b <=? z a)
  | VStr x, VStr y => Ok (String.leb y x)
  | VList _, VList _ => Beyond
  | _, _ => Raise TypeError
  end.

(** [a >= float("inf")]: never true of an integer. *)
Definition py_ge_inf (a : value) : result bool :=
  match a with
  | VInt _ | VBool _ => Ok false
  | _ => Raise TypeError
  end.

Definition check_end_conditions (rules state : dict) : result (option string) :=
  let end_ := get_default rules "END_CONDITIONS" (VDict []) in
  let flags := get_default state "flags" (VDict []) in
  win_names <- method_get end_ "WIN_ALL_FLAGS" (VList []) ;;
  win_iter <- iterate win_names ;;
  win <- all_flags flags win_iter ;;
  if win then Ok (Some "You won!")
  else
    lose_names <- method_get end_ "LOSE_ANY_FLAGS" (VList []) ;;
    lose_iter <- iterate lose_names ;;
    lose <- any_flag flags lose_iter ;;
    if lose then Ok (Some " You lost!")
    else
      let turns := get_default state "turns" (VInt 0) in
      over <- match end_ with
              | VDict e =>
                  match dict_get e "MAX_TURNS" with
                  | Some m => py_ge turns m
                  | None => py_ge_inf turns
                  end
              | _ => Raise AttributeError
              end ;;
      if over then Ok (Some " Max turns exceeded!") else Ok None.

(** The evaluator as the specification words it: three conditions tried
    in the order WIN, LOSE, TURNS, the first that holds giving the signal. *)
Inductive signal : Type := Win | Lose | TurnLimit.

Definition message (t : signal) : string :=
  match t with
  | Win => "You won!"
  | Lose => " You lost!"
  | TurnLimit => " Max turns exceeded!"
  end.

(** The flag named [f] counts as true. *)
Definition flag_true (fl : dict) (f : string) : bool :=
  truthy (get_default fl f VNone).

Definition evaluator_spec (win lose : list string) (max_turns : option Z)
           (fl : dict) (turns : Z) : option signal :=
  if forallb (flag_true fl) win then Some Win
  else if existsb (flag_true fl) lose then Some Lose
  else match max_turns with
       | Some m => if m <=? turns then Some TurnLimit else None
       | None => None
       end.

(** The names of a list of flags that may be absent from the rules. *)
Definition names (o : option (list string)) : list string :=
  match o with Some l => l | None => [] end.

(** ** The [json] module *)

Module Json.

(** *** Decoding: [json.loads] *)

(** What scanning the front of a text gives: a result and the text left,
    a [JSONDecodeError], a construct outside the model, or no fuel left. *)
Inductive scan (A : Type) : Type :=
| Scanned (a : A) (rest : string)
| Malformed
| Unmodelled
| Exhausted.

Arguments Scanned {A} a rest.
Arguments Malformed {A}.
Arguments Unmodelled {A}.
Arguments Exhausted {A}.

Definition scan_map {A B : Type} (f : A -> B) (x : scan A) : scan B :=
  match x with
  | Scanned a rest => Scanned (f a) rest
  | Malformed => Malformed
  | Unmodelled => Unmodelled
  | Exhausted => Exhausted
  end.

(** The whitespace of the decoder: space, tab, line feed, carriage return. *)
Definition is_ws (c : ascii) : bool :=
  (code c =? 32)%N || (code c =? 9)%N || (code c =? 10)%N || (code c =? 13)%N.

Fixpoint skip_ws (s : string) : string :=
  match s with
  | String c r => if is_ws c then skip_ws r else s
  | EmptyString => EmptyString
  end.

Definition hex_value (c : ascii) : option N :=
  if in_range 48 57 c then Some (code c - 48)%N
  else if in_range 65 70 c then Some (code c - 55)%N
  else if in_range 97 102 c then Some (code c - 87)%N
  else None.

Definition hex4 (a b c d : ascii) : option N :=
  match hex_value a, hex_value b, hex_value c, hex_value d with
  | Some x, Some y, Some z, Some w => Some (((x * 16 + y) * 16 + z) * 16 + w)%N
  | _, _, _, _ => None
  end.

(** The character a one-letter escape stands for. *)
Definition unescape (c : ascii) : option ascii :=
  if Ascii.eqb c dquote then Some dquote
  else if Ascii.eqb c backslash then Some backslash
  else if Ascii.eqb c "/" then Some "/"%char
  else if Ascii.eqb c "b" then Some "008"%char
  else if Ascii.eqb c "f" then Some "012"%char
  else if Ascii.eqb c "n" then Some "010"%char
  else if Ascii.eqb c "r" then Some "013"%char
  else if Ascii.eqb c "t" then Some "009"%char
  else None.

(** A string, from the character after its opening quote on; strict mode:
    a raw control character is an error. *)
Fixpoint scanstring (s : string) : scan string :=
  match s with
  | EmptyString => Malformed
  | String c r =>
      if Ascii.eqb c dquote then Scanned EmptyString r
      else if Ascii.eqb c backslash then
        match r with
        | EmptyString => Malformed
        | String e r1 =>
            if Ascii.eqb e "u" then
              match r1 with
              | String h1 (String h2 (String h3 (String h4 r2))) =>
                  match hex4 h1 h2 h3 h4 with
                  | Some n =>
                      if (n <=? 255)%N
                      then scan_map (String (ascii_of_N n)) (scanstring r2)
                      else Unmodelled
                  | None => Malformed
                  end
              | _ => Malformed
              end
            else
              match unescape e with
              | Some ch => scan_map (String ch) (scanstring r1)
              | None => Malformed
              end
        end
      else if (code c <? 32)%N then Malformed
      else scan_map (String c) (scanstring r)
  end.

(** The longest run of decimal digits at the front, read as a number
    continuing [acc], and the text after it. *)
Fixpoint scan_digits (acc : Z) (s : string) : Z * string :=
  match s with
  | String c r =>
      if Py.isdigit c then scan_digits (10 * acc + Py.digit_value c) r
      else (acc, s)
  | EmptyString => (acc, s)
  end.

Definition starts_with_digit (s : string) : bool :=
  match s with
  | String c _ => Py.isdigit c
  | EmptyString => false
  end.

(** A fraction follows: a dot and a digit. *)
Definition fraction_follows (s : string) : bool :=
  match s with
  | String c r => Ascii.eqb c "." && starts_with_digit r
  | EmptyString => false
  end.

(** An exponent follows: e or E, an optional sign and a digit. *)
Definition exponent_follows (s : string) : bool :=
  match s with
  | String c r =>
      (Ascii.eqb c "e" || Ascii.eqb c "E")
      && (starts_with_digit r
          || match r with
             | String g r1 =>
                 (Ascii.eqb g "+" || Ascii.eqb g "-") && starts_with_digit r1
             | EmptyString => false
             end)
  | EmptyString => false
  end.

(** The integer part (an optional minus sign, then 0 or a run of digits
    that does not start with 0) has been read as [z]: a fraction or an
    exponent after it makes the number a real one. *)
Definition integer_or_real (z : Z) (rest : string) : scan Z :=
  if fraction_follows rest || exponent_follows rest then Unmodelled
  else Scanned z rest.

Definition scan_unsigned (negative : bool) (s : string) : scan Z :=
  match s with
  | String c r =>
      if Ascii.eqb c "0" then integer_or_real 0 r
      else if Py.isdigit c then
        let (n, rest) := scan_digits (Py.digit_value c) r in
        integer_or_real (if negative then - n else n) rest
      else Malformed
  | EmptyString => Malformed
  end.

(** A number at the front of [s]; [Malformed] when the pattern of numbers
    does not match there. *)
Definition scan_number (s : string) : scan Z :=
  match s with
  | String c r =>
      if Ascii.eqb c "-" then scan_unsigned true r else scan_unsigned false s
  | EmptyString => Malformed
  end.

(** [s[n:]] *)
Fixpoint drop (n : nat) (s : string) : string :=
  match n, s with
  | S m, String _ r => drop m r
  | _, _ => s
  end.

(** [dict(pairs)]: a key met again keeps its place and takes the later
    value. *)
Definition dict_of_pairs (pairs : list (string * value)) : dict :=
  fold_left (fun d kv => dict_set d (fst kv) (snd kv)) pairs [].

(** One value at the front of [s], which does not start with whitespace;
    the elements of a list, from the first one on; the members of an
    object, from the character after the opening quote of a key on. *)
Fixpoint scan_once (fuel : nat) (s : string) : scan value :=
  match fuel with
  | O => Exhausted
  | S n =>
      match s with
      | EmptyString => Malformed
      | String c r =>
          if Ascii.eqb c dquote then scan_map VStr (scanstring r)
          else if Ascii.eqb c "{" then
            match skip_ws r with
            | String c1 r1 =>
                if Ascii.eqb c1 "}" then Scanned (VDict []) r1
                else if Ascii.eqb c1 dquote
                     then scan_map (fun ps => VDict (dict_of_pairs ps))
                                   (scan_members n r1)
                     else Malformed
            | EmptyString => Malformed
            end
          else if Ascii.eqb c "[" then
            match skip_ws r with
            | String c1 r1 =>
                if Ascii.eqb c1 "]" then Scanned (VList []) r1
                else scan_map VList (scan_elements n (String c1 r1))
            | EmptyString => Malformed
            end
          else if Py.startswith s "null" then Scanned VNone (drop 4 s)
          else if Py.startswith s "true" then Scanned (VBool true) (drop 4 s)
          else if Py.startswith s "false" then Scanned (VBool false) (drop 5 s)
          else
            match scan_number s with
            | Scanned z rest => Scanned (VInt z) rest
            | Malformed =>
                if Py.startswith s "NaN" || Py.startswith s "Infinity"
                   || Py.startswith s "-Infinity"
                then Unmodelled else Malformed
            | Unmodelled => Unmodelled
            | Exhausted => Exhausted
            end
      end
  end

with scan_elements (fuel : nat) (s : string) : scan (list value) :=
  match fuel with
  | O => Exhausted
  | S n =>
      match scan_once n s with
      | Scanned v r =>
          match skip_ws r with
          | String c r1 =>
              if Ascii.eqb c "," then
                scan_map (cons v) (scan_elements n (skip_ws r1))
              else if Ascii.eqb c "]" then Scanned [v] r1
              else Malformed
          | EmptyString => Malformed
          end
      | Malformed => Malformed
      | Unmodelled => Unmodelled
      | Exhausted => Exhausted
      end
  end

with scan_members (fuel : nat) (s : string) : scan (list (string * value)) :=
  match fuel with
  | O => Exhausted
  | S n =>
      match scanstring s with
      | Scanned key r =>
          match skip_ws r with
          | String c r1 =>
              if Ascii.eqb c ":" then
                match scan_once n (skip_ws r1) with
                | Scanned v r2 =>
                    match skip_ws r2 with
                    | String c2 r3 =>
                        if Ascii.eqb c2 "}" then Scanned [(key, v)] r3
                        else if Ascii.eqb c2 "," then
                          match skip_ws r3 with
                          | String c3 r4 =>
                              if Ascii.eqb c3 dquote
                              then scan_map (cons (key, v)) (scan_members n r4)
                              else Malformed
                          | EmptyString => Malformed
                          end
                        else Malformed
                    | EmptyString => Malformed
                    end
                | Malformed => Malformed
                | Unmodelled => Unmodelled
                | Exhausted => Exhausted
                end
              else Malformed
          | EmptyString => Malformed
          end
      | Malformed => Malformed
      | Unmodelled => Unmodelled
      | Exhausted => Exhausted
      end
  end.

(** Fuel that never runs out on [s] ([enough_fuel]). *)
Definition fuel_for (s : string) : nat := 2 * String.length s + 1.

(** [json.loads(s)]: one value with whitespace around it and nothing
    else. *)
Definition loads (s : string) : result value :=
  match scan_once (fuel_for s) (skip_ws s) with
  | Scanned v rest =>
      match skip_ws rest with
      | EmptyString => Ok v
      | String _ _ => Raise JSONDecodeError
      end
  | Malformed => Raise JSONDecodeError
  | Unmodelled => Beyond
  | Exhausted => Beyond
  end.

(** *** Encoding: [json.dumps] *)

Module Encoder.

Definition hex_digit (n : N) : ascii :=
  ascii_of_N (if (n <? 10)%N then n + 48 else n + 87).

(** The text one character of a string is written as.  With
    [ensure_ascii] everything outside U+0020..007E is escaped; without it
    only the control characters below U+0020 are. *)
Definition escape (ensure_ascii : bool) (c : ascii) : string :=
  if Ascii.eqb c dquote then String backslash (String dquote EmptyString)
  else if Ascii.eqb c backslash then String backslash (String backslash EmptyString)
  else if Ascii.eqb c "010" then "\n"
  else if Ascii.eqb c "013" then "\r"
  else if Ascii.eqb c "009" then "\t"
  else if Ascii.eqb c "008" then "\b"
  else if Ascii.eqb c "012" then "\f"
  else if (code c <? 32)%N || (ensure_ascii && (126 <? code c)%N) then
    "\u00" ++ String (hex_digit (code c / 16)) (String (hex_digit (code c mod 16)) EmptyString)
  else String c EmptyString.

Fixpoint escape_string (ensure_ascii : bool) (s : string) : string :=
  match s with
  | EmptyString => EmptyString
  | String c r => escape ensure_ascii c ++ escape_string ensure_ascii r
  end.

Definition encode_str (ensure_ascii : bool) (s : string) : string :=
  String dquote (escape_string ensure_ascii s ++ String dquote EmptyString).

Definition digit_char (d : Z) : ascii := ascii_of_N (Z.to_N d + 48).

(** The decimal digits of [n >= 0] written in front of [acc]; [fuel]
    bounds the number of digits after the first. *)
Fixpoint decimal_acc (fuel : nat) (n : Z) (acc : string) : string :=
  let acc' := String (digit_char (n mod 10)) acc in
  match fuel with
  | O => acc'
  | S f => if n <? 10 then acc' else decimal_acc f (n / 10) acc'
  end.

Definition decimal (n : Z) : string :=
  decimal_acc (Z.to_nat (Z.log2 n)) n EmptyString.

(** [str(z)] for an integer. *)
Definition encode_int (z : Z) : string :=
  if z <? 0 then String "-" (decimal (- z)) else decimal z.

Fixpoint spaces (n : nat) : string :=
  match n with
  | O => EmptyString
  | S m => String " " (spaces m)
  end.

(** The parameters of [json.dumps] the program sets. *)
Record style : Type := {
  ensure_ascii : bool;
  indent : option nat;
  item_separator : string;
  key_separator : string
}.

(** Line feed and indentation of nesting depth [level], when an
    indentation is asked for. *)
Definition newline_indent (st : style) (level : nat) : string :=
  match indent st with
  | Some k => String newline (spaces (k * level))
  | None => EmptyString
  end.

(** The items of a list or of a dictionary, already encoded, between
    the brackets [opening] and [closing] at depth [level]. *)
Definition container (st : style) (level : nat) (opening closing : string)
           (items : list string) : string :=
  match items with
  | [] => opening ++ closing
  | _ =>
      opening ++ newline_indent st (S level)
      ++ String.concat (item_separator st ++ newline_indent st (S level)) items
      ++ newline_indent st level ++ closing
  end.

Fixpoint encode (st : style) (level : nat) (v : value) : string :=
  match v with
  | VNone => "null"
  | VBool true => "true"
  | VBool false => "false"
  | VInt z => encode_int z
  | VStr s => encode_str (ensure_ascii st) s
  | VList l =>
      container st level "[" "]" (map (encode st (S level)) l)
  | VDict d =>
      container st level "{" "}"
        (map (fun kv => encode_str (ensure_ascii st) (fst kv) ++ key_separator st
                        ++ encode st (S level) (snd kv)) d)
  end.

End Encoder.

(** [json.dumps(v, separators=(',',':'))] *)
Definition compact : Encoder.style :=
  {| Encoder.ensure_ascii := true; Encoder.indent := None;
     Encoder.item_separator := ","; Encoder.key_separator := ":" |}.

(** [json.dumps(v, indent=2)] *)
Definition indented : Encoder.style :=
  {| Encoder.ensure_ascii := true; Encoder.indent := Some 2%nat;
     Encoder.item_separator := ","; Encoder.key_separator := ": " |}.

(** [json.dumps(v, indent=2, ensure_ascii=False)] *)
Definition indented_raw : Encoder.style :=
  {| Encoder.ensure_ascii := false; Encoder.indent := Some 2%nat;
     Encoder.item_separator := ","; Encoder.key_separator := ": " |}.

(** [json.dumps(v, ensure_ascii=False)] *)
Definition plain_raw : Encoder.style :=
  {| Encoder.ensure_ascii := false; Encoder.indent := None;
     Encoder.item_separator := ", "; Encoder.key_separator := ": " |}.

Definition dumps (st : Encoder.style) (v : value) : string :=
  Encoder.encode st 0 v.

End Json.

(** ** The response parser: [safe_json_extract] *)

Definition fallback : value :=
  VDict [("narration", VStr "Invalid GM response."); ("state_change", VList [])].

Definition safe_json_extract (text : string) : result value :=
  match Json.loads text with
  | Raise JSONDecodeError =>
      let start := Py.find "{" text in
      let end_ := Py.rfind "}" text + 1 in
      if negb (start =? -1) && negb (end_ =? -1) then
        match Json.loads (Py.slice text start end_) with
        | Raise JSONDecodeError => Ok fallback
        | parsed => parsed
        end
      else Ok fallback
  | parsed => parsed
  end.

(** ** The world around the engine *)

(** What running [ollama run MODEL] on a prompt gives: the two output
    streams, or an exception with its text. *)
Inductive process : Type :=
| Completed (stdout stderr : string)
| Failed (error : string).

(** The files the program reads and writes and the backend.  [ollama]
    answers the prompt of the call of a given rank; [sent] lists the
    prompts handed to it so far, oldest first. *)
Record world : Type := {
  gm_prompt : option string;
  save_file : option string;
  transcript : string;
  ollama : nat -> string -> process;
  sent : list string
}.

(** Computations that read and write the world and may raise. *)
Definition M (A : Type) : Type := world -> result A * world.

Definition ret {A : Type} (a : A) : M A := fun w => (Ok a, w).

Definition lift {A : Type} (r : result A) : M A := fun w => (r, w).

Definition bindM {A B : Type} (m : M A) (k : A -> M B) : M B :=
  fun w =>
    match m w with
    | (Ok a, w1) => k a w1
    | (Raise e, w1) => (Raise e, w1)
    | (Beyond, w1) => (Beyond, w1)
    end.

Notation "'let*' x ':=' m 'in' k" := (bindM m (fun x => k))
  (at level 10, x name, m at level 100, k at level 200).

Definition nl : string := String newline EmptyString.

(** [GM_PROMPT_PATH.read_text(encoding="utf-8")] *)
Definition read_gm_prompt : M string :=
  fun w =>
    match gm_prompt w with
    | Some text => (Ok text, w)
    | None => (Raise FileNotFoundError, w)
    end.

(** [save_json(obj, SAVE_PATH)] *)
Definition save_json (obj : value) : M unit :=
  fun w =>
    (Ok tt,
     {| gm_prompt := gm_prompt w;
        save_file := Some (Json.dumps Json.indented_raw obj);
        transcript := transcript w;
        ollama := ollama w;
        sent := sent w |}).

(** [load_json(SAVE_PATH)], the file being there. *)
Definition load_json (content : string) : M value :=
  lift (Json.loads content).

(** [append_transcript(entry)] *)
Definition append_transcript (entry : value) : M unit :=
  fun w =>
    (Ok tt,
     {| gm_prompt := gm_prompt w;
        save_file := save_file w;
        transcript := transcript w ++ Json.dumps Json.plain_raw entry ++ nl;
        ollama := ollama w;
        sent := sent w |}).

(** [call_ollama(prompt)]: an exception of the subprocess ends the
    program with a message. *)
Definition call_ollama (prompt : string) : M string :=
  fun w =>
    let w1 := {| gm_prompt := gm_prompt w;
                 save_file := save_file w;
                 transcript := transcript w;
                 ollama := ollama w;
                 sent := (sent w ++ [prompt])%list |} in
    match ollama w (List.length (sent w)) prompt with
    | Completed stdout stderr =>
        let out := Py.strip stdout in
        (Ok (if (out =? "")%string then Py.strip stderr else out), w1)
    | Failed error =>
        (Raise (SystemExit (ExitMessage ("[Error contacting Ollama: " ++ error ++ "]"))),
         w1)
    end.

(** ** The engine *)

Definition MAX_HISTORY : nat := 6.

(** [aliased] tells that the values of the state are still the objects
    of [rules["START"]], of which the state was copied key by key: the
    inventory list and the flags dictionary, changed in place by the
    mutator, are then the ones the rules hold. *)
Record GameEngine : Type := {
  rules : dict;
  state : dict;
  history : list value;
  aliased : bool
}.

(** [GameEngine(rules)], for a [START] that is an object or is absent. *)
Definition new_engine (rules : dict) : result GameEngine :=
  match get_default rules "START" (VDict []) with
  | VDict start =>
      Ok {| rules := rules; state := start; history := []; aliased := true |}
  | VNone | VBool _ | VInt _ => Raise TypeError
  | VStr _ | VList _ => Beyond
  end.

(** The rules once the mutator has brought the state to [state']: what
    [START] shares with the state follows it. *)
Definition follow (k : string) (state' start : dict) : dict :=
  match dict_get start k, dict_get state' k with
  | Some _, Some v => dict_set start k v
  | _, _ => start
  end.

Definition rules_after (eng : GameEngine) (state' : dict) : dict :=
  if aliased eng then
    match dict_get (rules eng) "START" with
    | Some (VDict start) =>
        dict_set (rules eng) "START"
                 (VDict (follow "flags" state' (follow "inventory" state' start)))
    | _ => rules eng
    end
  else rules eng.

(** [l[-n:]] *)
Definition last_n {A : Type} (n : nat) (l : list A) : list A :=
  skipn (List.length l - n) l.

Definition INSTRUCTIONS : string :=
  "INSTRUCTIONS: Reply strictly as JSON with keys 'narration' and 'state_change' ".

Definition build_prompt (eng : GameEngine) (player_cmd : string) : M string :=
  let* gm_text := read_gm_prompt in
  ret (gm_text ++ nl ++ nl
       ++ "RULES_JSON:" ++ Json.dumps Json.compact (VDict (rules eng)) ++ nl
       ++ "CURRENT_STATE:" ++ Json.dumps Json.compact (VDict (state eng)) ++ nl
       ++ "RECENT_HISTORY:"
       ++ Json.dumps Json.indented (VList (last_n MAX_HISTORY (history eng))) ++ nl
       ++ "PLAYER_COMMAND:" ++ player_cmd ++ nl ++ nl
       ++ INSTRUCTIONS).

(** [sep.join(v)]: the exception only; what is printed is left out. *)
Definition join_check (v : value) : result unit :=
  items <- iterate v ;;
  if forallb (fun x => match x with VStr _ => true | _ => false end) items
  then Ok tt else Raise TypeError.

Definition history_entry (cmd : string) (narration state_change : value) : dict :=
  [("player", VStr cmd);
   ("gm", VDict [("narration", narration); ("state_change", state_change)])].

Definition handle_command (eng : GameEngine) (cmd : string) : M GameEngine :=
  let cmd := Py.lower cmd in
  if (cmd =? "help")%string then
    let* _ := lift (join_check (get_default (rules eng) "COMMANDS" (VList []))) in
    ret eng
  else if (cmd =? "inventory")%string then
    let* _ := lift (join_check (get_default (state eng) "inventory" (VList []))) in
    ret eng
  else if (cmd =? "save")%string then
    let* _ := save_json (VDict (state eng)) in
    ret eng
  else if (cmd =? "load")%string then
    fun w =>
      match save_file w with
      | Some content =>
          (let* loaded := load_json content in
           match loaded with
           | VDict d =>
               ret {| rules := rules eng; state := d;
                      history := history eng; aliased := false |}
           | _ => lift Beyond
           end) w
      | None => ret eng w
      end
  else if (cmd =? "quit")%string then
    lift (Raise (SystemExit (ExitStatus 0)))
  else
    let* prompt := build_prompt eng cmd in
    let* raw := call_ollama prompt in
    let* parsed := lift (safe_json_extract raw) in
    let* narration := lift (method_get parsed "narration" (VStr "")) in
    let* state_change := lift (method_get parsed "state_change" (VList [])) in
    let* state' := lift (apply_state_changes (state eng) state_change) in
    let rules' := rules_after eng state' in
    let history' := (history eng ++ [VDict (history_entry cmd narration state_change)])%list in
    let* _ := append_transcript
                (VDict (history_entry cmd narration state_change
                        ++ [("state", VDict state')])%list) in
    let* end_reason := lift (check_end_conditions rules' state') in
    match end_reason with
    | Some reason =>
        if (reason =? "")%string
        then ret {| rules := rules'; state := state';
                    history := history'; aliased := aliased eng |}
        else lift (Raise (SystemExit (ExitStatus 0)))
    | None =>
        ret {| rules := rules'; state := state';
               history := history'; aliased := aliased eng |}
    end.

(** ** Well-formed values *)

Fixpoint distinct (keys : list string) : bool :=
  match keys with
  | [] => true
  | k :: rest => negb (existsb (String.eqb k) rest) && distinct rest
  end.

(** The keys of every dictionary inside [v] are pairwise distinct, as
    those of a Python dictionary are. *)
Fixpoint wf_value (v : value) : bool :=
  match v with
  | VList l => forallb wf_value l
  | VDict d => distinct (map fst d) && forallb (fun kv => wf_value (snd kv)) d
  | _ => true
  end.

(** ** Sample data of the statements *)

(** [s] between double quotes. *)
Definition quoted (s : string) : string :=
  String dquote (s ++ String dquote EmptyString).

(** A reply with prose around the object:
    Sure! {"narration":"You enter.","state_change":["move_to:cave"]} Good luck. *)
Definition sample_object : string :=
  "{" ++ quoted "narration" ++ ":" ++ quoted "You enter." ++ ","
  ++ quoted "state_change" ++ ":[" ++ quoted "move_to:cave" ++ "]}".

Definition sample_reply : string := "Sure! " ++ sample_object ++ " Good luck.".

(** The shape asked of a reply: exactly the keys [narration], a string or
    a list of strings, and [state_change], a list of strings. *)
Definition is_str (v : value) : bool :=
  match v with VStr _ => true | _ => false end.



(** The five commands the engine answers itself. *)
Definition builtin (cmd : string) : bool :=
  (cmd =? "help")%string || (cmd =? "inventory")%string
  || (cmd =? "save")%string || (cmd =? "load")%string
  || (cmd =? "quit")%string.

(** The end of a prompt that forwards [cmd]. *)
Definition command_line (cmd : string) : string :=
  "PLAYER_COMMAND:" ++ cmd ++ nl ++ nl ++ INSTRUCTIONS.

Definition sample_engine : GameEngine :=
  {| rules := [("START", VDict [("hp", VInt 10)])];
     state := [("hp", VInt 10)];
     history := [];
     aliased := true |}.

Definition sample_world : world :=
  {| gm_prompt := Some "You are the game master.";
     save_file := None;
     transcript := "";
     ollama := fun _ _ => Completed sample_reply "";
     sent := [] |}.

(** ** Notions of the statements and of their proofs *)

(** An atom none of the five prefixes matches. *)
Definition unrecognized (atom : string) : Prop :=
  Py.startswith atom "move_to:" = false
  /\ Py.startswith atom "add_item:" = false
  /\ Py.startswith atom "remove_item:" = false
  /\ Py.startswith atom "set_flag:" = false
  /\ Py.startswith atom "hp_delta:" = false.

(** What each recognized atom does to a typed state: the state after
    [add_item], [remove_item], [set_flag] and [hp_delta]. *)
Definition after_add (s : dict) (item : string) : dict :=
  let s1 := setdefault s "inventory" (VList []) in
  if in_list item (inventory s) then s1
  else dict_set s1 "inventory" (VList (inventory s ++ [VStr item])).

Definition after_remove (s : dict) (item : string) : dict :=
  if in_list item (inventory s)
  then dict_set s "inventory" (VList (remove_first item (inventory s)))
  else s.

Definition after_flag (s : dict) (flag : string) : dict :=
  dict_set (setdefault s "flags" (VDict [])) "flags"
           (VDict (dict_set (flags s) flag (VBool true))).

Definition after_hp (s : dict) (delta : Z) : dict :=
  let hp := int_field s "hp" + delta in
  let s1 := dict_set s "hp" (VInt hp) in
  if hp <=? 0 then after_flag s1 "hp_zero" else s1.

(** A flag that is set: present in [flags] and [True]. *)
Definition flag_set (s : dict) (f : string) : Prop :=
  dict_get (flags s) f = Some (VBool true).

(** How many times [item] occurs in a list. *)
Definition count_item (item : string) (l : list value) : nat :=
  List.length (filter (eq_str item) l).

(** The inventory once [item] has been added. *)
Definition with_item (item : string) (l : list value) : list value :=
  if in_list item l then l else (l ++ [VStr item])%list.

(** A computation that hands nothing to the backend. *)
Definition keeps_sent {A : Type} (m : M A) : Prop :=
  forall w, sent (snd (m w)) = sent w.

(** The number read when the digits of [n] follow a number read as [a]. *)
Fixpoint push (fuel : nat) (a n : Z) : Z :=
  match fuel with
  | O => 10 * a + n mod 10
  | S f => if n <? 10 then 10 * a + n mod 10
           else 10 * push f a (n / 10) + n mod 10
  end.

(** What may follow a number: not a digit, a dot or an exponent mark. *)
Definition delimited (rest : string) : bool :=
  match rest with
  | EmptyString => true
  | String c _ =>
      negb (Py.isdigit c) && negb (Ascii.eqb c ".")
      && negb (Ascii.eqb c "e") && negb (Ascii.eqb c "E")
  end.

(** A text that starts as an encoded value does. *)
Definition starts_value (s : string) : bool :=
  match s with
  | String c _ => negb (Json.is_ws c) && negb (Ascii.eqb c "]")
  | EmptyString => false
  end.

(** The separators the decoder reads back: a comma and a colon, each
    followed by whitespace only. *)
Definition well_separated (st : Json.Encoder.style) : Prop :=
  exists a b,
    Json.Encoder.item_separator st = String "," a
    /\ Json.Encoder.key_separator st = String ":" b
    /\ Json.skip_ws a = "" /\ Json.skip_ws b = "".

(** A value whose encoding, in any style with such separators and at any
    depth, is decoded back to it, whatever delimited text follows. *)
Definition roundtrips (v : value) : Prop :=
  forall st level rest fuel,
    well_separated st ->
    delimited rest = true ->
    (2 * String.length (Json.Encoder.encode st level v ++ rest) + 1 <= fuel)%nat ->
    Json.scan_once fuel (Json.Encoder.encode st level v ++ rest)
    = Json.Scanned v rest.

(** The text of the items of a container and of its closing bracket. *)
Definition items_text (st : Json.Encoder.style) (level : nat)
           (items : list string) (closing : ascii) (rest : string) : string :=
  String.concat (Json.Encoder.item_separator st
                 ++ Json.Encoder.newline_indent st (S level)) items
  ++ Json.Encoder.newline_indent st level ++ String closing rest.

(** The text of one member of a dictionary. *)
Definition member_text (st : Json.Encoder.style) (level : nat)
           (kv : string * value) : string :=
  Json.Encoder.encode_str (Json.Encoder.ensure_ascii st) (fst kv)
  ++ Json.Encoder.key_separator st
  ++ Json.Encoder.encode st (S level) (snd kv).

(** [s[1:]] *)
Definition tail_of (s : string) : string :=
  match s with
  | String _ r => r
  | EmptyString => EmptyString
  end.

(** ** Notions of the further properties *)

(** A key the mutator assigns in no atom. *)
Definition unlisted (k : string) : Prop :=
  k <> "location" /\ k <> "inventory" /\ k <> "flags" /\ k <> "hp".

(** The key of the state an atom can assign, by the branch that takes the
    atom: [hp_delta] assigns [hp] and may assign [flags]. *)
Definition touches (atom k : string) : bool :=
  if Py.startswith atom "move_to:" then (k =? "location")%string
  else if Py.startswith atom "add_item:" then (k =? "inventory")%string
  else if Py.startswith atom "remove_item:" then (k =? "inventory")%string
  else if Py.startswith atom "set_flag:" then (k =? "flags")%string
  else if Py.startswith atom "hp_delta:" then
    (k =? "hp")%string || (k =? "flags")%string
  else false.

(** No string occurs twice in the list. *)
Definition no_duplicates (l : list value) : Prop :=
  forall item, (count_item item l <= 1)%nat.




(** The entry a turn writes to the transcript. *)
Definition transcript_entry (cmd : string) (narration state_change : value)
           (state' : dict) : value :=
  VDict (history_entry cmd narration state_change ++ [("state", VDict state')])%list.

(** The engine after a turn that goes on. *)
Definition engine_after (eng : GameEngine) (cmd : string)
           (narration state_change : value) (state' : dict) : GameEngine :=
  {| rules := rules_after eng state';
     state := state';
     history := (history eng ++ [VDict (history_entry cmd narration state_change)])%list;
     aliased := aliased eng |}.

(** An engine whose rules ask for a flag to win. *)
Definition questing_engine : GameEngine :=
  {| rules := [("START", VDict [("hp", VInt 10); ("inventory", VList [])]);
               ("END_CONDITIONS",
                VDict [("WIN_ALL_FLAGS", VList [VStr "crown"]);
                       ("LOSE_ANY_FLAGS", VList [VStr "hp_zero"]);
                       ("MAX_TURNS", VInt 20)])];
     state := [("hp", VInt 10); ("inventory", VList [])];
     history := [];
     aliased := true |}.

(** The engine with another history. *)
Definition with_history (eng : GameEngine) (h : list value) : GameEngine :=
  {| rules := rules eng; state := state eng; history := h;
     aliased := aliased eng |}.

(** [START] of the rules holds the inventory and the flags of the state,
    where it has them. *)
Definition start_tracks (eng : GameEngine) : Prop :=
  forall start k,
    dict_get (rules eng) "START" = Some (VDict start) ->
    k = "inventory" \/ k = "flags" ->
    dict_get start k <> None ->
    dict_get start k = dict_get (state eng) k.

(** ** The command loop: [main] *)

(** What [input] meets at a prompt: a line, or Ctrl-C.  After the last
    event the input is at its end. *)
Inductive event : Type :=
| Line (text : string)
| Interrupt.

(** How the loop ends: left by [break] on [KeyboardInterrupt], with the
    engine as it is then; by the [EOFError] of [input], which nothing
    catches; or by an exception of [handle_command], [SystemExit] among
    them. *)
Inductive session_end : Type :=
| Interrupted (eng : GameEngine)
| EndOfInput (eng : GameEngine)
| Stopped (e : exn)
| OutOfModel.

(** The [while True] loop of [main], on the events of the input. *)
Fixpoint main_loop (eng : GameEngine) (events : list event) (w : world)
  : session_end * world :=
  match events with
  | [] => (EndOfInput eng, w)
  | Interrupt :: _ => (Interrupted eng, w)
  | Line text :: rest =>
      let cmd := Py.strip text in
      if (cmd =? "")%string then main_loop eng rest w
      else
        match handle_command eng cmd w with
        | (Ok eng', w') => main_loop eng' rest w'
        | (Raise e, w') => (Stopped e, w')
        | (Beyond, w') => (OutOfModel, w')
        end
  end.

(** The text [main] prints first. *)
Definition intro_text (rules : dict) : result string :=
  intro <- method_get (get_default rules "QUEST" (VDict [])) "intro"
                      (VStr "Welcome to AI Dungeon!") ;;
  match intro with
  | VStr s => Ok (nl ++ s ++ nl)
  | _ => Raise TypeError
  end.

(** [main()], the rules file holding [rules_file] when it is there. *)
Definition main (rules_file : option string) (events : list event) (w : world)
  : session_end * world :=
  match rules_file with
  | None => (Stopped FileNotFoundError, w)
  | Some content =>
      match Json.loads content with
      | Ok (VDict rules) =>
          match new_engine rules with
          | Ok eng =>
              match intro_text rules with
              | Ok _ => main_loop eng events w
              | Raise e => (Stopped e, w)
              | Beyond => (OutOfModel, w)
              end
          | Raise e => (Stopped e, w)
          | Beyond => (OutOfModel, w)
          end
      | Ok _ => (Stopped AttributeError, w)
      | Raise e => (Stopped e, w)
      | Beyond => (OutOfModel, w)
      end
  end.

(** The engine a session is left with when no command is under way. *)
Definition engine_at_end (e : session_end) : option GameEngine :=
  match e with
  | Interrupted eng | EndOfInput eng => Some eng
  | _ => None
  end.

(** The input as the loop reads it: blank lines dropped, every other
    line stripped and in lower case. *)
Fixpoint tidy (events : list event) : list event :=
  match events with
  | [] => []
  | Interrupt :: rest => Interrupt :: tidy rest
  | Line text :: rest =>
      if (Py.strip text =? "")%string then tidy rest
      else Line (Py.lower (Py.strip text)) :: tidy rest
  end.

(** The commands of the input that go to the backend, up to the first
    Ctrl-C: the lines that are not blank and not a built-in. *)
Fixpoint turns_asked (events : list event) : nat :=
  match events with
  | [] => 0
  | Interrupt :: _ => 0
  | Line text :: rest =>
      if (Py.strip text =? "")%string || builtin (Py.lower (Py.strip text))
      then turns_asked rest
      else S (turns_asked rest)
  end.

(** The inventory, when the state has one, is a list of strings. *)
Definition strings_only (s : dict) : bool :=
  match dict_get s "inventory" with
  | None => true
  | Some (VList l) => forallb is_str l
  | Some _ => false
  end.

(* ================================================================== *)
(** * Properties *)

(** ** Dictionaries *)

Lemma dict_get_set (d : dict) (k k' : string) (v : value) :
  dict_get (dict_set d k v) k' =
  if (k =? k')%string then Some v else dict_get d k'.
Proof.
  induction d as [|[k0 v0] d IH]; simpl.
  - reflexivity.
  - destruct (String.eqb_spec k0 k) as [->|Hk0]; simpl.
    + destruct (String.eqb_spec k k'); reflexivity.
    + rewrite IH.
      destruct (String.eqb_spec k0 k') as [->|Hk0'];
        destruct (String.eqb_spec k k') as [->|Hk]; congruence.
Qed.

Lemma dict_get_setdefault (d : dict) (k k' : string) (v : value) :
  dict_get (setdefault d k v) k' =
  if (k =? k')%string
  then Some (get_default d k v)
  else dict_get d k'.
Proof.
  unfold setdefault, get_default.
  destruct (dict_get d k) eqn:E.
  - destruct (String.eqb_spec k k') as [<-|]; [exact E | reflexivity].
  - apply dict_get_set.
Qed.

(** ** Strings *)

Lemma startswith_app (s p : string) :
  Py.startswith s p = true -> exists r, s = p ++ r.
Proof.
  revert s. induction p as [|c p IH]; intros s H.
  - exists s. reflexivity.
  - destruct s as [|a s]; simpl in H; [discriminate|].
    apply andb_true_iff in H. destruct H as [Hc H].
    apply Ascii.eqb_eq in Hc. subst a.
    destruct (IH s H) as [r ->]. exists r. reflexivity.
Qed.

Lemma startswith_prefix (p r : string) : Py.startswith (p ++ r) p = true.
Proof.
  induction p as [|c p IH]; simpl.
  - reflexivity.
  - rewrite Ascii.eqb_refl. exact IH.
Qed.

(** ** The state mutator, atom by atom *)

Lemma typed_state_fields (s : dict) :
  typed_state s = true <->
  list_or_absent (dict_get s "inventory") = true
  /\ dict_or_absent (dict_get s "flags") = true
  /\ int_or_absent (dict_get s "hp") = true
  /\ int_or_absent (dict_get s "turns") = true.
Proof.
  unfold typed_state. rewrite !andb_true_iff. tauto.
Qed.

Lemma apply_atom_move (s : dict) (p : string) :
  apply_atom s ("move_to:" ++ p) = Ok (dict_set s "location" (VStr (Py.strip p))).
Proof. reflexivity. Qed.

Lemma apply_atom_add (s : dict) (p : string) :
  apply_atom s ("add_item:" ++ p) =
  (let item := Py.strip p in
   let s1 := setdefault s "inventory" (VList []) in
   present <- py_in item (get_default s1 "inventory" VNone) ;;
   if present then Ok s1 else inventory_append s1 item).
Proof. reflexivity. Qed.

Lemma apply_atom_remove (s : dict) (p : string) :
  apply_atom s ("remove_item:" ++ p) =
  (let item := Py.strip p in
   present <- py_in item (get_default s "inventory" (VList [])) ;;
   if present then inventory_remove s item else Ok s).
Proof. reflexivity. Qed.

Lemma apply_atom_flag (s : dict) (p : string) :
  apply_atom s ("set_flag:" ++ p) = raise_flag s (Py.strip p).
Proof. reflexivity. Qed.

Lemma apply_atom_hp (s : dict) (p : string) :
  apply_atom s ("hp_delta:" ++ p) =
  (let delta := match Py.int p with Some z => z | None => 0 end in
   hp <- add_int (get_default s "hp" (VInt 0)) delta ;;
   let s1 := dict_set s "hp" (VInt hp) in
   if hp <=? 0 then raise_flag s1 "hp_zero" else Ok s1).
Proof. reflexivity. Qed.

Lemma apply_atom_unrecognized (s : dict) (atom : string) :
  unrecognized atom -> apply_atom s atom = Ok s.
Proof.
  intros (H1 & H2 & H3 & H4 & H5). unfold apply_atom.
  rewrite H1, H2, H3, H4, H5. reflexivity.
Qed.

(** Every atom is of one of the six shapes. *)
Lemma atom_shape (atom : string) :
  (exists p, atom = "move_to:" ++ p)
  \/ (exists p, atom = "add_item:" ++ p)
  \/ (exists p, atom = "remove_item:" ++ p)
  \/ (exists p, atom = "set_flag:" ++ p)
  \/ (exists p, atom = "hp_delta:" ++ p)
  \/ unrecognized atom.
Proof.
  destruct (Py.startswith atom "move_to:") eqn:H1;
    [left; now apply startswith_app|right].
  destruct (Py.startswith atom "add_item:") eqn:H2;
    [left; now apply startswith_app|right].
  destruct (Py.startswith atom "remove_item:") eqn:H3;
    [left; now apply startswith_app|right].
  destruct (Py.startswith atom "set_flag:") eqn:H4;
    [left; now apply startswith_app|right].
  destruct (Py.startswith atom "hp_delta:") eqn:H5;
    [left; now apply startswith_app|right].
  repeat split; assumption.
Qed.

Ltac field_cases s k :=
  let E := fresh "E" in
  destruct (dict_get s k) as [[| | | | |]|] eqn:E; try discriminate.

Lemma add_effect (s : dict) (p : string) :
  typed_state s = true ->
  apply_atom s ("add_item:" ++ p) = Ok (after_add s (Py.strip p)).
Proof.
  intros T. apply typed_state_fields in T. destruct T as (Hi & _).
  rewrite apply_atom_add. unfold after_add, inventory_append, inventory, get_default.
  cbv zeta. rewrite !dict_get_setdefault. simpl String.eqb. unfold get_default.
  field_cases s "inventory"; simpl.
  - destruct (in_list (Py.strip p) l); reflexivity.
  - reflexivity.
Qed.

Lemma remove_effect (s : dict) (p : string) :
  typed_state s = true ->
  apply_atom s ("remove_item:" ++ p) = Ok (after_remove s (Py.strip p)).
Proof.
  intros T. apply typed_state_fields in T. destruct T as (Hi & _).
  rewrite apply_atom_remove.
  unfold after_remove, inventory_remove, inventory, get_default. cbv zeta.
  field_cases s "inventory"; simpl.
  - destruct (in_list (Py.strip p) l); reflexivity.
  - reflexivity.
Qed.

Lemma raise_flag_effect (s : dict) (flag : string) :
  dict_or_absent (dict_get s "flags") = true ->
  raise_flag s flag = Ok (after_flag s flag).
Proof.
  intros Hf. unfold raise_flag, after_flag, flags, get_default. cbv zeta.
  rewrite !dict_get_setdefault. simpl String.eqb. unfold get_default.
  field_cases s "flags"; reflexivity.
Qed.

Lemma flag_effect (s : dict) (p : string) :
  typed_state s = true ->
  apply_atom s ("set_flag:" ++ p) = Ok (after_flag s (Py.strip p)).
Proof.
  intros T. apply typed_state_fields in T. destruct T as (_ & Hf & _).
  rewrite apply_atom_flag. now apply raise_flag_effect.
Qed.

Lemma hp_effect (s : dict) (p : string) :
  typed_state s = true ->
  apply_atom s ("hp_delta:" ++ p) =
  Ok (after_hp s (match Py.int p with Some z => z | None => 0 end)).
Proof.
  intros T. apply typed_state_fields in T. destruct T as (_ & Hf & Hh & _).
  rewrite apply_atom_hp. cbv zeta. unfold after_hp, int_field, get_default.
  set (delta := match Py.int p with Some z => z | None => 0 end).
  field_cases s "hp"; simpl;
    match goal with
    | |- context [if ?c then _ else _] => destruct c; try reflexivity
    end;
    apply raise_flag_effect; rewrite dict_get_set; exact Hf.
Qed.

Lemma get_after_flag (s : dict) (flag k : string) :
  dict_get (after_flag s flag) k =
  if ("flags" =? k)%string
  then Some (VDict (dict_set (flags s) flag (VBool true)))
  else dict_get s k.
Proof.
  unfold after_flag. rewrite dict_get_set, dict_get_setdefault.
  destruct ("flags" =? k)%string; reflexivity.
Qed.

Lemma get_after_add (s : dict) (item k : string) :
  list_or_absent (dict_get s "inventory") = true ->
  dict_get (after_add s item) k =
  if ("inventory" =? k)%string
  then Some (VList (if in_list item (inventory s) then inventory s
                    else inventory s ++ [VStr item]))
  else dict_get s k.
Proof.
  intros Hi. unfold after_add. cbv zeta.
  destruct (in_list item (inventory s)) eqn:Hin;
    rewrite ?dict_get_set, dict_get_setdefault;
    destruct (String.eqb_spec "inventory" k) as [<-|]; try reflexivity.
  unfold inventory, get_default. field_cases s "inventory"; reflexivity.
Qed.

Lemma remove_first_absent (item : string) (l : list value) :
  in_list item l = false -> remove_first item l = l.
Proof.
  induction l as [|x l IH]; simpl; [reflexivity|].
  destruct (eq_str item x); simpl; [discriminate|].
  intros H. now rewrite IH.
Qed.

Lemma inventory_after_remove (s : dict) (item : string) :
  inventory (after_remove s item) = remove_first item (inventory s).
Proof.
  unfold after_remove. destruct (in_list item (inventory s)) eqn:Hin.
  - unfold inventory at 1. rewrite dict_get_set. reflexivity.
  - now rewrite remove_first_absent.
Qed.

Lemma get_after_remove_other (s : dict) (item k : string) :
  k <> "inventory" -> dict_get (after_remove s item) k = dict_get s k.
Proof.
  intros Hk. unfold after_remove.
  destruct (in_list item (inventory s)); [|reflexivity].
  rewrite dict_get_set.
  destruct (String.eqb_spec "inventory" k); congruence.
Qed.

Lemma list_or_absent_after_remove (s : dict) (item : string) :
  list_or_absent (dict_get s "inventory") = true ->
  list_or_absent (dict_get (after_remove s item) "inventory") = true.
Proof.
  intros H. unfold after_remove.
  destruct (in_list item (inventory s)); [|exact H].
  rewrite dict_get_set. reflexivity.
Qed.

Lemma flags_set_other (s : dict) (k : string) (v : value) :
  k <> "flags" -> flags (dict_set s k v) = flags s.
Proof.
  intros Hk. unfold flags. rewrite dict_get_set.
  destruct (String.eqb_spec k "flags"); congruence.
Qed.

Lemma get_after_hp (s : dict) (delta : Z) (k : string) :
  dict_get (after_hp s delta) k =
  let hp := int_field s "hp" + delta in
  if (hp <=? 0) && ("flags" =? k)%string
  then Some (VDict (dict_set (flags s) "hp_zero" (VBool true)))
  else if ("hp" =? k)%string then Some (VInt hp) else dict_get s k.
Proof.
  unfold after_hp. cbv zeta.
  destruct (int_field s "hp" + delta <=? 0); simpl.
  - rewrite get_after_flag, dict_get_set, flags_set_other by discriminate.
    reflexivity.
  - apply dict_get_set.
Qed.

Lemma flag_set_after_flag (s : dict) (flag f : string) :
  flag_set s f \/ f = flag -> flag_set (after_flag s flag) f.
Proof.
  unfold flag_set. intros H. unfold flags at 1.
  rewrite get_after_flag. simpl. rewrite dict_get_set.
  destruct (String.eqb_spec flag f) as [->|Hne]; [reflexivity|].
  destruct H; congruence.
Qed.

(** The invariant of the loop: on a typed state every atom is applied
    without an exception, the state stays typed, [turns] is not touched
    and no flag that is set is lost. *)
Lemma apply_atom_typed (s : dict) (atom : string) :
  typed_state s = true ->
  exists s',
    apply_atom s atom = Ok s'
    /\ typed_state s' = true
    /\ dict_get s' "turns" = dict_get s "turns"
    /\ (forall f, flag_set s f -> flag_set s' f).
Proof.
  intros T. pose proof T as T0.
  apply typed_state_fields in T. destruct T as (Hi & Hf & Hh & Ht).
  destruct (atom_shape atom)
    as [[p ->]|[[p ->]|[[p ->]|[[p ->]|[[p ->]|U]]]]].
  - eexists. split; [apply apply_atom_move|].
    split; [|split].
    + apply typed_state_fields. rewrite !dict_get_set. simpl. auto.
    + apply dict_get_set.
    + intros f. unfold flag_set. now rewrite flags_set_other by discriminate.
  - eexists. split; [now apply add_effect|].
    split; [|split].
    + apply typed_state_fields. rewrite !get_after_add by assumption.
      simpl. auto.
    + now rewrite get_after_add.
    + intros f. unfold flag_set, flags. now rewrite get_after_add.
  - eexists. split; [now apply remove_effect|].
    split; [|split].
    + apply typed_state_fields.
      rewrite (get_after_remove_other s _ "flags") by discriminate.
      rewrite (get_after_remove_other s _ "hp") by discriminate.
      rewrite (get_after_remove_other s _ "turns") by discriminate.
      auto using list_or_absent_after_remove.
    + now rewrite get_after_remove_other by discriminate.
    + intros f. unfold flag_set, flags.
      now rewrite get_after_remove_other by discriminate.
  - eexists. split; [now apply flag_effect|].
    split; [|split].
    + apply typed_state_fields. rewrite !get_after_flag. simpl. auto.
    + now rewrite get_after_flag.
    + intros f H. apply flag_set_after_flag. now left.
  - eexists. split; [now apply hp_effect|].
    set (delta := match Py.int p with Some z => z | None => 0 end).
    split; [|split].
    + apply typed_state_fields. rewrite !get_after_hp. cbv zeta.
      destruct (int_field s "hp" + delta <=? 0); simpl; auto.
    + rewrite get_after_hp. cbv zeta.
      destruct (int_field s "hp" + delta <=? 0); reflexivity.
    + intros f H. unfold flag_set, flags. rewrite get_after_hp. cbv zeta.
      destruct (int_field s "hp" + delta <=? 0); simpl.
      * rewrite dict_get_set.
        destruct (String.eqb_spec "hp_zero" f); [reflexivity | exact H].
      * exact H.
  - exists s. split; [now apply apply_atom_unrecognized|]. auto.
Qed.

Lemma apply_atoms_app (s : dict) (l1 l2 : list value) :
  apply_atoms s (l1 ++ l2) = (s1 <- apply_atoms s l1 ;; apply_atoms s1 l2).
Proof.
  revert s. induction l1 as [|x l1 IH]; intros s; simpl; [reflexivity|].
  destruct x; try reflexivity.
  destruct (apply_atom s s0); simpl; auto.
Qed.

Lemma apply_atoms_typed (s : dict) (atoms : list string) :
  typed_state s = true ->
  exists s',
    apply_atoms s (map VStr atoms) = Ok s'
    /\ typed_state s' = true
    /\ dict_get s' "turns" = dict_get s "turns"
    /\ (forall f, flag_set s f -> flag_set s' f).
Proof.
  revert s. induction atoms as [|a atoms IH]; intros s T; simpl.
  - exists s. auto.
  - destruct (apply_atom_typed s a T) as (s1 & -> & T1 & Ht1 & Hf1). simpl.
    destruct (IH s1 T1) as (s2 & -> & T2 & Ht2 & Hf2).
    exists s2. repeat split; auto. congruence.
Qed.

(** The whole call on a typed state and a batch of string atoms. *)
Lemma apply_state_changes_typed (s : dict) (atoms : list string) :
  typed_state s = true ->
  exists s1,
    apply_atoms s (map VStr atoms) = Ok s1
    /\ typed_state s1 = true
    /\ apply_state_changes s (batch atoms)
       = Ok (dict_set s1 "turns" (VInt (int_field s "turns" + 1)))
    /\ (forall f, flag_set s f -> flag_set s1 f).
Proof.
  intros T. destruct (apply_atoms_typed s atoms T) as (s1 & E & T1 & Ht & Hf).
  exists s1. repeat split; auto.
  unfold apply_state_changes, batch. simpl. rewrite E. simpl.
  apply typed_state_fields in T1. destruct T1 as (_ & _ & _ & Htt).
  unfold get_default, int_field. rewrite <- Ht.
  field_cases s1 "turns"; reflexivity.
Qed.

(** ** The inventory *)

Lemma eq_str_refl (item : string) : eq_str item (VStr item) = true.
Proof. simpl. apply String.eqb_refl. Qed.

Lemma in_list_app (item : string) (l1 l2 : list value) :
  in_list item (l1 ++ l2) = in_list item l1 || in_list item l2.
Proof. apply existsb_app. Qed.

Lemma count_item_app (item : string) (l1 l2 : list value) :
  count_item item (l1 ++ l2) = (count_item item l1 + count_item item l2)%nat.
Proof. unfold count_item. now rewrite filter_app, length_app. Qed.

Lemma count_item_absent (item : string) (l : list value) :
  in_list item l = false <-> count_item item l = 0%nat.
Proof.
  unfold count_item, in_list.
  induction l as [|x l IH]; simpl; [tauto|].
  destruct (eq_str item x); simpl; [split; discriminate | exact IH].
Qed.

Lemma remove_first_middle (item : string) (l1 l2 : list value) :
  in_list item l1 = false ->
  remove_first item (l1 ++ VStr item :: l2) = (l1 ++ l2)%list.
Proof.
  induction l1 as [|x l1 IH]; simpl.
  - now rewrite String.eqb_refl.
  - destruct (eq_str item x); simpl; [discriminate|].
    intros H. now rewrite IH.
Qed.

Lemma inventory_set_other (s : dict) (k : string) (v : value) :
  k <> "inventory" -> inventory (dict_set s k v) = inventory s.
Proof.
  intros Hk. unfold inventory. rewrite dict_get_set.
  destruct (String.eqb_spec k "inventory"); congruence.
Qed.

Lemma inventory_after_add (s : dict) (item : string) :
  typed_state s = true ->
  inventory (after_add s item) = with_item item (inventory s).
Proof.
  intros T. apply typed_state_fields in T. destruct T as (Hi & _).
  unfold inventory at 1. now rewrite get_after_add.
Qed.

Lemma in_with_item (item : string) (l : list value) :
  in_list item (with_item item l) = true.
Proof.
  unfold with_item. destruct (in_list item l) eqn:E; [exact E|].
  rewrite in_list_app, E. simpl. now rewrite String.eqb_refl.
Qed.

Lemma with_item_idem (item : string) (l : list value) :
  with_item item (with_item item l) = with_item item l.
Proof. unfold with_item at 1. now rewrite in_with_item. Qed.

Lemma count_with_item (item : string) (l : list value) :
  (count_item item l <= 1)%nat -> count_item item (with_item item l) = 1%nat.
Proof.
  intros H. unfold with_item. destruct (in_list item l) eqn:E.
  - destruct (count_item item l) as [|[|n]] eqn:C; [|reflexivity|lia].
    apply count_item_absent in C. congruence.
  - apply count_item_absent in E. rewrite count_item_app, E.
    unfold count_item. simpl. now rewrite String.eqb_refl.
Qed.

Lemma typed_after_add (s : dict) (item : string) :
  typed_state s = true -> typed_state (after_add s item) = true.
Proof.
  intros T. apply typed_state_fields in T. destruct T as (Hi & Hf & Hh & Ht).
  apply typed_state_fields. rewrite !get_after_add by assumption.
  simpl. auto.
Qed.

Lemma typed_after_remove (s : dict) (item : string) :
  typed_state s = true -> typed_state (after_remove s item) = true.
Proof.
  intros T. apply typed_state_fields in T. destruct T as (Hi & Hf & Hh & Ht).
  apply typed_state_fields.
  rewrite (get_after_remove_other s _ "flags") by discriminate.
  rewrite (get_after_remove_other s _ "hp") by discriminate.
  rewrite (get_after_remove_other s _ "turns") by discriminate.
  auto using list_or_absent_after_remove.
Qed.

(** The result of a call, from the result of its loop. *)
Lemma apply_state_changes_loop (s s1 : dict) (atoms : list string) :
  typed_state s = true ->
  apply_atoms s (map VStr atoms) = Ok s1 ->
  apply_state_changes s (batch atoms)
  = Ok (dict_set s1 "turns" (VInt (int_field s "turns" + 1))).
Proof.
  intros T E.
  destruct (apply_state_changes_typed s atoms T) as (s1' & E' & _ & R & _).
  congruence.
Qed.

Lemma typed_set_turns (s : dict) (z : Z) :
  typed_state s = true -> typed_state (dict_set s "turns" (VInt z)) = true.
Proof.
  intros T. apply typed_state_fields in T. destruct T as (Hi & Hf & Hh & Ht).
  apply typed_state_fields. rewrite !dict_get_set. simpl. auto.
Qed.

(** ** The state mutator: statements *)

(** C4: on a state whose fields have the types of the data model, one call
    of [apply_state_changes] on any batch of string atoms (empty, or made
    of unknown atoms, or of any length) returns, and [turns] is then its
    former value (0 when absent) plus exactly 1. *)
Theorem turns_incremented_once (s : dict) (atoms : list string) :
  typed_state s = true ->
  exists s',
    apply_state_changes s (batch atoms) = Ok s'
    /\ dict_get s' "turns" = Some (VInt (int_field s "turns" + 1))
    /\ int_field s' "turns" = int_field s "turns" + 1.
Proof.
  intros T.
  destruct (apply_state_changes_typed s atoms T) as (s1 & _ & _ & R & _).
  eexists. split; [exact R|]. split.
  - now rewrite dict_get_set.
  - unfold int_field at 1. now rewrite dict_get_set.
Qed.

Lemma turns_incremented_once_witness :
  exists s',
    apply_state_changes [("turns", VInt 3)]
      (batch ["dance"; "add_item:key"; "hp_delta:x"]) = Ok s'
    /\ dict_get s' "turns" = Some (VInt (int_field [("turns", VInt 3)] "turns" + 1))
    /\ int_field s' "turns" = int_field [("turns", VInt 3)] "turns" + 1.
Proof.
  apply (turns_incremented_once [("turns", VInt 3)]
           ["dance"; "add_item:key"; "hp_delta:x"]).
  reflexivity.
Defined.

(** C6: on a state whose fields have the types of the data model, a call
    on any list of string atoms returns without an exception; an atom
    with none of the five prefixes leaves the state as it is, and every
    single atom, recognized or not, is applied without an exception. *)
Theorem mutator_never_raises (s : dict) (atoms : list string) :
  typed_state s = true ->
  (exists s', apply_state_changes s (batch atoms) = Ok s')
  /\ (forall atom, unrecognized atom -> apply_atom s atom = Ok s)
  /\ (forall atom, exists s', apply_atom s atom = Ok s' /\ typed_state s' = true).
Proof.
  intros T. split; [|split].
  - destruct (apply_state_changes_typed s atoms T) as (s1 & _ & _ & R & _).
    eexists. exact R.
  - intros atom U. now apply apply_atom_unrecognized.
  - intros atom. destruct (apply_atom_typed s atom T) as (s' & E & T' & _).
    exists s'. auto.
Qed.

Lemma mutator_never_raises_witness :
  (exists s', apply_state_changes [("hp", VInt 2); ("inventory", VList [])]
                (batch ["fly:away"; "set_flag"; "remove_item:"; ":"]) = Ok s')
  /\ (forall atom, unrecognized atom ->
        apply_atom [("hp", VInt 2); ("inventory", VList [])] atom
        = Ok [("hp", VInt 2); ("inventory", VList [])])
  /\ (forall atom, exists s',
        apply_atom [("hp", VInt 2); ("inventory", VList [])] atom = Ok s'
        /\ typed_state s' = true).
Proof.
  apply (mutator_never_raises [("hp", VInt 2); ("inventory", VList [])]
           ["fly:away"; "set_flag"; "remove_item:"; ":"]).
  reflexivity.
Defined.



Example hp_delta_run :
  apply_state_changes [("hp", VInt 10)]
    (batch ["hp_delta:oops"; "hp_delta:-15"; "hp_delta:+20"])
  = Ok [("hp", VInt 15); ("flags", VDict [("hp_zero", VBool true)]);
        ("turns", VInt 1)].
Proof. reflexivity. Qed.

(** C7: on a typed state whose inventory holds [X] at most once, applying
    [add_item:X] twice, in one batch or in two successive batches, gives
    the inventory that applying it once gives: the former inventory when
    [X] was in it, and the former inventory followed by [X] otherwise; it
    holds [X] exactly once. *)
Theorem add_item_idempotent (s : dict) (p : string) :
  typed_state s = true ->
  (count_item (Py.strip p) (inventory s) <= 1)%nat ->
  exists once twice again,
    apply_state_changes s (batch ["add_item:" ++ p]) = Ok once
    /\ apply_state_changes s (batch ["add_item:" ++ p; "add_item:" ++ p]) = Ok twice
    /\ apply_state_changes once (batch ["add_item:" ++ p]) = Ok again
    /\ inventory once = with_item (Py.strip p) (inventory s)
    /\ inventory twice = with_item (Py.strip p) (inventory s)
    /\ inventory again = with_item (Py.strip p) (inventory s)
    /\ count_item (Py.strip p) (with_item (Py.strip p) (inventory s)) = 1%nat.
Proof.
  intros T C.
  pose proof (typed_after_add s (Py.strip p) T) as T1.
  pose proof (typed_set_turns _ (int_field s "turns" + 1) T1) as To.
  pose proof (typed_after_add _ (Py.strip p) To) as T2.
  do 3 eexists.
  split; [|split; [|split]].
  - apply apply_state_changes_loop; [exact T|].
    cbn [map apply_atoms]. rewrite (add_effect s p T). reflexivity.
  - apply apply_state_changes_loop; [exact T|].
    cbn [map apply_atoms]. rewrite (add_effect s p T). cbn [bind].
    rewrite (add_effect _ p T1). reflexivity.
  - apply apply_state_changes_loop; [exact To|].
    cbn [map apply_atoms]. rewrite (add_effect _ p To). reflexivity.
  - rewrite !inventory_set_other by discriminate.
    rewrite !inventory_after_add by assumption.
    rewrite !inventory_set_other by discriminate.
    rewrite !inventory_after_add by assumption.
    rewrite !with_item_idem.
    repeat split. now apply count_with_item.
Qed.

Lemma add_item_idempotent_witness :
  exists once twice again,
    apply_state_changes [("inventory", VList [VStr "lamp"])]
      (batch ["add_item:" ++ " sword"]) = Ok once
    /\ apply_state_changes [("inventory", VList [VStr "lamp"])]
         (batch ["add_item:" ++ " sword"; "add_item:" ++ " sword"]) = Ok twice
    /\ apply_state_changes once (batch ["add_item:" ++ " sword"]) = Ok again
    /\ inventory once
       = with_item (Py.strip " sword") (inventory [("inventory", VList [VStr "lamp"])])
    /\ inventory twice
       = with_item (Py.strip " sword") (inventory [("inventory", VList [VStr "lamp"])])
    /\ inventory again
       = with_item (Py.strip " sword") (inventory [("inventory", VList [VStr "lamp"])])
    /\ count_item (Py.strip " sword")
         (with_item (Py.strip " sword")
            (inventory [("inventory", VList [VStr "lamp"])])) = 1%nat.
Proof.
  apply (add_item_idempotent [("inventory", VList [VStr "lamp"])] " sword").
  - reflexivity.
  - vm_compute. lia.
Defined.

Example add_sword_twice :
  apply_state_changes [("inventory", VList [VStr "lamp"])]
    (batch ["add_item:sword"; "add_item: sword"])
  = Ok [("inventory", VList [VStr "lamp"; VStr "sword"]); ("turns", VInt 1)].
Proof. reflexivity. Qed.

(** C8: on a typed state whose inventory does not hold [sword], the batch
    [remove_item:sword, add_item:sword] ends with [sword] appended to the
    inventory, and the batch [add_item:sword, remove_item:sword] ends with
    the inventory it started from.  [remove_item:X] takes the first [X]
    out of the inventory and nothing else, and leaves the state as it is
    when [X] is not in the inventory. *)
Theorem inventory_order_matters (s : dict) :
  typed_state s = true ->
  (in_list "sword" (inventory s) = false ->
   exists s1 s2,
     apply_state_changes s (batch ["remove_item:sword"; "add_item:sword"]) = Ok s1
     /\ inventory s1 = (inventory s ++ [VStr "sword"])%list
     /\ in_list "sword" (inventory s1) = true
     /\ apply_state_changes s (batch ["add_item:sword"; "remove_item:sword"]) = Ok s2
     /\ inventory s2 = inventory s
     /\ in_list "sword" (inventory s2) = false)
  /\ (forall p, exists s',
        apply_atom s ("remove_item:" ++ p) = Ok s'
        /\ inventory s' = remove_first (Py.strip p) (inventory s)
        /\ (in_list (Py.strip p) (inventory s) = false -> s' = s))
  /\ (forall item l1 l2,
        in_list item l1 = false ->
        remove_first item (l1 ++ VStr item :: l2) = (l1 ++ l2)%list).
Proof.
  intros T. split; [|split].
  - intros A.
    assert (Er : forall s0, typed_state s0 = true ->
                 apply_atom s0 "remove_item:sword" = Ok (after_remove s0 "sword"))
      by (intros s0 T0; exact (remove_effect s0 "sword" T0)).
    assert (Ea : forall s0, typed_state s0 = true ->
                 apply_atom s0 "add_item:sword" = Ok (after_add s0 "sword"))
      by (intros s0 T0; exact (add_effect s0 "sword" T0)).
    pose proof (typed_after_add s "sword" T) as Ta.
    assert (after_remove s "sword" = s) as R
      by (unfold after_remove; now rewrite A).
    do 2 eexists.
    split; [|split; [|split; [|split]]].
    + apply apply_state_changes_loop; [exact T|].
      cbn [map apply_atoms].
      rewrite (Er s T). cbn [bind]. rewrite R.
      rewrite (Ea s T). reflexivity.
    + rewrite inventory_set_other by discriminate.
      rewrite inventory_after_add by assumption.
      unfold with_item. now rewrite A.
    + rewrite inventory_set_other by discriminate.
      rewrite inventory_after_add by assumption.
      apply in_with_item.
    + apply apply_state_changes_loop; [exact T|].
      cbn [map apply_atoms].
      rewrite (Ea s T). cbn [bind].
      rewrite (Er _ Ta). reflexivity.
    + rewrite inventory_set_other by discriminate.
      rewrite inventory_after_remove, inventory_after_add by assumption.
      unfold with_item. rewrite A.
      rewrite (remove_first_middle "sword" (inventory s) [] A).
      rewrite app_nil_r. auto.
  - intros p. exists (after_remove s (Py.strip p)).
    split; [now apply remove_effect|].
    split; [apply inventory_after_remove|].
    intros A. unfold after_remove. now rewrite A.
  - intros item l1 l2. apply remove_first_middle.
Qed.

Lemma inventory_order_matters_witness :
  in_list "sword" (inventory [("inventory", VList [VStr "lamp"])]) = false
  /\ exists s1 s2,
     apply_state_changes [("inventory", VList [VStr "lamp"])]
       (batch ["remove_item:sword"; "add_item:sword"]) = Ok s1
     /\ inventory s1 = [VStr "lamp"; VStr "sword"]
     /\ apply_state_changes [("inventory", VList [VStr "lamp"])]
          (batch ["add_item:sword"; "remove_item:sword"]) = Ok s2
     /\ inventory s2 = [VStr "lamp"].
Proof.
  split; [reflexivity|].
  destruct (inventory_order_matters [("inventory", VList [VStr "lamp"])]
              eq_refl) as (H & _).
  destruct (H eq_refl) as (s1 & s2 & E1 & I1 & _ & E2 & I2 & _).
  exists s1, s2. auto.
Defined.

(** ** The end-condition evaluator *)

Lemma all_flags_names (fl : dict) (l : list string) :
  all_flags (VDict fl) (map VStr l) = Ok (forallb (flag_true fl) l).
Proof.
  induction l as [|f l IH]; simpl; [reflexivity|].
  unfold flag_true at 1. destruct (truthy (get_default fl f VNone)); auto.
Qed.

Lemma any_flag_names (fl : dict) (l : list string) :
  any_flag (VDict fl) (map VStr l) = Ok (existsb (flag_true fl) l).
Proof.
  induction l as [|f l IH]; simpl; [reflexivity|].
  unfold flag_true at 1. destruct (truthy (get_default fl f VNone)); auto.
Qed.

Lemma names_field (e : dict) (k : string) (o : option (list string)) :
  dict_get e k = option_map (fun l => VList (map VStr l)) o ->
  get_default e k (VList []) = VList (map VStr (names o)).
Proof.
  intros H. unfold get_default. rewrite H. destruct o; reflexivity.
Qed.

(** The evaluator once [END_CONDITIONS] is known to be the dictionary [e]. *)
Lemma check_end_conditions_unfold (rules state e : dict) :
  get_default rules "END_CONDITIONS" (VDict []) = VDict e ->
  check_end_conditions rules state =
  (win_iter <- iterate (get_default e "WIN_ALL_FLAGS" (VList [])) ;;
   win <- all_flags (get_default state "flags" (VDict [])) win_iter ;;
   if win then Ok (Some "You won!")
   else
     lose_iter <- iterate (get_default e "LOSE_ANY_FLAGS" (VList [])) ;;
     lose <- any_flag (get_default state "flags" (VDict [])) lose_iter ;;
     if lose then Ok (Some " You lost!")
     else
       over <- match dict_get e "MAX_TURNS" with
               | Some m => py_ge (get_default state "turns" (VInt 0)) m
               | None => py_ge_inf (get_default state "turns" (VInt 0))
               end ;;
       if over then Ok (Some " Max turns exceeded!") else Ok None).
Proof.
  intros He. unfold check_end_conditions. cbv zeta. rewrite He. reflexivity.
Qed.

(** C2: with rules and a state of the shape of the data model,
    [check_end_conditions] answers the first of WIN, LOSE, TURNS that
    holds, in that order, and [None] when none does.  WIN holds when every
    name of [WIN_ALL_FLAGS] is a true flag; a flag that is absent is not
    true and a boolean flag is true when it is [True].  When
    [WIN_ALL_FLAGS] is empty or absent the answer is the win message,
    whatever the other fields of the rules and of the state are.  When
    [MAX_TURNS] is absent the answer is never the turn-limit message. *)
Theorem end_conditions_first_match
        (rules state e fl : dict) (win lose : option (list string))
        (max_turns : option Z) :
  get_default rules "END_CONDITIONS" (VDict []) = VDict e ->
  dict_get e "WIN_ALL_FLAGS" = option_map (fun l => VList (map VStr l)) win ->
  (names win = [] -> check_end_conditions rules state = Ok (Some (message Win)))
  /\ (dict_get e "LOSE_ANY_FLAGS" = option_map (fun l => VList (map VStr l)) lose ->
      dict_get e "MAX_TURNS" = option_map VInt max_turns ->
      get_default state "flags" (VDict []) = VDict fl ->
      int_or_absent (dict_get state "turns") = true ->
      check_end_conditions rules state
      = Ok (option_map message
              (evaluator_spec (names win) (names lose) max_turns fl
                              (int_field state "turns")))
      /\ (max_turns = None ->
          check_end_conditions rules state <> Ok (Some (message TurnLimit))))
  /\ (forall f, dict_get fl f = None -> flag_true fl f = false)
  /\ (forall f b, dict_get fl f = Some (VBool b) -> flag_true fl f = b).
Proof.
  intros He Hw.
  rewrite (check_end_conditions_unfold rules state e He).
  rewrite (names_field e _ win Hw). cbn [iterate bind].
  split; [|split; [|split]].
  - intros ->. reflexivity.
  - intros Hl Hm Hf Ht.
    rewrite (names_field e _ lose Hl), Hf, Hm. cbn [iterate bind].
    rewrite all_flags_names. cbn [bind]. unfold evaluator_spec.
    destruct (forallb (flag_true fl) (names win));
      [split; [reflexivity | discriminate]|].
    rewrite any_flag_names. cbn [bind].
    destruct (existsb (flag_true fl) (names lose));
      [split; [reflexivity | discriminate]|].
    unfold get_default, int_field.
    destruct max_turns as [m|]; simpl;
      field_cases state "turns"; simpl;
      try (split; [reflexivity | discriminate]);
      match goal with
      | |- context [?m <=? ?t] =>
          destruct (m <=? t); split; try reflexivity; discriminate
      end.
  - intros f H. unfold flag_true, get_default. now rewrite H.
  - intros f b H. unfold flag_true, get_default. now rewrite H.
Qed.

Lemma end_conditions_first_match_witness :
  check_end_conditions
    [("END_CONDITIONS",
      VDict [("WIN_ALL_FLAGS", VList [VStr "crown"]);
             ("LOSE_ANY_FLAGS", VList [VStr "hp_zero"]);
             ("MAX_TURNS", VInt 20)])]
    [("hp", VInt (-5)); ("flags", VDict [("hp_zero", VBool true)]);
     ("turns", VInt 1)]
  = Ok (Some " You lost!").
Proof.
  destruct (end_conditions_first_match
              [("END_CONDITIONS",
                VDict [("WIN_ALL_FLAGS", VList [VStr "crown"]);
                       ("LOSE_ANY_FLAGS", VList [VStr "hp_zero"]);
                       ("MAX_TURNS", VInt 20)])]
              [("hp", VInt (-5)); ("flags", VDict [("hp_zero", VBool true)]);
               ("turns", VInt 1)]
              [("WIN_ALL_FLAGS", VList [VStr "crown"]);
               ("LOSE_ANY_FLAGS", VList [VStr "hp_zero"]);
               ("MAX_TURNS", VInt 20)]
              [("hp_zero", VBool true)]
              (Some ["crown"]) (Some ["hp_zero"]) (Some 20)
              eq_refl eq_refl) as (_ & H & _).
  destruct (H eq_refl eq_refl eq_refl eq_refl) as [R _].
  exact R.
Defined.

Example empty_win_list_wins :
  check_end_conditions [("END_CONDITIONS", VDict [("WIN_ALL_FLAGS", VList [])])] []
  = Ok (Some "You won!").
Proof. reflexivity. Qed.

(** ** Strings: append, length, find, slice *)

Lemma append_assoc (a b c : string) : (a ++ b) ++ c = a ++ (b ++ c).
Proof. induction a as [|x a IH]; simpl; [reflexivity | now rewrite IH]. Qed.

Lemma append_nil_r (a : string) : a ++ "" = a.
Proof. induction a as [|x a IH]; simpl; [reflexivity | now rewrite IH]. Qed.

Lemma length_append (a b : string) :
  String.length (a ++ b) = (String.length a + String.length b)%nat.
Proof. induction a as [|x a IH]; simpl; [reflexivity | now rewrite IH]. Qed.

Lemma substring_all (m : string) (b : string) :
  substring 0 (String.length m) (m ++ b) = m.
Proof.
  induction m as [|x m IH]; simpl.
  - destruct b; reflexivity.
  - now rewrite IH.
Qed.

Lemma substring_middle (a m b : string) :
  substring (String.length a) (String.length m) (a ++ m ++ b) = m.
Proof.
  induction a as [|x a IH]; simpl; [apply substring_all | exact IH].
Qed.

Lemma find_nonneg (c : ascii) (s : string) : -1 <= Py.find c s.
Proof.
  induction s as [|a s IH]; simpl; [lia|].
  destruct (Ascii.eqb a c); [lia|].
  destruct (Py.find c s =? -1); lia.
Qed.

Lemma rfind_nonneg (c : ascii) (s : string) : -1 <= Py.rfind c s.
Proof.
  induction s as [|a s IH]; simpl; [lia|].
  destruct (Py.rfind c s =? -1); [destruct (Ascii.eqb a c); lia | lia].
Qed.

(** The first occurrence: [c] is not in [a]. *)
Lemma find_first (c : ascii) (a rest : string) :
  Py.find c a = -1 ->
  Py.find c (a ++ String c rest) = Z.of_nat (String.length a).
Proof.
  induction a as [|x a IH]; simpl.
  - intros _. now rewrite Ascii.eqb_refl.
  - destruct (Ascii.eqb x c); [discriminate|].
    destruct (Py.find c a =? -1) eqn:E.
    + intros _. apply Z.eqb_eq in E. rewrite (IH E).
      destruct (Z.of_nat (String.length a) =? -1) eqn:F; [|lia].
      apply Z.eqb_eq in F. lia.
    + pose proof (find_nonneg c a). apply Z.eqb_neq in E. lia.
Qed.

(** The last occurrence: [c] is not in [b]. *)
Lemma rfind_last (c : ascii) (a b : string) :
  Py.rfind c b = -1 ->
  Py.rfind c (a ++ String c b) = Z.of_nat (String.length a).
Proof.
  intros Hb. induction a as [|x a IH]; simpl.
  - rewrite Hb. simpl. now rewrite Ascii.eqb_refl.
  - rewrite IH.
    destruct (Z.of_nat (String.length a) =? -1) eqn:F; [|lia].
    apply Z.eqb_eq in F. lia.
Qed.

Lemma slice_middle (a m b : string) :
  Py.slice (a ++ m ++ b)
           (Z.of_nat (String.length a))
           (Z.of_nat (String.length a) + Z.of_nat (String.length m))
  = m.
Proof.
  unfold Py.slice. rewrite !length_append.
  set (la := String.length a). set (lm := String.length m).
  set (lb := String.length b).
  replace (Z.of_nat la <? 0) with false by (symmetry; apply Z.ltb_ge; lia).
  replace (Z.of_nat la + Z.of_nat lm <? 0) with false
    by (symmetry; apply Z.ltb_ge; lia).
  rewrite !Z.min_l by lia.
  replace (Z.to_nat (Z.of_nat la)) with la by lia.
  replace (Z.to_nat (Z.of_nat la + Z.of_nat lm - Z.of_nat la)) with lm by lia.
  apply substring_middle.
Qed.

(** The text from the first opening brace to the last closing brace. *)
Lemma slice_braces (a m b : string) :
  Py.find "{" a = -1 ->
  Py.rfind "}" b = -1 ->
  let text := a ++ "{" ++ m ++ "}" ++ b in
  Py.find "{" text <> -1
  /\ Py.slice text (Py.find "{" text) (Py.rfind "}" text + 1)
     = "{" ++ m ++ "}".
Proof.
  intros Ha Hb text.
  assert (E1 : text = a ++ String "{" (m ++ "}" ++ b)) by reflexivity.
  assert (E2 : text = (a ++ "{" ++ m) ++ String "}" b)
    by (unfold text; rewrite !append_assoc; reflexivity).
  assert (E3 : text = a ++ ("{" ++ m ++ "}") ++ b)
    by (unfold text; rewrite !append_assoc; reflexivity).
  assert (F : Py.find "{" text = Z.of_nat (String.length a))
    by (rewrite E1; now apply find_first).
  assert (R : Py.rfind "}" text = Z.of_nat (String.length (a ++ "{" ++ m)))
    by (rewrite E2; now apply rfind_last).
  rewrite F, R. split; [lia|]. rewrite E3.
  replace (Z.of_nat (String.length (a ++ "{" ++ m)) + 1)
    with (Z.of_nat (String.length a) + Z.of_nat (String.length ("{" ++ m ++ "}"))).
  - apply slice_middle.
  - repeat (rewrite !length_append; simpl). lia.
Qed.

(** ** The response parser *)


Lemma safe_json_extract_whole (text : string) (v : value) :
  Json.loads text = Ok v -> safe_json_extract text = Ok v.
Proof. intros H. unfold safe_json_extract. now rewrite H. Qed.

(** After a failure on the whole text that has an opening brace. *)
Lemma safe_json_extract_retry (text : string) :
  Json.loads text = Raise JSONDecodeError ->
  Py.find "{" text <> -1 ->
  safe_json_extract text =
  match Json.loads (Py.slice text (Py.find "{" text) (Py.rfind "}" text + 1)) with
  | Raise JSONDecodeError => Ok fallback
  | parsed => parsed
  end.
Proof.
  intros H F. unfold safe_json_extract. rewrite H. cbv zeta.
  apply Z.eqb_neq in F. rewrite F.
  pose proof (rfind_nonneg "}" text).
  replace (Py.rfind "}" text + 1 =? -1) with false
    by (symmetry; apply Z.eqb_neq; lia).
  reflexivity.
Qed.

Lemma safe_json_extract_no_brace (text : string) :
  Json.loads text = Raise JSONDecodeError ->
  Py.find "{" text = -1 ->
  safe_json_extract text = Ok fallback.
Proof.
  intros H F. unfold safe_json_extract. rewrite H. cbv zeta.
  rewrite F. reflexivity.
Qed.




(** C10: when the whole text does not parse, the parser parses the text
    from the first opening brace to the last closing brace, both
    included, and answers the fallback when that fails too or when there
    is no opening brace.  On the sample reply it returns the embedded
    object, whose [state_change] applied to a typed state sets [location]
    to [cave]; on [not json at all] it returns the fallback, whose
    [state_change] is the empty list. *)
Theorem parser_extracts_embedded_object :
  (forall a m b,
      Py.find "{" a = -1 ->
      Py.rfind "}" b = -1 ->
      Json.loads (a ++ "{" ++ m ++ "}" ++ b) = Raise JSONDecodeError ->
      safe_json_extract (a ++ "{" ++ m ++ "}" ++ b) =
      match Json.loads ("{" ++ m ++ "}") with
      | Raise JSONDecodeError => Ok fallback
      | parsed => parsed
      end)
  /\ (forall text,
        Json.loads text = Raise JSONDecodeError ->
        Py.find "{" text = -1 ->
        safe_json_extract text = Ok fallback)
  /\ safe_json_extract sample_reply
     = Ok (VDict [("narration", VStr "You enter.");
                  ("state_change", VList [VStr "move_to:cave"])])
  /\ (forall s, typed_state s = true ->
        exists s',
          (parsed <- safe_json_extract sample_reply ;;
           state_change <- method_get parsed "state_change" (VList []) ;;
           apply_state_changes s state_change) = Ok s'
          /\ dict_get s' "location" = Some (VStr "cave"))
  /\ safe_json_extract "not json at all" = Ok fallback
  /\ method_get fallback "state_change" (VList []) = Ok (VList []).
Proof.
  split; [|split; [|split; [|split; [|split]]]].
  - intros a m b Ha Hb L.
    destruct (slice_braces a m b Ha Hb) as [F S].
    rewrite (safe_json_extract_retry _ L F). cbv zeta in S. now rewrite S.
  - intros text L F. now apply safe_json_extract_no_brace.
  - reflexivity.
  - intros s T.
    replace (safe_json_extract sample_reply)
      with (@Ok value (VDict [("narration", VStr "You enter.");
                       ("state_change", VList [VStr "move_to:cave"])]))
      by reflexivity.
    cbn [bind method_get get_default dict_get String.eqb Ascii.eqb Bool.eqb].
    change (VList [VStr "move_to:cave"]) with (batch ["move_to:" ++ "cave"]).
    eexists. split.
    + apply apply_state_changes_loop; [exact T|].
      cbn [map apply_atoms]. rewrite apply_atom_move. reflexivity.
    + rewrite !dict_get_set. reflexivity.
  - reflexivity.
  - reflexivity.
Qed.

Lemma parser_extracts_embedded_object_witness :
  safe_json_extract ("Sure! " ++ "{" ++ quoted "narration" ++ ":" ++ quoted "hi" ++ "}" ++ " Bye.")
  = Ok (VDict [("narration", VStr "hi")]).
Proof.
  destruct parser_extracts_embedded_object as (H & _).
  exact (H "Sure! " (quoted "narration" ++ ":" ++ quoted "hi") " Bye."
           eq_refl eq_refl eq_refl).
Defined.

(** ** The session engine *)

Lemma endswith_app (pre suf : string) : Py.endswith (pre ++ suf) suf = true.
Proof.
  unfold Py.endswith. rewrite length_append.
  replace (String.length pre + String.length suf - String.length suf)%nat
    with (String.length pre) by lia.
  apply andb_true_iff. split; [apply Nat.leb_le; lia|].
  pose proof (substring_middle pre suf "") as H.
  rewrite append_nil_r in H. rewrite H. apply String.eqb_refl.
Qed.

Lemma keeps_ret {A : Type} (a : A) : keeps_sent (ret a).
Proof. intros w. reflexivity. Qed.

Lemma keeps_lift {A : Type} (r : result A) : keeps_sent (lift r).
Proof. intros w. reflexivity. Qed.

Lemma keeps_append_transcript (entry : value) : keeps_sent (append_transcript entry).
Proof. intros w. reflexivity. Qed.

Lemma keeps_bind {A B : Type} (m : M A) (k : A -> M B) :
  keeps_sent m -> (forall a, keeps_sent (k a)) -> keeps_sent (bindM m k).
Proof.
  intros Hm Hk w. unfold bindM. specialize (Hm w).
  destruct (m w) as [[a|e|] w1]; simpl in *; try assumption.
  now rewrite Hk.
Qed.

Ltac keeps :=
  repeat first
    [ apply keeps_ret | apply keeps_lift | apply keeps_append_transcript
    | apply keeps_bind; [|intros ?]
    | match goal with
      | |- keeps_sent (match ?x with _ => _ end) => destruct x
      | |- keeps_sent (if ?x then _ else _) => destruct x
      end ].

Lemma build_prompt_text (eng : GameEngine) (cmd gm : string) (w : world) :
  gm_prompt w = Some gm ->
  exists pre, build_prompt eng cmd w = (Ok (pre ++ command_line cmd), w).
Proof.
  intros G. unfold build_prompt, bindM, read_gm_prompt, ret. rewrite G.
  eexists. unfold command_line.
  rewrite <- !append_assoc. reflexivity.
Qed.

Lemma not_builtin (cmd : string) :
  builtin cmd = false ->
  (cmd =? "help")%string = false
  /\ (cmd =? "inventory")%string = false
  /\ (cmd =? "save")%string = false
  /\ (cmd =? "load")%string = false
  /\ (cmd =? "quit")%string = false.
Proof.
  unfold builtin. rewrite !orb_false_iff. tauto.
Qed.

Lemma command_not_forwarded_verbatim :
  builtin "Look" = false
  /\ exists prompt,
       sent (snd (handle_command sample_engine "Look" sample_world)) = [prompt]
       /\ Py.endswith prompt (command_line "look") = true
       /\ Py.endswith prompt (command_line "Look") = false.
Proof.
  split; [reflexivity|].
  exists (hd "" (sent (snd (handle_command sample_engine "Look" sample_world)))).
  split; [|split]; vm_compute; reflexivity.
Qed.

(** C5, amended: [build_prompt] puts the command it is given, unchanged,
    on the PLAYER_COMMAND line, which the instructions follow; and for a
    command whose lower-case form is not a built-in, [handle_command]
    hands to the backend exactly one prompt, the one [build_prompt] makes
    of the lower-case form of the command. *)
Theorem command_forwarded_in_lower_case
        (eng : GameEngine) (cmd gm : string) (w : world) :
  gm_prompt w = Some gm ->
  (forall c, exists prompt,
      build_prompt eng c w = (Ok prompt, w)
      /\ Py.endswith prompt (command_line c) = true)
  /\ (builtin (Py.lower cmd) = false ->
      exists prompt,
        build_prompt eng (Py.lower cmd) w = (Ok prompt, w)
        /\ Py.endswith prompt (command_line (Py.lower cmd)) = true
        /\ sent (snd (handle_command eng cmd w)) = (sent w ++ [prompt])%list).
Proof.
  intros G. split.
  - intros c. destruct (build_prompt_text eng c gm w G) as [pre E].
    eexists. split; [exact E | apply endswith_app].
  - intros NB.
    destruct (build_prompt_text eng (Py.lower cmd) gm w G) as [pre E].
    eexists. split; [exact E|]. split; [apply endswith_app|].
    destruct (not_builtin _ NB) as (H1 & H2 & H3 & H4 & H5).
    unfold handle_command. cbv zeta. rewrite H1, H2, H3, H4, H5.
    unfold bindM at 1. rewrite E.
    unfold bindM at 1. unfold call_ollama at 1.
    destruct (ollama w (List.length (sent w)) (pre ++ command_line (Py.lower cmd)))
      as [out err|msg]; [|reflexivity].
    match goal with
    | |- sent (snd (?k ?raw ?w1)) = _ =>
        assert (K : keeps_sent (k raw)) by keeps;
        rewrite (K w1)
    end.
    reflexivity.
Qed.

Lemma command_forwarded_in_lower_case_witness :
  exists prompt,
    build_prompt sample_engine (Py.lower "Open The Door") sample_world
    = (Ok prompt, sample_world)
    /\ Py.endswith prompt (command_line "open the door") = true
    /\ sent (snd (handle_command sample_engine "Open The Door" sample_world))
       = [prompt].
Proof.
  destruct (command_forwarded_in_lower_case
              sample_engine "Open The Door" "You are the game master."
              sample_world eq_refl) as (_ & H).
  exact (H eq_refl).
Defined.

(** ** Encoding then decoding *)

Lemma scanstring_escape (ea : bool) (c : ascii) (tail : string) :
  Json.scanstring (Json.Encoder.escape ea c ++ tail)
  = Json.scan_map (String c) (Json.scanstring tail).
Proof.
  destruct ea; destruct c as [[] [] [] [] [] [] [] []]; reflexivity.
Qed.

Lemma scanstring_escape_string (ea : bool) (s rest : string) :
  Json.scanstring (Json.Encoder.escape_string ea s ++ String dquote rest)
  = Json.Scanned s rest.
Proof.
  induction s as [|c s IH]; simpl.
  - reflexivity.
  - rewrite append_assoc, scanstring_escape, IH. reflexivity.
Qed.

(** Integers. *)

Lemma digit_char_digit (d : Z) :
  0 <= d < 10 ->
  Py.isdigit (Json.Encoder.digit_char d) = true
  /\ Py.digit_value (Json.Encoder.digit_char d) = d.
Proof.
  intros H.
  assert (d = 0 \/ d = 1 \/ d = 2 \/ d = 3 \/ d = 4 \/ d = 5 \/ d = 6
          \/ d = 7 \/ d = 8 \/ d = 9) as C by lia.
  repeat (destruct C as [->|C]; [split; reflexivity|]).
  subst d. split; reflexivity.
Qed.

Lemma scan_digits_decimal (fuel : nat) (n a : Z) (acc : string) :
  0 <= n ->
  Json.scan_digits a (Json.Encoder.decimal_acc fuel n acc)
  = Json.scan_digits (push fuel a n) acc.
Proof.
  revert n acc. induction fuel as [|f IH]; intros n acc Hn.
  - simpl. destruct (digit_char_digit (n mod 10)) as [D V].
    { apply Z.mod_pos_bound. lia. }
    now rewrite D, V.
  - assert (Hd : Json.scan_digits a (String (Json.Encoder.digit_char (n mod 10)) acc)
                 = Json.scan_digits (10 * a + n mod 10) acc).
    { simpl. destruct (digit_char_digit (n mod 10)) as [D V].
      { apply Z.mod_pos_bound. lia. }
      now rewrite D, V. }
    cbn [Json.Encoder.decimal_acc push]. destruct (n <? 10); [exact Hd|].
    rewrite IH by (apply Z.div_pos; lia).
    simpl. destruct (digit_char_digit (n mod 10)) as [D V].
    { apply Z.mod_pos_bound. lia. }
    now rewrite D, V.
Qed.

Lemma push_value (fuel : nat) (n : Z) :
  0 <= n < 10 ^ Z.of_nat (S fuel) -> push fuel 0 n = n.
Proof.
  revert n. induction fuel as [|f IH]; intros n Hn.
  - simpl. change (10 ^ Z.of_nat 1) with 10 in Hn.
    rewrite Z.mod_small by lia. lia.
  - cbn [push]. destruct (n <? 10) eqn:L.
    + apply Z.ltb_lt in L. rewrite Z.mod_small by lia. lia.
    + apply Z.ltb_ge in L. rewrite IH.
      * pose proof (Z.div_mod n 10). lia.
      * split; [apply Z.div_pos; lia|].
        apply Z.div_lt_upper_bound; [lia|].
        replace (Z.of_nat (S (S f))) with (Z.succ (Z.of_nat (S f))) in Hn by lia.
        rewrite Z.pow_succ_r in Hn by lia. lia.
Qed.

Lemma decimal_fuel (n : Z) :
  0 <= n -> n < 10 ^ Z.of_nat (S (Z.to_nat (Z.log2 n))).
Proof.
  intros Hn.
  replace (Z.of_nat (S (Z.to_nat (Z.log2 n)))) with (Z.succ (Z.log2 n))
    by (pose proof (Z.log2_nonneg n); lia).
  destruct (Z.eq_dec n 0) as [->|Hz]; [reflexivity|].
  assert (n < 2 ^ Z.succ (Z.log2 n)) by (apply Z.log2_spec; lia).
  assert (2 ^ Z.succ (Z.log2 n) <= 10 ^ Z.succ (Z.log2 n))
    by (apply Z.pow_le_mono_l; lia).
  lia.
Qed.

Lemma decimal_acc_head (fuel : nat) (n : Z) (acc : string) :
  0 < n < 10 ^ Z.of_nat (S fuel) ->
  exists d r,
    Json.Encoder.decimal_acc fuel n acc = String (Json.Encoder.digit_char d) r
    /\ 1 <= d <= 9.
Proof.
  revert n acc. induction fuel as [|f IH]; intros n acc Hn.
  - change (10 ^ Z.of_nat 1) with 10 in Hn.
    exists n, acc. simpl. rewrite Z.mod_small by lia. split; [reflexivity | lia].
  - cbn [Json.Encoder.decimal_acc]. destruct (n <? 10) eqn:L.
    + apply Z.ltb_lt in L. exists n, acc.
      rewrite Z.mod_small by lia. split; [reflexivity | lia].
    + apply Z.ltb_ge in L. apply IH. split.
      * apply Z.div_str_pos. lia.
      * apply Z.div_lt_upper_bound; [lia|].
        replace (Z.of_nat (S (S f))) with (Z.succ (Z.of_nat (S f))) in Hn by lia.
        rewrite Z.pow_succ_r in Hn by lia. lia.
Qed.

Lemma decimal_acc_app (fuel : nat) (n : Z) (acc : string) :
  Json.Encoder.decimal_acc fuel n acc
  = Json.Encoder.decimal_acc fuel n "" ++ acc.
Proof.
  revert n acc. induction fuel as [|f IH]; intros n acc.
  - reflexivity.
  - cbn [Json.Encoder.decimal_acc]. destruct (n <? 10); [reflexivity|].
    rewrite IH. rewrite (IH _ (String _ "")). now rewrite append_assoc.
Qed.

Lemma delimited_stops (rest : string) (a : Z) :
  delimited rest = true ->
  Json.scan_digits a rest = (a, rest)
  /\ Json.integer_or_real a rest = Json.Scanned a rest.
Proof.
  unfold Json.integer_or_real, Json.fraction_follows, Json.exponent_follows.
  destruct rest as [|c r]; simpl; [auto|].
  rewrite !andb_true_iff, !negb_true_iff. intros (((D & P) & E1) & E2).
  rewrite D, P, E1, E2. auto.
Qed.

Lemma scan_unsigned_decimal (negative : bool) (n : Z) (rest : string) :
  0 <= n ->
  delimited rest = true ->
  Json.scan_unsigned negative (Json.Encoder.decimal n ++ rest)
  = Json.Scanned (if negative then - n else n) rest.
Proof.
  intros Hn Hr. unfold Json.Encoder.decimal.
  rewrite <- decimal_acc_app.
  destruct (Z.eq_dec n 0) as [->|Hz].
  - simpl. destruct (delimited_stops rest 0 Hr) as [_ ->].
    destruct negative; reflexivity.
  - pose proof (decimal_fuel n Hn) as Hf.
    destruct (decimal_acc_head _ n rest (conj (ltac:(lia) : 0 < n) Hf))
      as (d & r & E & Hd).
    pose proof (scan_digits_decimal (Z.to_nat (Z.log2 n)) n 0 rest Hn) as S.
    rewrite push_value in S by lia. rewrite E in S |- *.
    destruct (delimited_stops rest n Hr) as [S1 _]. rewrite S1 in S.
    assert (d = 1 \/ d = 2 \/ d = 3 \/ d = 4 \/ d = 5 \/ d = 6
            \/ d = 7 \/ d = 8 \/ d = 9) as C by lia.
    assert (Json.scan_unsigned negative (String (Json.Encoder.digit_char d) r)
            = let (m, rest') := Json.scan_digits 0 (String (Json.Encoder.digit_char d) r) in
              Json.integer_or_real (if negative then - m else m) rest') as U.
    { repeat (destruct C as [->|C]; [reflexivity|]). subst d. reflexivity. }
    rewrite U, S.
    now destruct (delimited_stops rest (if negative then - n else n) Hr) as [_ ->].
Qed.

Lemma decimal_head (n : Z) (rest : string) :
  0 <= n ->
  exists d r,
    Json.Encoder.decimal n ++ rest = String (Json.Encoder.digit_char d) r
    /\ 0 <= d <= 9.
Proof.
  intros Hn. unfold Json.Encoder.decimal. rewrite <- decimal_acc_app.
  destruct (Z.eq_dec n 0) as [->|Hz].
  - exists 0, rest. split; [reflexivity | lia].
  - destruct (decimal_acc_head _ n rest (conj (ltac:(lia) : 0 < n) (decimal_fuel n Hn)))
      as (d & r & E & Hd).
    exists d, r. split; [exact E | lia].
Qed.

Ltac once_digit r :=
  let Q := fresh "Q" in
  destruct (Json.scan_unsigned false (String (Json.Encoder.digit_char _) r)) eqn:Q;
  cbn [Json.scan_once]; simpl Ascii.eqb; cbv iota;
  cbn [Py.startswith Ascii.eqb Bool.eqb andb Json.scan_number];
  simpl Ascii.eqb; cbv iota; rewrite Q; reflexivity.

Lemma scan_once_int (fuel : nat) (z : Z) (rest : string) :
  delimited rest = true ->
  Json.scan_once (S fuel) (Json.Encoder.encode_int z ++ rest)
  = Json.Scanned (VInt z) rest.
Proof.
  intros Hr. unfold Json.Encoder.encode_int.
  destruct (z <? 0) eqn:L.
  - apply Z.ltb_lt in L.
    change (String "-" (Json.Encoder.decimal (- z)) ++ rest)
      with (String "-" (Json.Encoder.decimal (- z) ++ rest)).
    cbn [Json.scan_once]. simpl Ascii.eqb. cbv iota.
    change (Py.startswith (String "-" ?s) "null") with false.
    cbn [Py.startswith Ascii.eqb Bool.eqb andb Json.scan_number].
    rewrite scan_unsigned_decimal by (auto; lia).
    replace (- - z) with z by lia. reflexivity.
  - apply Z.ltb_ge in L.
    destruct (decimal_head z rest L) as (d & r & E & Hd).
    pose proof (scan_unsigned_decimal false z rest L Hr) as U.
    rewrite E in U |- *.
    assert (d = 0 \/ d = 1 \/ d = 2 \/ d = 3 \/ d = 4 \/ d = 5 \/ d = 6
            \/ d = 7 \/ d = 8 \/ d = 9) as C by lia.
    assert (Json.scan_once (S fuel) (String (Json.Encoder.digit_char d) r)
            = match Json.scan_unsigned false (String (Json.Encoder.digit_char d) r) with
              | Json.Scanned z0 rest0 => Json.Scanned (VInt z0) rest0
              | Json.Malformed => Json.Malformed
              | Json.Unmodelled => Json.Unmodelled
              | Json.Exhausted => Json.Exhausted
              end) as O.
    { repeat (destruct C as [->|C]; [once_digit r|]). subst d. once_digit r. }
    rewrite O, U. reflexivity.
Qed.

(** Induction on values, through lists and dictionaries. *)
Section value_induction.
Variable P : value -> Prop.
Hypothesis HNone : P VNone.
Hypothesis HBool : forall b, P (VBool b).
Hypothesis HInt : forall z, P (VInt z).
Hypothesis HStr : forall s, P (VStr s).
Hypothesis HList : forall l, Forall P l -> P (VList l).
Hypothesis HDict : forall d, Forall (fun kv => P (snd kv)) d -> P (VDict d).

Fixpoint value_induction (v : value) : P v :=
  match v with
  | VNone => HNone
  | VBool b => HBool b
  | VInt z => HInt z
  | VStr s => HStr s
  | VList l =>
      HList l
        ((fix go (l : list value) : Forall P l :=
            match l with
            | [] => Forall_nil P
            | x :: r => Forall_cons x (value_induction x) (go r)
            end) l)
  | VDict d =>
      HDict d
        ((fix go (d : list (string * value)) : Forall (fun kv => P (snd kv)) d :=
            match d with
            | [] => Forall_nil _
            | (k, x) :: r => Forall_cons (k, x) (value_induction x) (go r)
            end) d)
  end.
End value_induction.

(** Whitespace. *)

Lemma skip_ws_app (a s : string) :
  Json.skip_ws a = "" -> Json.skip_ws (a ++ s) = Json.skip_ws s.
Proof.
  induction a as [|c a IH]; simpl; [reflexivity|].
  destruct (Json.is_ws c); [exact IH | discriminate].
Qed.

Lemma skip_ws_spaces (n : nat) : Json.skip_ws (Json.Encoder.spaces n) = "".
Proof. induction n as [|n IH]; [reflexivity | exact IH]. Qed.

Lemma skip_ws_newline_indent (st : Json.Encoder.style) (level : nat) :
  Json.skip_ws (Json.Encoder.newline_indent st level) = "".
Proof.
  unfold Json.Encoder.newline_indent. destruct (Json.Encoder.indent st).
  - apply skip_ws_spaces.
  - reflexivity.
Qed.

Lemma skip_ws_value (s : string) : starts_value s = true -> Json.skip_ws s = s.
Proof.
  destruct s as [|c r]; simpl; [discriminate|].
  rewrite andb_true_iff, negb_true_iff. now intros [-> _].
Qed.

Lemma encode_starts_value (st : Json.Encoder.style) (level : nat) (v : value)
      (tail : string) :
  starts_value (Json.Encoder.encode st level v ++ tail) = true.
Proof.
  destruct v as [|[]|z|s|l|d]; try reflexivity.
  - cbn [Json.Encoder.encode]. unfold Json.Encoder.encode_int.
    destruct (z <? 0) eqn:L; [reflexivity|].
    apply Z.ltb_ge in L.
    destruct (decimal_head z tail L) as (d & r & -> & Hd).
    assert (d = 0 \/ d = 1 \/ d = 2 \/ d = 3 \/ d = 4 \/ d = 5 \/ d = 6
            \/ d = 7 \/ d = 8 \/ d = 9) as C by lia.
    repeat (destruct C as [->|C]; [reflexivity|]). subst d. reflexivity.
  - cbn [Json.Encoder.encode]. unfold Json.Encoder.container.
    destruct (map _ l); reflexivity.
  - cbn [Json.Encoder.encode]. unfold Json.Encoder.container.
    destruct (map _ d); reflexivity.
Qed.


Lemma delimited_closing (st : Json.Encoder.style) (level : nat) (c : ascii)
      (rest : string) :
  delimited (String c rest) = true ->
  delimited (Json.Encoder.newline_indent st level ++ String c rest) = true.
Proof.
  intros H. unfold Json.Encoder.newline_indent.
  destruct (Json.Encoder.indent st); [reflexivity | exact H].
Qed.

(** Dictionaries with distinct keys. *)

Lemma dict_set_fresh (d : dict) (k : string) (v : value) :
  dict_get d k = None -> dict_set d k v = (d ++ [(k, v)])%list.
Proof.
  induction d as [|[k0 v0] d IH]; simpl; [reflexivity|].
  destruct (k0 =? k)%string; [discriminate|].
  intros H. now rewrite IH.
Qed.

Lemma dict_get_app_fresh (d : dict) (k k' : string) (v : value) :
  dict_get d k' = None -> (k =? k')%string = false ->
  dict_get (d ++ [(k, v)])%list k' = None.
Proof.
  induction d as [|[k0 v0] d IH]; simpl.
  - intros _ ->. reflexivity.
  - destruct (k0 =? k')%string; [discriminate | exact IH].
Qed.

Lemma dict_of_pairs_distinct_acc (d acc : dict) :
  distinct (map fst d) = true ->
  (forall k, In k (map fst d) -> dict_get acc k = None) ->
  fold_left (fun d0 kv => dict_set d0 (fst kv) (snd kv)) d acc = (acc ++ d)%list.
Proof.
  revert acc. induction d as [|[k v] d IH]; intros acc Hd Hacc; simpl.
  - now rewrite app_nil_r.
  - simpl in Hd. apply andb_true_iff in Hd. destruct Hd as [Hk Hd].
    apply negb_true_iff in Hk.
    rewrite dict_set_fresh by (apply Hacc; now left).
    rewrite IH; [now rewrite <- app_assoc | exact Hd |].
    intros k' Hin. apply dict_get_app_fresh.
    + apply Hacc. now right.
    + destruct (k =? k')%string eqn:E; [|reflexivity].
      apply String.eqb_eq in E. subst k'.
      assert (existsb (String.eqb k) (map fst d) = true) as X.
      { apply existsb_exists. exists k. split; [exact Hin | apply String.eqb_refl]. }
      congruence.
Qed.

Lemma dict_of_pairs_distinct (d : dict) :
  distinct (map fst d) = true -> Json.dict_of_pairs d = d.
Proof.
  intros H. unfold Json.dict_of_pairs.
  now rewrite dict_of_pairs_distinct_acc.
Qed.

Lemma items_text_one (st : Json.Encoder.style) (level : nat) (x : string)
      (closing : ascii) (rest : string) :
  items_text st level [x] closing rest
  = x ++ Json.Encoder.newline_indent st level ++ String closing rest.
Proof. reflexivity. Qed.

Lemma items_text_more (st : Json.Encoder.style) (level : nat) (x y : string)
      (items : list string) (closing : ascii) (rest a : string) :
  Json.Encoder.item_separator st = String "," a ->
  items_text st level (x :: y :: items) closing rest
  = x ++ String "," (a ++ Json.Encoder.newline_indent st (S level)
                       ++ items_text st level (y :: items) closing rest).
Proof.
  intros Ha. unfold items_text.
  cbn [String.concat]. rewrite Ha.
  rewrite ?append_assoc. cbn [append]. rewrite ?append_assoc. reflexivity.
Qed.

Lemma skip_separator (st : Json.Encoder.style) (level : nat) (a s : string) :
  Json.skip_ws a = "" ->
  starts_value s = true ->
  Json.skip_ws (a ++ Json.Encoder.newline_indent st level ++ s) = s.
Proof.
  intros Ha Hs.
  rewrite (skip_ws_app a) by exact Ha.
  rewrite skip_ws_app by apply skip_ws_newline_indent.
  now apply skip_ws_value.
Qed.

Lemma skip_ws_stop (c : ascii) (r : string) :
  Json.is_ws c = false -> Json.skip_ws (String c r) = String c r.
Proof. intros H. simpl. now rewrite H. Qed.

Lemma skip_closing (st : Json.Encoder.style) (level : nat) (c : ascii) (rest : string) :
  Json.is_ws c = false ->
  Json.skip_ws (Json.Encoder.newline_indent st level ++ String c rest)
  = String c rest.
Proof.
  intros Hc. rewrite skip_ws_app by apply skip_ws_newline_indent.
  simpl. now rewrite Hc.
Qed.

Lemma scan_elements_encoded (st : Json.Encoder.style) (level : nat)
      (l : list value) (rest : string) :
  well_separated st ->
  Forall roundtrips l ->
  l <> [] ->
  forall fuel,
    (2 * String.length
           (items_text st level (map (Json.Encoder.encode st (S level)) l) "]" rest)
     + 2 <= fuel)%nat ->
    Json.scan_elements fuel
      (items_text st level (map (Json.Encoder.encode st (S level)) l) "]" rest)
    = Json.Scanned l rest.
Proof.
  intros W F. pose proof W as (a & b & Hi & Hk & Ha & Hb).
  induction F as [|x l Hx F IH]; intros Hne fuel Hf; [congruence|].
  destruct fuel as [|n]; [lia|].
  destruct l as [|y l'].
  - cbn [map] in *. rewrite items_text_one in *.
    cbn [Json.scan_elements].
    rewrite Hx; [| exact W | now apply delimited_closing | lia].
    rewrite skip_closing by reflexivity. reflexivity.
  - cbn [map] in *. rewrite (items_text_more _ _ _ _ _ _ _ a Hi) in *.
    set (T2 := items_text st level
                 (Json.Encoder.encode st (S level) y
                  :: map (Json.Encoder.encode st (S level)) l') "]" rest) in *.
    assert (starts_value T2 = true) as HT2.
    { unfold T2, items_text. destruct (map (Json.Encoder.encode st (S level)) l').
      - cbn [String.concat]. apply encode_starts_value.
      - cbn [String.concat]. rewrite !append_assoc. apply encode_starts_value. }
    cbn [Json.scan_elements].
    rewrite Hx; [| exact W | reflexivity | lia].
    rewrite (skip_ws_stop "," _ eq_refl).
    change (Ascii.eqb "," ",") with true. cbv iota.
    rewrite skip_separator by assumption.
    rewrite IH; [reflexivity | discriminate |].
    rewrite length_append in Hf. simpl String.length in Hf.
    rewrite !length_append in Hf. lia.
Qed.

Lemma member_text_shape (st : Json.Encoder.style) (level : nat) (k : string)
      (x : value) (b tail : string) :
  Json.Encoder.key_separator st = String ":" b ->
  member_text st level (k, x) ++ tail
  = String dquote
      (Json.Encoder.escape_string (Json.Encoder.ensure_ascii st) k
       ++ String dquote
            (String ":" (b ++ Json.Encoder.encode st (S level) x ++ tail))).
Proof.
  intros Hk. unfold member_text, Json.Encoder.encode_str. cbn [fst snd].
  rewrite Hk. cbn [append]. rewrite ?append_assoc. cbn [append].
  rewrite ?append_assoc. reflexivity.
Qed.

Lemma scan_members_encoded (st : Json.Encoder.style) (level : nat)
      (d : dict) (rest : string) :
  well_separated st ->
  Forall (fun kv => roundtrips (snd kv)) d ->
  d <> [] ->
  let text := items_text st level (map (member_text st level) d) "}" rest in
  text = String dquote (tail_of text)
  /\ forall fuel,
       (2 * String.length text + 1 <= fuel)%nat ->
       Json.scan_members fuel (tail_of text) = Json.Scanned d rest.
Proof.
  intros W F. pose proof W as (a & b & Hi & Hk & Ha & Hb).
  induction F as [|[k x] d Hx F IH]; intros Hne; [congruence|].
  cbn [snd] in Hx.
  destruct d as [|kv d'].
  - cbn [map]. rewrite items_text_one.
    rewrite (member_text_shape _ _ _ _ b _ Hk). cbn [tail_of].
    split; [reflexivity|]. intros fuel Hf.
    destruct fuel as [|n]; [lia|].
    cbn [Json.scan_members]. rewrite scanstring_escape_string.
    rewrite (skip_ws_stop ":" _ eq_refl).
    change (Ascii.eqb ":" ":") with true. cbv iota.
    rewrite (skip_ws_app b) by exact Hb.
    rewrite skip_ws_value by apply encode_starts_value.
    rewrite Hx; [| exact W | now apply delimited_closing |].
    + rewrite skip_closing by reflexivity. reflexivity.
    + simpl String.length in Hf. rewrite !length_append in Hf.
      simpl String.length in Hf. rewrite !length_append in Hf.
      rewrite !length_append. lia.
  - specialize (IH ltac:(discriminate)). cbv zeta in IH.
    cbn [map] in *. rewrite (items_text_more _ _ _ _ _ _ _ a Hi).
    set (T2 := items_text st level
                 (member_text st level kv :: map (member_text st level) d')
                 "}" rest) in *.
    destruct IH as [E2 IH].
    rewrite (member_text_shape _ _ _ _ b _ Hk). cbn [tail_of].
    split; [reflexivity|]. intros fuel Hf.
    destruct fuel as [|n]; [lia|].
    cbn [Json.scan_members]. rewrite scanstring_escape_string.
    rewrite (skip_ws_stop ":" _ eq_refl).
    change (Ascii.eqb ":" ":") with true. cbv iota.
    rewrite (skip_ws_app b) by exact Hb.
    rewrite skip_ws_value by apply encode_starts_value.
    repeat (progress (simpl String.length in Hf; rewrite ?length_append in Hf)).
    rewrite Hx; [| exact W | reflexivity |].
    + rewrite (skip_ws_stop "," _ eq_refl).
      change (Ascii.eqb "," "}") with false.
      change (Ascii.eqb "," ",") with true. cbv iota.
      rewrite skip_separator; [| exact Ha | rewrite E2; reflexivity].
      rewrite E2. change (Ascii.eqb dquote dquote) with true. cbv iota.
      rewrite IH by lia. reflexivity.
    + repeat (progress (simpl String.length; rewrite ?length_append)). lia.
Qed.

Lemma container_empty (st : Json.Encoder.style) (level : nat)
      (o c : ascii) (rest : string) :
  Json.Encoder.container st level (String o "") (String c "") [] ++ rest
  = String o (String c rest).
Proof. reflexivity. Qed.

Lemma container_items (st : Json.Encoder.style) (level : nat)
      (o c : ascii) (items : list string) (rest : string) :
  items <> [] ->
  Json.Encoder.container st level (String o "") (String c "") items ++ rest
  = String o (Json.Encoder.newline_indent st (S level)
              ++ items_text st level items c rest).
Proof.
  intros H. unfold Json.Encoder.container, items_text.
  destruct items as [|x items]; [congruence|].
  cbn [append]. rewrite ?append_assoc. cbn [append]. reflexivity.
Qed.

Lemma items_text_starts (st : Json.Encoder.style) (level : nat)
      (x : string) (items : list string) (c : ascii) (rest : string) :
  (forall tail, starts_value (x ++ tail) = true) ->
  starts_value (items_text st level (x :: items) c rest) = true.
Proof.
  intros H. unfold items_text. destruct items; cbn [String.concat].
  - apply H.
  - rewrite ?append_assoc. apply H.
Qed.

Lemma forallb_Forall_roundtrips (l : list value) :
  Forall (fun v => wf_value v = true -> roundtrips v) l ->
  forallb wf_value l = true ->
  Forall roundtrips l.
Proof.
  induction 1 as [|x l Hx F IH]; simpl; [constructor|].
  rewrite andb_true_iff. intros [Wx Wl]. constructor; auto.
Qed.

Lemma forallb_Forall_members (d : dict) :
  Forall (fun kv => wf_value (snd kv) = true -> roundtrips (snd kv)) d ->
  forallb (fun kv => wf_value (snd kv)) d = true ->
  Forall (fun kv => roundtrips (snd kv)) d.
Proof.
  induction 1 as [|x l Hx F IH]; simpl; [constructor|].
  rewrite andb_true_iff. intros [Wx Wl]. constructor; auto.
Qed.

(** Every well-formed value is decoded back from its encoding. *)
Theorem encode_roundtrips (v : value) : wf_value v = true -> roundtrips v.
Proof.
  induction v as [|b|z|s|l IH|d IH] using value_induction;
    intros Wf st level rest fuel W Hr Hf;
    (destruct fuel as [|n]; [lia|]).
  - reflexivity.
  - destruct b; reflexivity.
  - now apply scan_once_int.
  - cbn [Json.Encoder.encode]. unfold Json.Encoder.encode_str.
    cbn [append]. rewrite append_assoc. cbn [append Json.scan_once].
    change (Ascii.eqb dquote dquote) with true. cbv iota.
    now rewrite scanstring_escape_string.
  - cbn [wf_value] in Wf.
    pose proof (forallb_Forall_roundtrips l IH Wf) as F.
    cbn [Json.Encoder.encode] in *.
    destruct l as [|x l].
    + reflexivity.
    + rewrite container_items in * by discriminate.
      set (T := items_text st level
                  (map (Json.Encoder.encode st (S level)) (x :: l)) "]" rest) in *.
      assert (starts_value T = true) as HT
        by (apply items_text_starts; intros; apply encode_starts_value).
      cbn [Json.scan_once].
      change (Ascii.eqb "[" dquote) with false.
      change (Ascii.eqb "[" "{") with false.
      change (Ascii.eqb "[" "[") with true. cbv iota.
      rewrite skip_ws_app by apply skip_ws_newline_indent.
      rewrite skip_ws_value by exact HT.
      simpl String.length in Hf. rewrite length_append in Hf.
      pose proof (scan_elements_encoded st level (x :: l) rest W F
                    ltac:(discriminate) n) as E.
      fold T in E. clearbody T.
      destruct T as [|c1 r1]; [discriminate|].
      simpl in HT. apply andb_true_iff in HT. destruct HT as [_ HT].
      apply negb_true_iff in HT. rewrite HT.
      rewrite E by (simpl String.length in *; lia). reflexivity.
  - cbn [wf_value] in Wf. apply andb_true_iff in Wf. destruct Wf as [Wk Wf].
    pose proof (forallb_Forall_members d IH Wf) as F.
    cbn [Json.Encoder.encode] in *.
    destruct d as [|kv d].
    + reflexivity.
    + change (map (fun kv0 : string * value =>
                     Json.Encoder.encode_str (Json.Encoder.ensure_ascii st) (fst kv0)
                     ++ Json.Encoder.key_separator st
                     ++ Json.Encoder.encode st (S level) (snd kv0)) (kv :: d))
        with (map (member_text st level) (kv :: d)) in *.
      rewrite container_items in * by discriminate.
      destruct (scan_members_encoded st level (kv :: d) rest W F
                  ltac:(discriminate)) as [ET E].
      set (T := items_text st level (map (member_text st level) (kv :: d)) "}" rest) in *.
      cbn [Json.scan_once].
      change (Ascii.eqb "{" dquote) with false.
      change (Ascii.eqb "{" "{") with true. cbv iota.
      rewrite skip_ws_app by apply skip_ws_newline_indent.
      simpl String.length in Hf. rewrite length_append in Hf.
      rewrite ET. rewrite (skip_ws_stop dquote _ eq_refl).
      change (Ascii.eqb dquote "}") with false.
      change (Ascii.eqb dquote dquote) with true. cbv iota.
      rewrite E by lia. cbn [Json.scan_map].
      now rewrite dict_of_pairs_distinct.
Qed.

(** [json.loads] gives back what [json.dumps] was given, in each of the
    styles the program writes with. *)
Theorem loads_dumps (st : Json.Encoder.style) (v : value) :
  well_separated st ->
  wf_value v = true ->
  Json.loads (Json.dumps st v) = Ok v.
Proof.
  intros W Wf. unfold Json.loads, Json.dumps.
  pose proof (encode_starts_value st 0 v "") as Hs.
  rewrite append_nil_r in Hs. rewrite skip_ws_value by exact Hs.
  pose proof (encode_roundtrips v Wf st 0%nat "" (Json.fuel_for (Json.Encoder.encode st 0 v))
                W eq_refl) as R.
  rewrite append_nil_r in R. rewrite R; [reflexivity|].
  unfold Json.fuel_for. lia.
Qed.

(** ** Saving and loading *)



(** ** The fuel of the decoder never runs out *)

Lemma scan_map_scanned {A B : Type} (f : A -> B) (x : Json.scan A)
      (b : B) (r : string) :
  Json.scan_map f x = Json.Scanned b r ->
  exists a, x = Json.Scanned a r /\ b = f a.
Proof.
  destruct x; simpl; try discriminate.
  intros H. injection H as <- <-. eauto.
Qed.

Lemma scan_map_exhausted {A B : Type} (f : A -> B) (x : Json.scan A) :
  Json.scan_map f x = Json.Exhausted -> x = Json.Exhausted.
Proof. destruct x; simpl; congruence. Qed.

Lemma skip_ws_length (s : string) :
  (String.length (Json.skip_ws s) <= String.length s)%nat.
Proof.
  induction s as [|c s IH]; simpl; [lia|].
  destruct (Json.is_ws c); simpl; lia.
Qed.

Lemma scanstring_consumes (n : nat) :
  forall s k r,
    (String.length s <= n)%nat ->
    Json.scanstring s = Json.Scanned k r ->
    (String.length r < String.length s)%nat.
Proof.
  induction n as [|n IH]; intros s k r Hn H.
  - destruct s; [discriminate | simpl in Hn; lia].
  - destruct s as [|c s]; [discriminate|].
    cbn [Json.scanstring] in H. simpl String.length in *.
    destruct (Ascii.eqb c dquote).
    { injection H as <- <-. lia. }
    destruct (Ascii.eqb c backslash).
    + destruct s as [|e s1]; [discriminate|].
      simpl String.length in *.
      destruct (Ascii.eqb e "u").
      * destruct s1 as [|h1 [|h2 [|h3 [|h4 s2]]]]; try discriminate.
        destruct (Json.hex4 h1 h2 h3 h4); [|discriminate].
        destruct (n0 <=? 255)%N; [|discriminate].
        apply scan_map_scanned in H. destruct H as (k' & H & _).
        simpl String.length in *.
        apply IH in H; lia.
      * destruct (Json.unescape e); [|discriminate].
        apply scan_map_scanned in H. destruct H as (k' & H & _).
        apply IH in H; lia.
    + destruct (code c <? 32)%N; [discriminate|].
      apply scan_map_scanned in H. destruct H as (k' & H & _).
      apply IH in H; lia.
Qed.

Lemma scanstring_fuelled (s : string) : Json.scanstring s <> Json.Exhausted.
Proof.
  assert (forall n s, (String.length s <= n)%nat ->
                      Json.scanstring s <> Json.Exhausted) as G.
  { clear s. induction n as [|n IH]; intros s Hn.
    - destruct s; [discriminate | simpl in Hn; lia].
    - destruct s as [|c s]; [discriminate|].
      cbn [Json.scanstring]. simpl String.length in *.
      destruct (Ascii.eqb c dquote); [discriminate|].
      destruct (Ascii.eqb c backslash).
      + destruct s as [|e s1]; [discriminate|].
        simpl String.length in *.
        destruct (Ascii.eqb e "u").
        * destruct s1 as [|h1 [|h2 [|h3 [|h4 s2]]]]; try discriminate.
          destruct (Json.hex4 h1 h2 h3 h4); [|discriminate].
          destruct (n0 <=? 255)%N; [|discriminate].
          intros H. apply scan_map_exhausted in H. revert H.
          apply IH. simpl String.length in *. lia.
        * destruct (Json.unescape e); [|discriminate].
          intros H. apply scan_map_exhausted in H. revert H.
          apply IH. lia.
      + destruct (code c <? 32)%N; [discriminate|].
        intros H. apply scan_map_exhausted in H. revert H.
        apply IH. lia. }
  exact (G (String.length s) s (le_n _)).
Qed.

Lemma scan_digits_length (s : string) :
  forall a, (String.length (snd (Json.scan_digits a s)) <= String.length s)%nat.
Proof.
  induction s as [|c s IH]; intros a; [simpl; lia|].
  cbn [Json.scan_digits]. destruct (Py.isdigit c).
  - specialize (IH (10 * a + Py.digit_value c)). cbn [String.length]. lia.
  - simpl. lia.
Qed.

Lemma scan_unsigned_consumes (negative : bool) (s : string) (z : Z) (r : string) :
  Json.scan_unsigned negative s = Json.Scanned z r ->
  (String.length r < String.length s)%nat.
Proof.
  unfold Json.scan_unsigned, Json.integer_or_real.
  destruct s as [|c s]; [discriminate|]. simpl String.length.
  destruct (Ascii.eqb c "0").
  - destruct (_ || _); [discriminate|]. intros H. injection H as <- <-. lia.
  - destruct (Py.isdigit c); [|discriminate].
    pose proof (scan_digits_length s (Py.digit_value c)) as L.
    destruct (Json.scan_digits (Py.digit_value c) s) as [m rest]. simpl in L.
    destruct (_ || _); [discriminate|]. intros H. injection H as <- <-. lia.
Qed.

Lemma scan_unsigned_fuelled (negative : bool) (s : string) :
  Json.scan_unsigned negative s <> Json.Exhausted.
Proof.
  unfold Json.scan_unsigned, Json.integer_or_real.
  destruct s as [|c s]; [discriminate|].
  destruct (Ascii.eqb c "0").
  - destruct (_ || _); discriminate.
  - destruct (Py.isdigit c); [|discriminate].
    destruct (Json.scan_digits (Py.digit_value c) s) as [m rest].
    destruct (_ || _); discriminate.
Qed.

Lemma scan_number_consumes (s : string) (z : Z) (r : string) :
  Json.scan_number s = Json.Scanned z r ->
  (String.length r < String.length s)%nat.
Proof.
  unfold Json.scan_number. destruct s as [|c s]; [discriminate|].
  destruct (Ascii.eqb c "-"); intros H; apply scan_unsigned_consumes in H;
    simpl String.length in *; lia.
Qed.

Lemma scan_number_fuelled (s : string) : Json.scan_number s <> Json.Exhausted.
Proof.
  unfold Json.scan_number. destruct s as [|c s]; [discriminate|].
  destruct (Ascii.eqb c "-"); apply scan_unsigned_fuelled.
Qed.

Lemma startswith_drop (s p : string) :
  Py.startswith s p = true ->
  (String.length (Json.drop (String.length p) s) + String.length p
   = String.length s)%nat.
Proof.
  revert s. induction p as [|c p IH]; intros s H.
  - destruct s; simpl; lia.
  - destruct s as [|a s]; [discriminate|]. simpl in H.
    apply andb_true_iff in H. destruct H as [_ H].
    simpl. specialize (IH s H). lia.
Qed.

(** Whatever is scanned takes at least one character. *)
Lemma scan_consumes (fuel : nat) :
  (forall s v r, Json.scan_once fuel s = Json.Scanned v r ->
                 (String.length r < String.length s)%nat)
  /\ (forall s l r, Json.scan_elements fuel s = Json.Scanned l r ->
                    (String.length r < String.length s)%nat)
  /\ (forall s d r, Json.scan_members fuel s = Json.Scanned d r ->
                    (String.length r < String.length s)%nat).
Proof.
  induction fuel as [|n (IHo & IHe & IHm)];
    [repeat split; intros; discriminate|].
  split; [|split].
  - intros s v r H. cbn [Json.scan_once] in H.
    destruct s as [|c s]; [discriminate|].
    destruct (Ascii.eqb c dquote).
    { apply scan_map_scanned in H. destruct H as (k & H & _).
      apply (scanstring_consumes _ _ _ _ (le_n _)) in H.
      cbn [String.length]. lia. }
    destruct (Ascii.eqb c "{").
    { pose proof (skip_ws_length s) as L.
      destruct (Json.skip_ws s) as [|c1 r1]; [discriminate|].
      cbn [String.length] in *.
      destruct (Ascii.eqb c1 "}").
      - injection H as <- <-. lia.
      - destruct (Ascii.eqb c1 dquote); [|discriminate].
        apply scan_map_scanned in H. destruct H as (k & H & _).
        apply IHm in H. lia. }
    destruct (Ascii.eqb c "[").
    { pose proof (skip_ws_length s) as L.
      destruct (Json.skip_ws s) as [|c1 r1]; [discriminate|].
      destruct (Ascii.eqb c1 "]").
      - injection H as <- <-. cbn [String.length] in *. lia.
      - apply scan_map_scanned in H. destruct H as (k & H & _).
        apply IHe in H. cbn [String.length] in *. lia. }
    destruct (Py.startswith (String c s) "null") eqn:E1.
    { injection H as <- <-. apply startswith_drop in E1.
      change (String.length "null") with 4%nat in E1.
      cbn [Json.drop] in E1. lia. }
    destruct (Py.startswith (String c s) "true") eqn:E2.
    { injection H as <- <-. apply startswith_drop in E2.
      change (String.length "true") with 4%nat in E2.
      cbn [Json.drop] in E2. lia. }
    destruct (Py.startswith (String c s) "false") eqn:E3.
    { injection H as <- <-. apply startswith_drop in E3.
      change (String.length "false") with 5%nat in E3.
      cbn [Json.drop] in E3. lia. }
    destruct (Json.scan_number (String c s)) as [z rest| | |] eqn:Q;
      try discriminate.
    + injection H as <- <-. now apply scan_number_consumes in Q.
    + destruct (_ || _); discriminate.
  - intros s l r H. cbn [Json.scan_elements] in H.
    destruct (Json.scan_once n s) as [v r1| | |] eqn:Q; try discriminate.
    apply IHo in Q.
    pose proof (skip_ws_length r1) as L.
    destruct (Json.skip_ws r1) as [|c r2]; [discriminate|].
    cbn [String.length] in *.
    destruct (Ascii.eqb c ",").
    + apply scan_map_scanned in H. destruct H as (k & H & _).
      apply IHe in H. pose proof (skip_ws_length r2). lia.
    + destruct (Ascii.eqb c "]"); [|discriminate].
      injection H as <- <-. lia.
  - intros s d r H. cbn [Json.scan_members] in H.
    destruct (Json.scanstring s) as [key r0| | |] eqn:Q0; try discriminate.
    apply (scanstring_consumes _ _ _ _ (le_n _)) in Q0.
    pose proof (skip_ws_length r0) as L0.
    destruct (Json.skip_ws r0) as [|c r1]; [discriminate|].
    cbn [String.length] in *.
    destruct (Ascii.eqb c ":"); [|discriminate].
    destruct (Json.scan_once n (Json.skip_ws r1)) as [v r2| | |] eqn:Q;
      try discriminate.
    apply IHo in Q. pose proof (skip_ws_length r1) as L1.
    pose proof (skip_ws_length r2) as L2.
    destruct (Json.skip_ws r2) as [|c2 r3]; [discriminate|].
    cbn [String.length] in *.
    destruct (Ascii.eqb c2 "}").
    + injection H as <- <-. lia.
    + destruct (Ascii.eqb c2 ","); [|discriminate].
      pose proof (skip_ws_length r3) as L3.
      destruct (Json.skip_ws r3) as [|c3 r4]; [discriminate|].
      cbn [String.length] in *.
      destruct (Ascii.eqb c3 dquote); [|discriminate].
      apply scan_map_scanned in H. destruct H as (k & H & _).
      apply IHm in H. lia.
Qed.

(** With fuel proportional to the length of the text, no scan stops
    for want of fuel. *)
Lemma scan_fuelled (fuel : nat) :
  (forall s, (2 * String.length s + 1 <= fuel)%nat ->
             Json.scan_once fuel s <> Json.Exhausted)
  /\ (forall s, (2 * String.length s + 2 <= fuel)%nat ->
                Json.scan_elements fuel s <> Json.Exhausted)
  /\ (forall s, (2 * String.length s + 1 <= fuel)%nat ->
                Json.scan_members fuel s <> Json.Exhausted).
Proof.
  induction fuel as [|n (IHo & IHe & IHm)];
    [repeat split; intros; lia|].
  split; [|split].
  - intros s Hf. cbn [Json.scan_once].
    destruct s as [|c s]; [discriminate|]. cbn [String.length] in Hf.
    destruct (Ascii.eqb c dquote).
    { intros H. apply scan_map_exhausted in H. now apply scanstring_fuelled in H. }
    destruct (Ascii.eqb c "{").
    { pose proof (skip_ws_length s) as L.
      destruct (Json.skip_ws s) as [|c1 r1]; [discriminate|].
      cbn [String.length] in *.
      destruct (Ascii.eqb c1 "}"); [discriminate|].
      destruct (Ascii.eqb c1 dquote); [|discriminate].
      intros H. apply scan_map_exhausted in H. revert H. apply IHm. lia. }
    destruct (Ascii.eqb c "[").
    { pose proof (skip_ws_length s) as L.
      destruct (Json.skip_ws s) as [|c1 r1]; [discriminate|].
      destruct (Ascii.eqb c1 "]"); [discriminate|].
      intros H. apply scan_map_exhausted in H. revert H. apply IHe.
      cbn [String.length] in *. lia. }
    destruct (Py.startswith (String c s) "null"); [discriminate|].
    destruct (Py.startswith (String c s) "true"); [discriminate|].
    destruct (Py.startswith (String c s) "false"); [discriminate|].
    pose proof (scan_number_fuelled (String c s)) as Q.
    destruct (Json.scan_number (String c s)); try discriminate; try congruence.
    destruct (_ || _); discriminate.
  - intros s Hf. cbn [Json.scan_elements].
    pose proof (IHo s ltac:(lia)) as Q.
    destruct (Json.scan_once n s) as [v r1| | |] eqn:E; try discriminate;
      try congruence.
    apply (proj1 (scan_consumes n)) in E.
    pose proof (skip_ws_length r1) as L.
    destruct (Json.skip_ws r1) as [|c r2]; [discriminate|].
    cbn [String.length] in *.
    destruct (Ascii.eqb c ",").
    + intros H. apply scan_map_exhausted in H. revert H. apply IHe.
      pose proof (skip_ws_length r2). lia.
    + destruct (Ascii.eqb c "]"); discriminate.
  - intros s Hf. cbn [Json.scan_members].
    pose proof (scanstring_fuelled s) as Q0.
    destruct (Json.scanstring s) as [key r0| | |] eqn:E0; try discriminate;
      try congruence.
    apply (scanstring_consumes _ _ _ _ (le_n _)) in E0.
    pose proof (skip_ws_length r0) as L0.
    destruct (Json.skip_ws r0) as [|c r1]; [discriminate|].
    cbn [String.length] in *.
    destruct (Ascii.eqb c ":"); [|discriminate].
    pose proof (skip_ws_length r1) as L1.
    pose proof (IHo (Json.skip_ws r1) ltac:(lia)) as Q.
    destruct (Json.scan_once n (Json.skip_ws r1)) as [v r2| | |] eqn:E;
      try discriminate; try congruence.
    apply (proj1 (scan_consumes n)) in E.
    pose proof (skip_ws_length r2) as L2.
    destruct (Json.skip_ws r2) as [|c2 r3]; [discriminate|].
    cbn [String.length] in *.
    destruct (Ascii.eqb c2 "}"); [discriminate|].
    destruct (Ascii.eqb c2 ","); [|discriminate].
    pose proof (skip_ws_length r3) as L3.
    destruct (Json.skip_ws r3) as [|c3 r4]; [discriminate|].
    cbn [String.length] in *.
    destruct (Ascii.eqb c3 dquote); [|discriminate].
    intros H. apply scan_map_exhausted in H. revert H. apply IHm. lia.
Qed.

(** [json.loads] never stops for want of fuel: it answers [Beyond] only
    on a construct outside the model. *)
Theorem enough_fuel (s : string) :
  Json.scan_once (Json.fuel_for s) (Json.skip_ws s) <> Json.Exhausted.
Proof.
  apply (proj1 (scan_fuelled (Json.fuel_for s))).
  unfold Json.fuel_for. pose proof (skip_ws_length s). lia.
Qed.

(** ** Well-formed values are what the program computes with *)

Lemma get_absent_keys (d : dict) (k : string) :
  dict_get d k = None <-> existsb (String.eqb k) (map fst d) = false.
Proof.
  induction d as [|[k0 v0] d IH]; simpl; [tauto|].
  rewrite (String.eqb_sym k k0).
  destruct (k0 =? k)%string; simpl; [split; discriminate | exact IH].
Qed.

Lemma keys_dict_set (d : dict) (k : string) (v : value) :
  map fst (dict_set d k v)
  = match dict_get d k with
    | Some _ => map fst d
    | None => (map fst d ++ [k])%list
    end.
Proof.
  induction d as [|[k0 v0] d IH]; simpl; [reflexivity|].
  destruct (String.eqb_spec k0 k) as [->|Hne]; simpl; [reflexivity|].
  rewrite IH. destruct (dict_get d k); reflexivity.
Qed.

Lemma distinct_snoc (keys : list string) (k : string) :
  distinct keys = true ->
  existsb (String.eqb k) keys = false ->
  distinct (keys ++ [k]) = true.
Proof.
  induction keys as [|k0 keys IH]; simpl; [reflexivity|].
  rewrite andb_true_iff, negb_true_iff, orb_false_iff.
  intros [Hk0 Hd] [Hk Hks].
  rewrite existsb_app, Hk0. simpl.
  rewrite String.eqb_sym, Hk. simpl. now apply IH.
Qed.

Lemma forallb_dict_set (P : value -> bool) (d : dict) (k : string) (v : value) :
  forallb (fun kv => P (snd kv)) d = true ->
  P v = true ->
  forallb (fun kv => P (snd kv)) (dict_set d k v) = true.
Proof.
  induction d as [|[k0 v0] d IH]; simpl.
  - intros _ ->. reflexivity.
  - rewrite andb_true_iff. intros [H0 Hd] Hv.
    destruct (k0 =? k)%string; simpl.
    + now rewrite Hv, Hd.
    + rewrite H0. simpl. now apply IH.
Qed.

Lemma wf_dict_set (d : dict) (k : string) (v : value) :
  wf_value (VDict d) = true ->
  wf_value v = true ->
  wf_value (VDict (dict_set d k v)) = true.
Proof.
  cbn [wf_value]. rewrite !andb_true_iff. intros [Hk Hv] Hx. split.
  - rewrite keys_dict_set. destruct (dict_get d k) eqn:E; [exact Hk|].
    apply distinct_snoc; [exact Hk | now apply get_absent_keys].
  - now apply forallb_dict_set.
Qed.

Lemma wf_lookup (d : dict) (k : string) (v : value) :
  wf_value (VDict d) = true -> dict_get d k = Some v -> wf_value v = true.
Proof.
  cbn [wf_value]. rewrite andb_true_iff. intros [_ Hv].
  induction d as [|[k0 v0] d IH]; simpl in *; [discriminate|].
  apply andb_true_iff in Hv. destruct Hv as [H0 Hd].
  destruct (k0 =? k)%string; [intros H; now injection H as <- | now apply IH].
Qed.

Lemma wf_get_default (d : dict) (k : string) (dflt : value) :
  wf_value (VDict d) = true -> wf_value dflt = true ->
  wf_value (get_default d k dflt) = true.
Proof.
  intros Hd Hv. unfold get_default.
  destruct (dict_get d k) eqn:E; [now apply (wf_lookup d k) | exact Hv].
Qed.

Lemma wf_setdefault (d : dict) (k : string) (dflt : value) :
  wf_value (VDict d) = true -> wf_value dflt = true ->
  wf_value (VDict (setdefault d k dflt)) = true.
Proof.
  intros Hd Hv. unfold setdefault.
  destruct (dict_get d k); [exact Hd | now apply wf_dict_set].
Qed.

Lemma wf_remove_first (item : string) (l : list value) :
  forallb wf_value l = true -> forallb wf_value (remove_first item l) = true.
Proof.
  induction l as [|x l IH]; simpl; [reflexivity|].
  rewrite andb_true_iff. intros [Hx Hl].
  destruct (eq_str item x); [exact Hl|].
  simpl. rewrite Hx. now apply IH.
Qed.

Lemma wf_raise_flag (s s' : dict) (flag : string) :
  wf_value (VDict s) = true ->
  raise_flag s flag = Ok s' ->
  wf_value (VDict s') = true.
Proof.
  intros Hs. unfold raise_flag. cbv zeta.
  pose proof (wf_setdefault s "flags" (VDict []) Hs eq_refl) as H1.
  pose proof (wf_get_default (setdefault s "flags" (VDict [])) "flags" VNone
                H1 eq_refl) as H2.
  destruct (get_default (setdefault s "flags" (VDict [])) "flags" VNone);
    try discriminate.
  intros H. injection H as <-.
  apply wf_dict_set; [exact H1|]. now apply wf_dict_set.
Qed.

(** The mutator keeps the state well formed, whatever the atoms. *)
Lemma apply_atom_wf (s s' : dict) (atom : string) :
  wf_value (VDict s) = true ->
  apply_atom s atom = Ok s' ->
  wf_value (VDict s') = true.
Proof.
  intros Hs.
  destruct (atom_shape atom)
    as [[p ->]|[[p ->]|[[p ->]|[[p ->]|[[p ->]|U]]]]].
  - rewrite apply_atom_move. intros H. injection H as <-.
    now apply wf_dict_set.
  - rewrite apply_atom_add. cbv zeta.
    pose proof (wf_setdefault s "inventory" (VList []) Hs eq_refl) as H1.
    pose proof (wf_get_default (setdefault s "inventory" (VList [])) "inventory"
                  VNone H1 eq_refl) as H2.
    unfold inventory_append.
    destruct (get_default (setdefault s "inventory" (VList [])) "inventory" VNone)
      as [| | | |l|d]; try discriminate; cbn [py_in bind].
    + destruct (Py.contains s0 (Py.strip p)); [|discriminate].
      intros H. now injection H as <-.
    + destruct (in_list (Py.strip p) l); intros H; injection H as <-;
        [exact H1|].
      apply wf_dict_set; [exact H1|]. cbn [wf_value] in *.
      rewrite forallb_app, H2. reflexivity.
    + destruct (dict_get d (Py.strip p)); [|discriminate].
      intros H. now injection H as <-.
  - rewrite apply_atom_remove. cbv zeta.
    unfold inventory_remove, get_default.
    destruct (dict_get s "inventory") as [inv|] eqn:G.
    + pose proof (wf_lookup s "inventory" inv Hs G) as H2.
      destruct inv as [| | |s0|l|d]; try discriminate; cbn [py_in bind].
      * destruct (Py.contains s0 (Py.strip p)); [discriminate|].
        intros H. now injection H as <-.
      * destruct (in_list (Py.strip p) l); intros H; injection H as <-;
          [|exact Hs].
        apply wf_dict_set; [exact Hs|]. cbn [wf_value] in *.
        now apply wf_remove_first.
      * destruct (dict_get d (Py.strip p)); [discriminate|].
        intros H. now injection H as <-.
    + cbn [py_in in_list existsb bind]. intros H. now injection H as <-.
  - rewrite apply_atom_flag. now apply wf_raise_flag.
  - rewrite apply_atom_hp. cbv zeta.
    destruct (add_int (get_default s "hp" (VInt 0)) _) as [hp| |];
      try discriminate. cbn [bind].
    assert (wf_value (VDict (dict_set s "hp" (VInt hp))) = true) as H1
      by now apply wf_dict_set.
    destruct (hp <=? 0).
    + now apply wf_raise_flag.
    + intros H. now injection H as <-.
  - rewrite (apply_atom_unrecognized s atom U). intros H. now injection H as <-.
Qed.

Lemma apply_atoms_wf (atoms : list value) :
  forall s s',
    wf_value (VDict s) = true ->
    apply_atoms s atoms = Ok s' ->
    wf_value (VDict s') = true.
Proof.
  induction atoms as [|a atoms IH]; intros s s' Hs; simpl.
  - intros H. now injection H as <-.
  - destruct a; try discriminate.
    destruct (apply_atom s s0) as [s1| |] eqn:E; try discriminate. simpl.
    apply IH. now apply (apply_atom_wf s s1 s0).
Qed.

Lemma apply_state_changes_wf (s s' : dict) (changes : value) :
  wf_value (VDict s) = true ->
  apply_state_changes s changes = Ok s' ->
  wf_value (VDict s') = true.
Proof.
  intros Hs. unfold apply_state_changes.
  destruct (iterate changes) as [atoms| |]; try discriminate. cbn [bind].
  destruct (apply_atoms s atoms) as [s1| |] eqn:E; try discriminate. cbn [bind].
  destruct (add_int (get_default s1 "turns" (VInt 0)) 1) as [t| |];
    try discriminate. cbn [bind].
  intros H. injection H as <-.
  apply wf_dict_set; [|reflexivity]. now apply (apply_atoms_wf atoms s s1).
Qed.

Lemma wf_dict_of_pairs (pairs : list (string * value)) :
  forallb (fun kv => wf_value (snd kv)) pairs = true ->
  wf_value (VDict (Json.dict_of_pairs pairs)) = true.
Proof.
  unfold Json.dict_of_pairs.
  assert (forall acc,
             wf_value (VDict acc) = true ->
             forallb (fun kv => wf_value (snd kv)) pairs = true ->
             wf_value (VDict (fold_left (fun d kv => dict_set d (fst kv) (snd kv))
                                        pairs acc)) = true) as G.
  { induction pairs as [|[k v] pairs IH]; intros acc Ha; simpl; [auto|].
    rewrite andb_true_iff. intros [Hv Hp].
    apply IH; [now apply wf_dict_set | exact Hp]. }
  now apply G.
Qed.

(** The decoder yields well-formed values only. *)
Lemma scan_wf (fuel : nat) :
  (forall s v r, Json.scan_once fuel s = Json.Scanned v r -> wf_value v = true)
  /\ (forall s l r, Json.scan_elements fuel s = Json.Scanned l r ->
                    forallb wf_value l = true)
  /\ (forall s d r, Json.scan_members fuel s = Json.Scanned d r ->
                    forallb (fun kv => wf_value (snd kv)) d = true).
Proof.
  induction fuel as [|n (IHo & IHe & IHm)];
    [repeat split; intros; discriminate|].
  split; [|split].
  - intros s v r H. cbn [Json.scan_once] in H.
    destruct s as [|c s]; [discriminate|].
    destruct (Ascii.eqb c dquote).
    { apply scan_map_scanned in H. destruct H as (k & _ & ->). reflexivity. }
    destruct (Ascii.eqb c "{").
    { destruct (Json.skip_ws s) as [|c1 r1]; [discriminate|].
      destruct (Ascii.eqb c1 "}").
      - now injection H as <- <-.
      - destruct (Ascii.eqb c1 dquote); [|discriminate].
        apply scan_map_scanned in H. destruct H as (ps & H & ->).
        apply wf_dict_of_pairs. now apply IHm in H. }
    destruct (Ascii.eqb c "[").
    { destruct (Json.skip_ws s) as [|c1 r1]; [discriminate|].
      destruct (Ascii.eqb c1 "]").
      - now injection H as <- <-.
      - apply scan_map_scanned in H. destruct H as (l & H & ->).
        cbn [wf_value]. now apply IHe in H. }
    destruct (Py.startswith (String c s) "null"); [now injection H as <- <-|].
    destruct (Py.startswith (String c s) "true"); [now injection H as <- <-|].
    destruct (Py.startswith (String c s) "false"); [now injection H as <- <-|].
    destruct (Json.scan_number (String c s)) as [z rest| | |];
      try discriminate.
    + now injection H as <- <-.
    + destruct (_ || _); discriminate.
  - intros s l r H. cbn [Json.scan_elements] in H.
    destruct (Json.scan_once n s) as [v r1| | |] eqn:Q; try discriminate.
    apply IHo in Q.
    destruct (Json.skip_ws r1) as [|c r2]; [discriminate|].
    destruct (Ascii.eqb c ",").
    + apply scan_map_scanned in H. destruct H as (l' & H & ->).
      apply IHe in H. simpl. now rewrite Q, H.
    + destruct (Ascii.eqb c "]"); [|discriminate].
      injection H as <- <-. simpl. now rewrite Q.
  - intros s d r H. cbn [Json.scan_members] in H.
    destruct (Json.scanstring s) as [key r0| | |]; try discriminate.
    destruct (Json.skip_ws r0) as [|c r1]; [discriminate|].
    destruct (Ascii.eqb c ":"); [|discriminate].
    destruct (Json.scan_once n (Json.skip_ws r1)) as [v r2| | |] eqn:Q;
      try discriminate.
    apply IHo in Q.
    destruct (Json.skip_ws r2) as [|c2 r3]; [discriminate|].
    destruct (Ascii.eqb c2 "}").
    + injection H as <- <-. simpl. now rewrite Q.
    + destruct (Ascii.eqb c2 ","); [|discriminate].
      destruct (Json.skip_ws r3) as [|c3 r4]; [discriminate|].
      destruct (Ascii.eqb c3 dquote); [|discriminate].
      apply scan_map_scanned in H. destruct H as (d' & H & ->).
      apply IHm in H. simpl. now rewrite Q, H.
Qed.

Lemma loads_wf (text : string) (v : value) :
  Json.loads text = Ok v -> wf_value v = true.
Proof.
  unfold Json.loads.
  destruct (Json.scan_once (Json.fuel_for text) (Json.skip_ws text))
    as [v0 rest| | |] eqn:Q; try discriminate.
  destruct (Json.skip_ws rest); [|discriminate].
  intros H. injection H as <-.
  now apply (proj1 (scan_wf _)) in Q.
Qed.

(** The state of the engine stays well formed through every command. *)
Theorem state_stays_well_formed
        (eng eng' : GameEngine) (cmd : string) (w w' : world) :
  wf_value (VDict (state eng)) = true ->
  handle_command eng cmd w = (Ok eng', w') ->
  wf_value (VDict (state eng')) = true.
Proof.
  intros Hs. unfold handle_command. cbv zeta.
  destruct (Py.lower cmd =? "help")%string.
  { unfold bindM, lift, ret.
    destruct (join_check _); intros H; inversion H; subst; exact Hs. }
  destruct (Py.lower cmd =? "inventory")%string.
  { unfold bindM, lift, ret.
    destruct (join_check _); intros H; inversion H; subst; exact Hs. }
  destruct (Py.lower cmd =? "save")%string.
  { unfold bindM, save_json, ret. intros H; inversion H; subst; exact Hs. }
  destruct (Py.lower cmd =? "load")%string.
  { destruct (save_file w) as [content|].
    - unfold bindM, load_json, lift, ret.
      destruct (Json.loads content) as [v| |] eqn:L;
        try (intros H; discriminate H).
      destruct v; intros H; inversion H; subst.
      now apply loads_wf in L.
    - unfold ret. intros H; inversion H; subst; exact Hs. }
  destruct (Py.lower cmd =? "quit")%string.
  { unfold lift. intros H; discriminate H. }
  unfold bindM at 1.
  destruct (build_prompt eng (Py.lower cmd) w) as [[prompt| |] w1];
    try (intros H; discriminate H).
  unfold bindM at 1.
  destruct (call_ollama prompt w1) as [[raw| |] w2];
    try (intros H; discriminate H).
  unfold bindM at 1. unfold lift at 1.
  destruct (safe_json_extract raw) as [parsed| |];
    try (intros H; discriminate H).
  unfold bindM at 1. unfold lift at 1.
  destruct (method_get parsed "narration" (VStr "")) as [narration| |];
    try (intros H; discriminate H).
  unfold bindM at 1. unfold lift at 1.
  destruct (method_get parsed "state_change" (VList [])) as [state_change| |];
    try (intros H; discriminate H).
  unfold bindM at 1. unfold lift at 1.
  destruct (apply_state_changes (state eng) state_change) as [state'| |] eqn:A;
    try (intros H; discriminate H).
  apply apply_state_changes_wf in A; [|exact Hs].
  unfold bindM at 1. unfold append_transcript at 1.
  unfold bindM at 1. unfold lift at 1.
  destruct (check_end_conditions _ state') as [[reason|]| |];
    try (intros H; discriminate H).
  - destruct (reason =? "")%string; unfold ret, lift;
      intros H; inversion H; subst; exact A.
  - unfold ret. intros H; inversion H; subst; exact A.
Qed.

(* ================================================================== *)
(** * Further properties of the program *)

(** ** The state mutator on any state *)

Ltac crunch H :=
  repeat (cbv beta zeta in H;
          match type of H with
          | Ok _ = Ok _ => injection H as <-
          | Raise _ = Ok _ => discriminate H
          | Beyond = Ok _ => discriminate H
          | context [match ?x with _ => _ end] =>
              let E := fresh "E" in destruct x eqn:E
          end).

Lemma get_setdefault_other (d : dict) (k k' : string) (v : value) :
  k <> k' -> dict_get (setdefault d k v) k' = dict_get d k'.
Proof.
  intros H. rewrite dict_get_setdefault.
  destruct (String.eqb_spec k k'); congruence.
Qed.

Lemma get_set_other (d : dict) (k k' : string) (v : value) :
  k <> k' -> dict_get (dict_set d k v) k' = dict_get d k'.
Proof.
  intros H. rewrite dict_get_set.
  destruct (String.eqb_spec k k'); congruence.
Qed.

Lemma present_set (d : dict) (k k' : string) (v : value) :
  dict_get d k' <> None -> dict_get (dict_set d k v) k' <> None.
Proof.
  rewrite dict_get_set. destruct (k =? k')%string; [discriminate | auto].
Qed.

Lemma present_setdefault (d : dict) (k k' : string) (v : value) :
  dict_get d k' <> None -> dict_get (setdefault d k v) k' <> None.
Proof.
  unfold setdefault. destruct (dict_get d k); [auto | apply present_set].
Qed.

Lemma raise_flag_keeps (s s' : dict) (flag : string) :
  raise_flag s flag = Ok s' ->
  (forall k, k <> "flags" -> dict_get s' k = dict_get s k)
  /\ (forall k, dict_get s k <> None -> dict_get s' k <> None).
Proof.
  unfold raise_flag. intros H. crunch H. split.
  - intros k Hk. rewrite get_set_other, get_setdefault_other by congruence.
    reflexivity.
  - intros k Hk. now apply present_set, present_setdefault.
Qed.

Lemma apply_atom_keeps (s s' : dict) (atom : string) :
  apply_atom s atom = Ok s' ->
  (forall k, unlisted k -> dict_get s' k = dict_get s k)
  /\ (forall k, dict_get s k <> None -> dict_get s' k <> None).
Proof.
  destruct (atom_shape atom)
    as [[p ->]|[[p ->]|[[p ->]|[[p ->]|[[p ->]|U]]]]].
  - rewrite apply_atom_move. intros H. injection H as <-. split.
    + intros k (H1 & _). now rewrite get_set_other by congruence.
    + intros k. apply present_set.
  - rewrite apply_atom_add. unfold inventory_append, bind. intros H.
    crunch H; (split;
      [ intros k (_ & H2 & _);
        rewrite ?get_set_other, ?get_setdefault_other by congruence; reflexivity
      | intros k Hk; repeat first [apply present_set | apply present_setdefault];
        exact Hk ]).
  - rewrite apply_atom_remove. unfold inventory_remove, bind. intros H.
    crunch H; (split;
      [ intros k (_ & H2 & _);
        rewrite ?get_set_other by congruence; reflexivity
      | intros k Hk; repeat apply present_set; exact Hk ]).
  - rewrite apply_atom_flag. intros H.
    destruct (raise_flag_keeps _ _ _ H) as [F P]. split; [|exact P].
    intros k (_ & _ & H3 & _). now apply F.
  - rewrite apply_atom_hp. unfold bind. intros H. cbv zeta in H.
    destruct (add_int (get_default s "hp" (VInt 0)) _) as [hp| |];
      try discriminate H.
    destruct (hp <=? 0).
    + destruct (raise_flag_keeps _ _ _ H) as [F P]. split.
      * intros k (_ & _ & H3 & H4). rewrite F by exact H3.
        now rewrite get_set_other by congruence.
      * intros k Hk. now apply P, present_set.
    + injection H as <-. split.
      * intros k (_ & _ & _ & H4). now rewrite get_set_other by congruence.
      * intros k. apply present_set.
  - rewrite (apply_atom_unrecognized s atom U). intros H. injection H as <-.
    auto.
Qed.

Lemma apply_atoms_keeps (atoms : list value) :
  forall s s',
    apply_atoms s atoms = Ok s' ->
    (forall k, unlisted k -> dict_get s' k = dict_get s k)
    /\ (forall k, dict_get s k <> None -> dict_get s' k <> None).
Proof.
  induction atoms as [|a atoms IH]; intros s s' H; simpl in H.
  - injection H as <-. auto.
  - destruct a; try discriminate H.
    destruct (apply_atom s s0) as [s1| |] eqn:E; try discriminate H.
    simpl in H. destruct (apply_atom_keeps _ _ _ E) as [F1 P1].
    destruct (IH _ _ H) as [F2 P2]. split.
    + intros k Hk. now rewrite F2, F1.
    + intros k Hk. auto.
Qed.

(** X1: whatever the state and the batch are, when a call of the mutator
    returns, every key of the state other than [location], [inventory],
    [flags], [hp] and [turns] has the value it had, and no key of the
    state is lost. *)
Theorem mutator_keeps_other_keys (s s' : dict) (changes : value) :
  apply_state_changes s changes = Ok s' ->
  (forall k, unlisted k -> k <> "turns" -> dict_get s' k = dict_get s k)
  /\ (forall k, dict_get s k <> None -> dict_get s' k <> None).
Proof.
  unfold apply_state_changes, bind. intros H.
  destruct (iterate changes) as [atoms| |]; try discriminate H.
  destruct (apply_atoms s atoms) as [s1| |] eqn:E; try discriminate H.
  destruct (add_int _ 1) as [t| |]; try discriminate H.
  injection H as <-. destruct (apply_atoms_keeps _ _ _ E) as [F P]. split.
  - intros k Hk Ht. rewrite get_set_other by congruence. now apply F.
  - intros k Hk. now apply present_set, P.
Qed.

Lemma mutator_keeps_other_keys_witness :
  exists s',
    apply_state_changes [("gold", VInt 7); ("hp", VInt 3)]
      (batch ["hp_delta:-9"; "add_item:gold"; "move_to:gold"]) = Ok s'
    /\ dict_get s' "gold" = Some (VInt 7).
Proof.
  eexists. split; [reflexivity|].
  destruct (mutator_keeps_other_keys
              [("gold", VInt 7); ("hp", VInt 3)] _
              (batch ["hp_delta:-9"; "add_item:gold"; "move_to:gold"]) eq_refl)
    as [F _].
  rewrite F; [reflexivity | repeat split; discriminate | discriminate].
Defined.

Lemma raise_flag_touches (s s' : dict) (flag k : string) :
  raise_flag s flag = Ok s' -> (k =? "flags")%string = false ->
  dict_get s' k = dict_get s k.
Proof.
  intros H Hk. apply (proj1 (raise_flag_keeps _ _ _ H)).
  intros ->. discriminate Hk.
Qed.

(** An atom assigns only the key of its kind. *)
Lemma apply_atom_touches (s s' : dict) (atom k : string) :
  apply_atom s atom = Ok s' ->
  touches atom k = false ->
  dict_get s' k = dict_get s k.
Proof.
  unfold touches.
  destruct (atom_shape atom)
    as [[p ->]|[[p ->]|[[p ->]|[[p ->]|[[p ->]|U]]]]].
  - rewrite apply_atom_move. cbn [Py.startswith Ascii.eqb Bool.eqb andb].
    intros H Hk. injection H as <-. apply String.eqb_neq in Hk.
    now rewrite get_set_other by congruence.
  - rewrite apply_atom_add. cbn [Py.startswith Ascii.eqb Bool.eqb andb].
    unfold inventory_append, bind. intros H Hk. apply String.eqb_neq in Hk.
    crunch H;
      rewrite ?get_set_other, ?get_setdefault_other by congruence; reflexivity.
  - rewrite apply_atom_remove. cbn [Py.startswith Ascii.eqb Bool.eqb andb].
    unfold inventory_remove, bind. intros H Hk. apply String.eqb_neq in Hk.
    crunch H; rewrite ?get_set_other by congruence; reflexivity.
  - rewrite apply_atom_flag. cbn [Py.startswith Ascii.eqb Bool.eqb andb].
    intros H Hk. now apply (raise_flag_touches _ _ _ _ H).
  - rewrite apply_atom_hp. cbn [Py.startswith Ascii.eqb Bool.eqb andb].
    unfold bind. intros H Hk. cbv zeta in H.
    apply orb_false_iff in Hk. destruct Hk as [Hh Hf].
    apply String.eqb_neq in Hh.
    destruct (add_int (get_default s "hp" (VInt 0)) _) as [hp| |];
      try discriminate H.
    destruct (hp <=? 0).
    + rewrite (raise_flag_touches _ _ _ _ H Hf).
      now rewrite get_set_other by congruence.
    + injection H as <-. now rewrite get_set_other by congruence.
  - rewrite (apply_atom_unrecognized s atom U). intros H _. now injection H as <-.
Qed.

Lemma apply_atoms_touches (atoms : list string) (k : string) :
  forall s s',
    apply_atoms s (map VStr atoms) = Ok s' ->
    Forall (fun atom => touches atom k = false) atoms ->
    dict_get s' k = dict_get s k.
Proof.
  induction atoms as [|a atoms IH]; intros s s' H F; cbn [map apply_atoms] in H.
  - now injection H as <-.
  - inversion F as [|? ? Fa Fr]; subst.
    destruct (apply_atom s a) as [s1| |] eqn:E; try discriminate H.
    cbn [bind] in H. rewrite (IH _ _ H Fr).
    now apply (apply_atom_touches s s1 a).
Qed.

(** X2: a batch of string atoms assigns only the keys of the kinds of
    its atoms and [turns]: when the call returns, a key that [touches]
    gives to none of the atoms, and that is not [turns], has the value
    it had.  So a batch without [move_to] leaves [location] alone, one
    without [hp_delta] leaves [hp] alone, and so on. *)
Theorem batch_assigns_its_keys_only
        (s s' : dict) (atoms : list string) (k : string) :
  apply_state_changes s (batch atoms) = Ok s' ->
  Forall (fun atom => touches atom k = false) atoms ->
  k <> "turns" ->
  dict_get s' k = dict_get s k.
Proof.
  unfold apply_state_changes, batch. cbn [iterate bind]. intros H F Hk.
  destruct (apply_atoms s (map VStr atoms)) as [s1| |] eqn:E;
    try discriminate H.
  cbn [bind] in H.
  destruct (add_int (get_default s1 "turns" (VInt 0)) 1) as [t| |];
    try discriminate H.
  injection H as <-. rewrite get_set_other by congruence.
  now apply (apply_atoms_touches atoms k s s1).
Qed.

Lemma batch_assigns_its_keys_only_witness :
  exists s',
    apply_state_changes [("location", VStr "hall"); ("hp", VInt 4)]
      (batch ["hp_delta:-4"; "add_item:rope"; "wave"]) = Ok s'
    /\ dict_get s' "location" = Some (VStr "hall").
Proof.
  eexists. split; [reflexivity|].
  apply (batch_assigns_its_keys_only
           [("location", VStr "hall"); ("hp", VInt 4)] _
           ["hp_delta:-4"; "add_item:rope"; "wave"] "location" eq_refl).
  - repeat constructor.
  - discriminate.
Defined.

(** ** When the mutator raises *)

Lemma startswith_empty (s : string) : Py.startswith s "" = true.
Proof. reflexivity. Qed.








(** X4: a batch that is not a list of strings makes the mutator raise:
    [TypeError] when the batch is [None], a boolean or an integer, on any
    state; [AttributeError] at the first element that is not a string,
    when the strings before it were applied, as they are on a typed
    state. *)
Theorem mutator_raises_on_bad_batch (s : dict) :
  apply_state_changes s VNone = Raise TypeError
  /\ (forall b, apply_state_changes s (VBool b) = Raise TypeError)
  /\ (forall z, apply_state_changes s (VInt z) = Raise TypeError)
  /\ (forall before x after,
        typed_state s = true ->
        is_str x = false ->
        apply_state_changes s (VList (map VStr before ++ x :: after))
        = Raise AttributeError).
Proof.
  repeat split.
  intros before x after T Hx.
  destruct (apply_atoms_typed s before T) as (s1 & E & _).
  unfold apply_state_changes. cbn [iterate bind].
  rewrite apply_atoms_app, E. cbn [bind apply_atoms].
  destruct x; try discriminate Hx; reflexivity.
Qed.

Lemma mutator_raises_on_bad_batch_witness :
  apply_state_changes [("hp", VInt 1)]
    (VList [VStr "hp_delta:1"; VInt 3; VStr "move_to:x"])
  = Raise AttributeError.
Proof.
  destruct (mutator_raises_on_bad_batch [("hp", VInt 1)]) as (_ & _ & _ & H).
  exact (H ["hp_delta:1"] (VInt 3) [VStr "move_to:x"] eq_refl eq_refl).
Defined.

Lemma one_char_unrecognized (c : ascii) : unrecognized (String c "").
Proof.
  unfold unrecognized. cbn [Py.startswith].
  rewrite !andb_false_r. auto.
Qed.

Lemma apply_atoms_chars (s : dict) (l : list ascii) :
  apply_atoms s (map (fun c => VStr (String c "")) l) = Ok s.
Proof.
  induction l as [|c l IH]; [reflexivity|].
  cbn [map apply_atoms].
  rewrite (apply_atom_unrecognized s _ (one_char_unrecognized c)).
  exact IH.
Qed.

(** X5: when the batch is one string instead of a list of strings, its
    characters are taken for atoms and none is of a known kind: on a
    state whose [turns] is an integer or absent, the call only counts
    the turn, whatever the string says. *)
Theorem string_batch_only_counts_turn (s : dict) (text : string) :
  int_or_absent (dict_get s "turns") = true ->
  apply_state_changes s (VStr text)
  = Ok (dict_set s "turns" (VInt (int_field s "turns" + 1))).
Proof.
  intros T. unfold apply_state_changes. cbn [iterate bind].
  rewrite apply_atoms_chars. cbn [bind].
  unfold get_default, int_field.
  destruct (dict_get s "turns") as [[| | | | |]|]; try discriminate T;
    reflexivity.
Qed.

Lemma string_batch_only_counts_turn_witness :
  apply_state_changes [("location", VStr "hall"); ("turns", VInt 2)]
    (VStr "move_to:cave")
  = Ok [("location", VStr "hall"); ("turns", VInt 3)].
Proof.
  exact (string_batch_only_counts_turn
           [("location", VStr "hall"); ("turns", VInt 2)] "move_to:cave" eq_refl).
Defined.

(** ** How atoms compose *)

Lemma not_move_keeps_location (atom : string) :
  Py.startswith atom "move_to:" = false -> touches atom "location" = false.
Proof.
  intros H. unfold touches. rewrite H.
  repeat match goal with
         | |- context [if ?c then _ else _] => destruct c
         end; reflexivity.
Qed.

(** X6: in a batch of string atoms applied to a typed state, the last
    [move_to] decides: after the call [location] is the payload of that
    atom, stripped, whatever the atoms before it did. *)
Theorem last_move_wins (s : dict) (before after : list string) (p : string) :
  typed_state s = true ->
  Forall (fun atom => Py.startswith atom "move_to:" = false) after ->
  exists s',
    apply_state_changes s (batch (before ++ ("move_to:" ++ p) :: after)) = Ok s'
    /\ dict_get s' "location" = Some (VStr (Py.strip p)).
Proof.
  intros T F.
  destruct (apply_atoms_typed s before T) as (s1 & E1 & T1 & _).
  destruct (apply_atom_typed s1 ("move_to:" ++ p) T1) as (s2 & E2 & T2 & _).
  destruct (apply_atoms_typed s2 after T2) as (s3 & E3 & _).
  eexists. split.
  - apply apply_state_changes_loop; [exact T|].
    rewrite map_app, apply_atoms_app, E1. cbn [bind map apply_atoms].
    rewrite E2. cbn [bind]. exact E3.
  - rewrite get_set_other by discriminate.
    rewrite (apply_atoms_touches after "location" s2 s3 E3).
    + rewrite apply_atom_move in E2. injection E2 as <-.
      now rewrite dict_get_set.
    + eapply Forall_impl; [|exact F]. intros a. apply not_move_keeps_location.
Qed.

Lemma last_move_wins_witness :
  exists s',
    apply_state_changes []
      (batch (["move_to:hall"] ++ ("move_to:" ++ " cave ") :: ["add_item:move_to:x"]))
    = Ok s'
    /\ dict_get s' "location" = Some (VStr (Py.strip " cave ")).
Proof.
  apply (last_move_wins [] ["move_to:hall"] ["add_item:move_to:x"] " cave ").
  - reflexivity.
  - repeat constructor.
Defined.





(** ** The inventory holds no string twice *)

Lemma count_remove_first (item item' : string) (l : list value) :
  (count_item item' (remove_first item l) <= count_item item' l)%nat.
Proof.
  unfold count_item. induction l as [|x l IH]; simpl; [lia|].
  destruct (eq_str item x); simpl.
  - destruct (eq_str item' x); simpl; lia.
  - destruct (eq_str item' x); simpl; lia.
Qed.

Lemma no_duplicates_with_item (item : string) (l : list value) :
  no_duplicates l -> no_duplicates (with_item item l).
Proof.
  intros H item'. unfold with_item.
  destruct (in_list item l) eqn:E; [apply H|].
  rewrite count_item_app. unfold count_item at 2. simpl.
  destruct (String.eqb_spec item item') as [->|Hne]; simpl.
  - apply count_item_absent in E. lia.
  - specialize (H item'). lia.
Qed.

Lemma inventory_same (s s' : dict) :
  dict_get s' "inventory" = dict_get s "inventory" -> inventory s' = inventory s.
Proof. unfold inventory. now intros ->. Qed.

Lemma apply_atom_no_duplicates (s s' : dict) (atom : string) :
  typed_state s = true ->
  apply_atom s atom = Ok s' ->
  no_duplicates (inventory s) ->
  no_duplicates (inventory s').
Proof.
  intros T H N.
  destruct (atom_shape atom)
    as [[p ->]|[[p ->]|[[p ->]|[[p ->]|[[p ->]|U]]]]].
  - rewrite (inventory_same s s'); [exact N|].
    now apply (apply_atom_touches _ _ _ _ H).
  - rewrite (add_effect s p T) in H. injection H as <-.
    rewrite inventory_after_add by exact T. now apply no_duplicates_with_item.
  - rewrite (remove_effect s p T) in H. injection H as <-.
    rewrite inventory_after_remove. intros item'.
    pose proof (count_remove_first (Py.strip p) item' (inventory s)).
    specialize (N item'). lia.
  - rewrite (inventory_same s s'); [exact N|].
    now apply (apply_atom_touches _ _ _ _ H).
  - rewrite (inventory_same s s'); [exact N|].
    now apply (apply_atom_touches _ _ _ _ H).
  - rewrite (apply_atom_unrecognized s atom U) in H. now injection H as <-.
Qed.

(** X8: the mutator keeps the inventory free of repeated strings: on a
    typed state whose inventory holds no string twice, a call on any
    batch of string atoms returns a state whose inventory holds no
    string twice. *)
Theorem inventory_stays_without_duplicates (s : dict) (atoms : list string) :
  typed_state s = true ->
  no_duplicates (inventory s) ->
  exists s',
    apply_state_changes s (batch atoms) = Ok s'
    /\ no_duplicates (inventory s').
Proof.
  intros T N.
  assert (forall s0, typed_state s0 = true -> no_duplicates (inventory s0) ->
            exists s1, apply_atoms s0 (map VStr atoms) = Ok s1
                       /\ no_duplicates (inventory s1)) as G.
  { induction atoms as [|a atoms IH]; intros s0 T0 N0.
    - exists s0. auto.
    - destruct (apply_atom_typed s0 a T0) as (s1 & E1 & T1 & _).
      destruct (IH s1 T1 (apply_atom_no_duplicates s0 s1 a T0 E1 N0))
        as (s2 & E2 & N2).
      exists s2. cbn [map apply_atoms]. rewrite E1. auto. }
  destruct (G s T N) as (s1 & E & N1).
  eexists. split; [exact (apply_state_changes_loop s s1 atoms T E)|].
  now rewrite inventory_set_other by discriminate.
Qed.

Lemma inventory_stays_without_duplicates_witness :
  exists s',
    apply_state_changes [("inventory", VList [VStr "lamp"])]
      (batch ["add_item:lamp"; "add_item:rope"; "remove_item:lamp"; "add_item: rope"])
    = Ok s'
    /\ no_duplicates (inventory s').
Proof.
  apply (inventory_stays_without_duplicates
           [("inventory", VList [VStr "lamp"])]
           ["add_item:lamp"; "add_item:rope"; "remove_item:lamp"; "add_item: rope"]).
  - reflexivity.
  - change (inventory [("inventory", VList [VStr "lamp"])])
      with (with_item "lamp" []).
    apply no_duplicates_with_item. intros item. unfold count_item. simpl. lia.
Defined.

(** ** The end of a session *)

(** The only answers of the evaluator: [None] and the three messages. *)
Lemma end_reason_range (rules state : dict) (reason : string) :
  check_end_conditions rules state = Ok (Some reason) ->
  reason = "You won!" \/ reason = " You lost!" \/ reason = " Max turns exceeded!".
Proof.
  unfold check_end_conditions, bind. intros H.
  repeat (cbv beta zeta in H;
          match type of H with
          | Ok (Some _) = Ok (Some _) => injection H as <-
          | Ok None = Ok (Some _) => discriminate H
          | Raise _ = Ok _ => discriminate H
          | Beyond = Ok _ => discriminate H
          | context [match ?x with _ => _ end] => destruct x
          end); auto.
Qed.

(** X9: a command sent to the backend lets the session go on only when
    no end condition holds: when [handle_command] returns for a command
    that is not a built-in, the evaluator answers [None] on the rules and
    the state of the engine it returns. *)
Theorem session_goes_on_without_end_reason
        (eng eng' : GameEngine) (cmd : string) (w w' : world) :
  builtin (Py.lower cmd) = false ->
  handle_command eng cmd w = (Ok eng', w') ->
  check_end_conditions (rules eng') (state eng') = Ok None.
Proof.
  intros NB. destruct (not_builtin _ NB) as (H1 & H2 & H3 & H4 & H5).
  unfold handle_command. cbv zeta. rewrite H1, H2, H3, H4, H5.
  unfold bindM at 1.
  destruct (build_prompt eng (Py.lower cmd) w) as [[prompt| |] w1];
    try (intros H; discriminate H).
  unfold bindM at 1.
  destruct (call_ollama prompt w1) as [[raw| |] w2];
    try (intros H; discriminate H).
  unfold bindM at 1. unfold lift at 1.
  destruct (safe_json_extract raw) as [parsed| |];
    try (intros H; discriminate H).
  unfold bindM at 1. unfold lift at 1.
  destruct (method_get parsed "narration" (VStr "")) as [narration| |];
    try (intros H; discriminate H).
  unfold bindM at 1. unfold lift at 1.
  destruct (method_get parsed "state_change" (VList [])) as [state_change| |];
    try (intros H; discriminate H).
  unfold bindM at 1. unfold lift at 1.
  destruct (apply_state_changes (state eng) state_change) as [state'| |];
    try (intros H; discriminate H).
  unfold bindM at 1. unfold append_transcript at 1.
  unfold bindM at 1. unfold lift at 1.
  destruct (check_end_conditions (rules_after eng state') state')
    as [[reason|]| |] eqn:C; try (intros H; discriminate H).
  - destruct (end_reason_range _ _ _ C) as [->|[->| ->]];
      intros H; discriminate H.
  - unfold ret. intros H. injection H as <- <-. exact C.
Qed.

Lemma session_goes_on_without_end_reason_witness :
  exists eng' w',
    handle_command questing_engine "Look" sample_world = (Ok eng', w')
    /\ check_end_conditions (rules eng') (state eng') = Ok None.
Proof.
  destruct (handle_command questing_engine "Look" sample_world) as [r w'] eqn:E.
  assert (exists eng', r = Ok eng') as [eng' ->].
  { apply (f_equal fst) in E. vm_compute in E. rewrite <- E. eauto. }
  exists eng', w'. split; [reflexivity|].
  exact (session_goes_on_without_end_reason _ _ "Look" _ _ eq_refl E).
Defined.

(** ** The commands the engine answers itself *)

Ltac builtin_case :=
  repeat split; try reflexivity; try congruence; intros;
  try discriminate;
  try match goal with
      | H : Ok _ = Ok _ |- _ => inversion H; subst; auto
      end;
  try congruence.

(** X10: a built-in command, in any letter case, bypasses the backend:
    no prompt is sent and the transcript is not written; only [save]
    changes the world, and only the save file; and when the command
    returns, the rules and the history are as they were, and so is the
    whole engine unless the command is [load]. *)
Theorem builtins_bypass_backend (eng : GameEngine) (cmd : string) (w : world) :
  builtin (Py.lower cmd) = true ->
  let (r, w') := handle_command eng cmd w in
  sent w' = sent w
  /\ transcript w' = transcript w
  /\ gm_prompt w' = gm_prompt w
  /\ (Py.lower cmd <> "save" -> w' = w)
  /\ (forall eng',
        r = Ok eng' ->
        rules eng' = rules eng /\ history eng' = history eng
        /\ (Py.lower cmd <> "load" -> eng' = eng)).
Proof.
  intros B. unfold handle_command. cbv zeta.
  destruct (String.eqb_spec (Py.lower cmd) "help") as [E1|N1].
  { unfold bindM, lift, ret. destruct (join_check _); builtin_case. }
  destruct (String.eqb_spec (Py.lower cmd) "inventory") as [E2|N2].
  { unfold bindM, lift, ret. destruct (join_check _); builtin_case. }
  destruct (String.eqb_spec (Py.lower cmd) "save") as [E3|N3].
  { unfold bindM, save_json, ret. cbn [sent transcript gm_prompt]. builtin_case. }
  destruct (String.eqb_spec (Py.lower cmd) "load") as [E4|N4].
  { destruct (save_file w) as [content|].
    - unfold bindM, load_json, lift, ret.
      destruct (Json.loads content) as [[| | | | |]| |]; builtin_case.
    - unfold ret. builtin_case. }
  destruct (String.eqb_spec (Py.lower cmd) "quit") as [E5|N5].
  { unfold lift. builtin_case. }
  exfalso. unfold builtin in B.
  apply String.eqb_neq in N1, N2, N3, N4, N5.
  rewrite N1, N2, N3, N4, N5 in B. discriminate B.
Qed.

Lemma builtins_bypass_backend_witness :
  let (r, w') := handle_command sample_engine "Inventory" sample_world in
  sent w' = sent sample_world
  /\ transcript w' = transcript sample_world
  /\ gm_prompt w' = gm_prompt sample_world
  /\ (Py.lower "Inventory" <> "save" -> w' = sample_world)
  /\ (forall eng',
        r = Ok eng' ->
        rules eng' = rules sample_engine /\ history eng' = history sample_engine
        /\ (Py.lower "Inventory" <> "load" -> eng' = sample_engine)).
Proof.
  exact (builtins_bypass_backend sample_engine "Inventory" sample_world eq_refl).
Defined.

(** ** A turn with the backend *)

(** What a command that is not a built-in can do: stop before the state
    is changed, or change the state, write one entry to the transcript
    and then go on, end the session, or fail in the evaluator. *)
Lemma turn_cases (eng : GameEngine) (cmd : string) (w : world)
      (r : result GameEngine) (w' : world) :
  builtin (Py.lower cmd) = false ->
  handle_command eng cmd w = (r, w') ->
  (transcript w' = transcript w /\ save_file w' = save_file w
   /\ forall eng', r <> Ok eng')
  \/ exists raw parsed narration state_change state',
       safe_json_extract raw = Ok parsed
       /\ method_get parsed "narration" (VStr "") = Ok narration
       /\ method_get parsed "state_change" (VList []) = Ok state_change
       /\ apply_state_changes (state eng) state_change = Ok state'
       /\ transcript w'
          = transcript w
            ++ Json.dumps Json.plain_raw
                 (transcript_entry (Py.lower cmd) narration state_change state')
            ++ nl
       /\ save_file w' = save_file w
       /\ List.length (sent w') = S (List.length (sent w))
       /\ (forall eng',
             r = Ok eng' ->
             eng' = engine_after eng (Py.lower cmd) narration state_change state').
Proof.
  intros NB. destruct (not_builtin _ NB) as (H1 & H2 & H3 & H4 & H5).
  unfold handle_command. cbv zeta. rewrite H1, H2, H3, H4, H5.
  unfold bindM at 1. unfold build_prompt at 1.
  unfold bindM at 1. unfold read_gm_prompt at 1.
  destruct (gm_prompt w) as [gm|];
    [|intros H; injection H as <- <-; left; repeat split; discriminate].
  unfold ret at 1.
  unfold bindM at 1. unfold call_ollama at 1.
  destruct (ollama w _ _) as [out err|msg];
    [|intros H; injection H as <- <-; left; repeat split; discriminate].
  set (raw := if (Py.strip out =? "")%string then Py.strip err else Py.strip out).
  unfold bindM at 1. unfold lift at 1.
  destruct (safe_json_extract raw) as [parsed| |] eqn:P;
    try (intros H; injection H as <- <-; left; repeat split; discriminate).
  unfold bindM at 1. unfold lift at 1.
  destruct (method_get parsed "narration" (VStr "")) as [narration| |] eqn:Nn;
    try (intros H; injection H as <- <-; left; repeat split; discriminate).
  unfold bindM at 1. unfold lift at 1.
  destruct (method_get parsed "state_change" (VList [])) as [state_change| |] eqn:Sc;
    try (intros H; injection H as <- <-; left; repeat split; discriminate).
  unfold bindM at 1. unfold lift at 1.
  destruct (apply_state_changes (state eng) state_change) as [state'| |] eqn:A;
    try (intros H; injection H as <- <-; left; repeat split; discriminate).
  unfold bindM at 1. unfold append_transcript at 1.
  unfold bindM at 1. unfold lift at 1.
  intros H. right. exists raw, parsed, narration, state_change, state'.
  repeat (split; [assumption|]).
  destruct (check_end_conditions (rules_after eng state') state')
    as [[reason|]| |];
    [destruct (reason =? "")%string|..];
    unfold ret, lift in H; injection H as <- <-;
    cbn [transcript save_file sent]; rewrite ?length_app; cbn [List.length];
    (split; [reflexivity|]); (split; [reflexivity|]);
    (split; [lia|]); intros eng' E; try discriminate E;
    injection E as <-; reflexivity.
Qed.



(** ** The transcript is one JSON text per line *)
















(** ** How a turn fails before the state is touched *)

(** X13: a command that is not a built-in stops, with the state, the
    transcript and the save file as they were, (1) with
    [FileNotFoundError] and no prompt sent when the preamble file is
    missing, (2) with [SystemExit] carrying the text of the error when
    running the backend fails, and (3) with [AttributeError] when the
    reply is valid JSON for something that is not an object, such as a
    number or a list. *)
Theorem turn_fails_early (eng : GameEngine) (cmd : string) (w : world) :
  builtin (Py.lower cmd) = false ->
  (gm_prompt w = None ->
   handle_command eng cmd w = (Raise FileNotFoundError, w))
  /\ (forall prompt error,
        build_prompt eng (Py.lower cmd) w = (Ok prompt, w) ->
        ollama w (List.length (sent w)) prompt = Failed error ->
        let (r, w') := handle_command eng cmd w in
        r = Raise (SystemExit (ExitMessage ("[Error contacting Ollama: " ++ error ++ "]")))
        /\ transcript w' = transcript w /\ save_file w' = save_file w)
  /\ (forall prompt out err v,
        build_prompt eng (Py.lower cmd) w = (Ok prompt, w) ->
        ollama w (List.length (sent w)) prompt = Completed out err ->
        Json.loads (if (Py.strip out =? "")%string then Py.strip err else Py.strip out)
        = Ok v ->
        (forall d, v <> VDict d) ->
        let (r, w') := handle_command eng cmd w in
        r = Raise AttributeError
        /\ transcript w' = transcript w /\ save_file w' = save_file w).
Proof.
  intros NB. destruct (not_builtin _ NB) as (H1 & H2 & H3 & H4 & H5).
  split; [|split].
  - intros G. unfold handle_command. cbv zeta. rewrite H1, H2, H3, H4, H5.
    unfold bindM at 1. unfold build_prompt, bindM, read_gm_prompt.
    now rewrite G.
  - intros prompt error Bp F.
    unfold handle_command. cbv zeta. rewrite H1, H2, H3, H4, H5.
    unfold bindM at 1. rewrite Bp.
    unfold bindM at 1. unfold call_ollama at 1. rewrite F.
    repeat split.
  - intros prompt out err v Bp C L Nd.
    unfold handle_command. cbv zeta. rewrite H1, H2, H3, H4, H5.
    unfold bindM at 1. rewrite Bp.
    unfold bindM at 1. unfold call_ollama at 1. rewrite C.
    unfold bindM at 1. unfold lift at 1.
    rewrite (safe_json_extract_whole _ v L).
    unfold bindM at 1. unfold lift at 1.
    destruct v as [| | | | |d]; try (repeat split; fail).
    exfalso. now apply (Nd d).
Qed.

Lemma turn_fails_early_witness :
  let w := {| gm_prompt := Some "You are the game master.";
              save_file := None; transcript := "";
              ollama := fun _ _ => Completed "[1, 2]" "";
              sent := [] |} in
  fst (handle_command questing_engine "look" w) = Raise AttributeError.
Proof.
  intros w.
  destruct (turn_fails_early questing_engine "look" w eq_refl) as (_ & _ & H).
  change (Py.lower "look") with "look" in H.
  destruct (build_prompt questing_engine "look" w) as [[p| |] w1] eqn:E;
    try (vm_compute in E; discriminate E).
  assert (w1 = w) as -> by (vm_compute in E; now injection E as _ <-).
  specialize (H p "[1, 2]" "" (VList [VInt 1; VInt 2]) eq_refl eq_refl eq_refl).
  destruct (handle_command questing_engine "look" w) as [r w'].
  destruct H as [-> _]; [discriminate | reflexivity].
Defined.

(** ** What the second attempt of the parser can give *)

Lemma substring_at_find (c : ascii) (s : string) :
  forall n m,
    Py.find c s = Z.of_nat n ->
    substring n m s = "" \/ exists r, substring n m s = String c r.
Proof.
  induction s as [|a s IH]; intros n m; simpl.
  - lia.
  - destruct (Ascii.eqb_spec a c) as [->|N].
    + intros H. assert (n = 0%nat) as -> by lia.
      destruct m; [now left | right; eauto].
    + destruct (Py.find c s =? -1) eqn:E; [lia|].
      intros H. destruct n as [|n]; [pose proof (find_nonneg c s); apply Z.eqb_neq in E; lia|].
      apply IH. lia.
Qed.

Lemma find_below_length (c : ascii) (s : string) :
  Py.find c s < Z.of_nat (String.length s) \/ s = "".
Proof.
  induction s as [|a s IH]; [now right|left]. simpl.
  destruct (Ascii.eqb a c); [lia|].
  destruct (Py.find c s =? -1); [lia|].
  destruct IH as [IH| ->]; [lia|]. simpl. lia.
Qed.

(** A slice that starts at the first [c] is empty or starts with [c]. *)
Lemma slice_at_find (c : ascii) (s : string) (j : Z) :
  Py.find c s <> -1 ->
  Py.slice s (Py.find c s) j = ""
  \/ exists r, Py.slice s (Py.find c s) j = String c r.
Proof.
  intros F. pose proof (find_nonneg c s) as G. unfold Py.slice.
  destruct (find_below_length c s) as [L| ->]; [|simpl in F; congruence].
  replace (Py.find c s <? 0) with false by (symmetry; apply Z.ltb_ge; lia).
  rewrite (Z.min_l (Py.find c s)) by lia.
  apply substring_at_find. lia.
Qed.

(** A text that starts with an opening brace decodes to an object, if
    it decodes at all. *)
Lemma loads_object_text (r : string) (v : value) :
  Json.loads (String "{" r) = Ok v -> exists d, v = VDict d.
Proof.
  unfold Json.loads, Json.fuel_for.
  change (Json.skip_ws (String "{" r)) with (String "{" r).
  cbn [String.length Nat.mul Nat.add]. rewrite Nat.add_comm.
  cbn [Nat.add Json.scan_once].
  change (Ascii.eqb "{" dquote) with false.
  change (Ascii.eqb "{" "{") with true. cbv iota.
  destruct (Json.skip_ws r) as [|c1 r1]; [discriminate|].
  destruct (Ascii.eqb c1 "}").
  - destruct (Json.skip_ws r1); [|discriminate].
    intros H. injection H as <-. eauto.
  - destruct (Ascii.eqb c1 dquote); [|discriminate].
    destruct (Json.scan_members _ r1) as [ps rest| | |]; try discriminate.
    cbn [Json.scan_map]. destruct (Json.skip_ws rest); [|discriminate].
    intros H. injection H as <-. eauto.
Qed.

(** X14: whatever the parser returns that is not an object is what the
    whole text decodes to: the second attempt, on the text from the
    first opening brace on, gives an object or fails, and the fallback is
    an object.  So a reply that is a bare list, number, string or
    constant reaches the engine as it is, and only as the whole reply. *)
Theorem parser_answer_is_object_or_whole_text (text : string) (v : value) :
  safe_json_extract text = Ok v ->
  (exists d, v = VDict d) \/ Json.loads text = Ok v.
Proof.
  unfold safe_json_extract.
  destruct (Json.loads text) as [v0|e|] eqn:L; [now right | | discriminate].
  destruct e; try discriminate.
  cbv zeta.
  destruct (Z.eqb_spec (Py.find "{" text) (-1)) as [F|F]; cbn [negb andb].
  { intros H. injection H as <-. left. unfold fallback. eauto. }
  destruct (negb (Py.rfind "}" text + 1 =? -1)).
  2:{ intros H. injection H as <-. left. unfold fallback. eauto. }
  destruct (slice_at_find "{" text (Py.rfind "}" text + 1) F) as [->|[r ->]].
  - change (Json.loads "") with (@Raise value JSONDecodeError).
    intros H. injection H as <-. left. unfold fallback. eauto.
  - destruct (Json.loads (String "{" r)) as [v1|e1|] eqn:L1; try discriminate.
    + intros H. injection H as <-. left. now apply (loads_object_text r).
    + destruct e1; try discriminate.
      intros H. injection H as <-. left. unfold fallback. eauto.
Qed.

Lemma parser_answer_is_object_or_whole_text_witness :
  (exists d, VList [VInt 1; VInt 2] = VDict d)
  \/ Json.loads "[1, 2]" = Ok (VList [VInt 1; VInt 2]).
Proof.
  exact (parser_answer_is_object_or_whole_text "[1, 2]" (VList [VInt 1; VInt 2])
           eq_refl).
Defined.

(** ** An encoded object inside prose *)

Lemma dumps_object_braces (st : Json.Encoder.style) (d : dict) :
  exists m, Json.dumps st (VDict d) = "{" ++ m ++ "}".
Proof.
  unfold Json.dumps. cbn [Json.Encoder.encode].
  unfold Json.Encoder.container.
  destruct (map _ d) as [|x items].
  - exists "". reflexivity.
  - eexists. cbn [append]. rewrite <- !append_assoc. reflexivity.
Qed.

(** X15: an object written by [json.dumps], in any of the styles with a
    comma and a colon as separators, and put between a text without an
    opening brace and a text without a closing brace, is recovered by
    the parser exactly, keys, values and order, when the whole text is
    not itself JSON. *)
Theorem parser_recovers_encoded_object
        (st : Json.Encoder.style) (d : dict) (a b : string) :
  well_separated st ->
  wf_value (VDict d) = true ->
  Py.find "{" a = -1 ->
  Py.rfind "}" b = -1 ->
  Json.loads (a ++ Json.dumps st (VDict d) ++ b) = Raise JSONDecodeError ->
  safe_json_extract (a ++ Json.dumps st (VDict d) ++ b) = Ok (VDict d).
Proof.
  intros W Wf Ha Hb L.
  pose proof (loads_dumps st (VDict d) W Wf) as R.
  destruct (dumps_object_braces st d) as [m E]. rewrite E in *.
  assert (T : a ++ ("{" ++ m ++ "}") ++ b = a ++ "{" ++ m ++ "}" ++ b)
    by (now rewrite !append_assoc).
  rewrite T in *.
  destruct (slice_braces a m b Ha Hb) as [F S]. cbv zeta in S.
  rewrite (safe_json_extract_retry _ L F), S, R. reflexivity.
Qed.

Lemma parser_recovers_encoded_object_witness :
  safe_json_extract
    ("Sure! " ++ Json.dumps Json.compact (VDict [("narration", VStr "hi")]) ++ " Bye.")
  = Ok (VDict [("narration", VStr "hi")]).
Proof.
  apply (parser_recovers_encoded_object Json.compact
           [("narration", VStr "hi")] "Sure! " " Bye.").
  - exists "", "". repeat split.
  - reflexivity.
  - reflexivity.
  - reflexivity.
  - reflexivity.
Defined.

(** ** The reply of the backend *)

Lemma rstrip_idempotent (s : string) : Py.rstrip (Py.rstrip s) = Py.rstrip s.
Proof.
  induction s as [|c s IH]; [reflexivity|].
  cbn [Py.rstrip]. destruct (Py.rstrip s) as [|d r] eqn:E.
  - destruct (Py.isspace c) eqn:Sp; [reflexivity|].
    cbn [Py.rstrip]. now rewrite Sp.
  - cbn [Py.rstrip] in *. cbn [Py.rstrip]. rewrite IH. reflexivity.
Qed.

Lemma lstrip_head (s : string) :
  Py.lstrip s = "" \/ exists c r, Py.lstrip s = String c r /\ Py.isspace c = false.
Proof.
  induction s as [|c s IH]; [now left|]. cbn [Py.lstrip].
  destruct (Py.isspace c) eqn:Sp; [exact IH|]. right. eauto.
Qed.

Lemma rstrip_keeps_head (c : ascii) (r : string) :
  Py.isspace c = false -> exists r', Py.rstrip (String c r) = String c r'.
Proof.
  intros Sp. cbn [Py.rstrip]. rewrite Sp. destruct (Py.rstrip r); eauto.
Qed.

Lemma strip_idempotent (s : string) : Py.strip (Py.strip s) = Py.strip s.
Proof.
  unfold Py.strip. destruct (lstrip_head s) as [->|(c & r & -> & Sp)].
  - reflexivity.
  - destruct (rstrip_keeps_head c r Sp) as [r' E].
    rewrite E at 1. cbn [Py.lstrip]. rewrite Sp. rewrite <- E.
    apply rstrip_idempotent.
Qed.

(** X16: when the call of the backend returns, the text handed to the
    parser has no white space at either end (stripping it again changes
    nothing): it is the standard output stripped, or, when that is
    empty, the standard error stripped; the prompt has been sent, and
    the files are untouched. *)
Theorem backend_reply_is_stripped (prompt raw : string) (w w' : world) :
  call_ollama prompt w = (Ok raw, w') ->
  Py.strip raw = raw
  /\ (exists out err,
        ollama w (List.length (sent w)) prompt = Completed out err
        /\ (Py.strip out <> "" -> raw = Py.strip out)
        /\ (Py.strip out = "" -> raw = Py.strip err))
  /\ sent w' = (sent w ++ [prompt])%list
  /\ transcript w' = transcript w
  /\ save_file w' = save_file w.
Proof.
  unfold call_ollama.
  destruct (ollama w (List.length (sent w)) prompt) as [out err|error];
    [|discriminate].
  cbv zeta. intros H. injection H as <- <-.
  destruct (String.eqb_spec (Py.strip out) "") as [E|E].
  - split; [apply strip_idempotent|]. split; [|repeat split].
    exists out, err. repeat split; congruence.
  - split; [apply strip_idempotent|]. split; [|repeat split].
    exists out, err. repeat split; congruence.
Qed.

Lemma backend_reply_is_stripped_witness :
  exists raw w',
    call_ollama "look" sample_world = (Ok raw, w') /\ Py.strip raw = raw.
Proof.
  pose (w' := snd (call_ollama "look" sample_world)).
  assert (E : call_ollama "look" sample_world = (Ok (Py.strip sample_reply), w'))
    by reflexivity.
  exists (Py.strip sample_reply), w'. split; [exact E|].
  exact (proj1 (backend_reply_is_stripped _ _ _ _ E)).
Defined.

(** ** The history shown to the backend *)

Lemma last_n_app {A : Type} (n : nat) (older recent : list A) :
  List.length recent = n -> last_n n (older ++ recent) = recent.
Proof.
  intros <-. unfold last_n. rewrite length_app.
  replace (List.length older + List.length recent - List.length recent)%nat
    with (List.length older + 0)%nat by lia.
  rewrite skipn_app, Nat.add_0_r, skipn_all.
  replace (List.length older - List.length older)%nat with 0%nat by lia.
  reflexivity.
Qed.

Lemma last_n_short {A : Type} (n : nat) (l : list A) :
  (List.length l <= n)%nat -> last_n n l = l.
Proof.
  intros H. unfold last_n.
  replace (List.length l - n)%nat with 0%nat by lia. reflexivity.
Qed.

(** X17: the prompt shows the last six entries of the history only: two
    engines that differ in what came before the last six entries of
    their histories build the same prompt, which is the prompt of the
    engine whose history is those six entries alone.  Building a prompt
    changes nothing in the world. *)
Theorem prompt_shows_last_six_turns
        (eng : GameEngine) (older older' recent : list value)
        (cmd : string) (w : world) :
  List.length recent = MAX_HISTORY ->
  build_prompt (with_history eng (older ++ recent)) cmd w
  = build_prompt (with_history eng (older' ++ recent)) cmd w
  /\ build_prompt (with_history eng (older ++ recent)) cmd w
     = build_prompt (with_history eng recent) cmd w
  /\ snd (build_prompt (with_history eng (older ++ recent)) cmd w) = w.
Proof.
  intros L. unfold build_prompt, with_history. cbn [rules state history].
  rewrite !(last_n_app MAX_HISTORY _ recent L).
  rewrite (last_n_short MAX_HISTORY recent) by lia.
  repeat split.
  unfold bindM, read_gm_prompt, ret. destruct (gm_prompt w); reflexivity.
Qed.

Lemma prompt_shows_last_six_turns_witness :
  let recent := [VInt 1; VInt 2; VInt 3; VInt 4; VInt 5; VInt 6] in
  build_prompt (with_history sample_engine ([VStr "long ago"] ++ recent)%list)
               "look" sample_world
  = build_prompt (with_history sample_engine recent) "look" sample_world.
Proof.
  intros recent.
  exact (proj1 (proj2 (prompt_shows_last_six_turns
                         sample_engine [VStr "long ago"] [] recent
                         "look" sample_world eq_refl))).
Defined.

(** ** What the rules share with the state *)

Lemma apply_state_changes_present (s s' : dict) (changes : value) (k : string) :
  apply_state_changes s changes = Ok s' ->
  dict_get s k <> None -> dict_get s' k <> None.
Proof.
  unfold apply_state_changes, bind. intros H.
  destruct (iterate changes) as [atoms| |]; try discriminate H.
  destruct (apply_atoms s atoms) as [s1| |] eqn:E; try discriminate H.
  destruct (add_int _ 1) as [t| |]; try discriminate H.
  injection H as <-. destruct (apply_atoms_keeps _ _ _ E) as [_ P].
  intros Hk. now apply present_set, P.
Qed.

Lemma follow_other (k k' : string) (state' start : dict) :
  k <> k' -> dict_get (follow k state' start) k' = dict_get start k'.
Proof.
  intros N. unfold follow.
  destruct (dict_get start k); [|reflexivity].
  destruct (dict_get state' k); [|reflexivity].
  now apply get_set_other.
Qed.

Lemma follow_same (k : string) (state' start : dict) :
  (dict_get start k <> None -> dict_get state' k <> None) ->
  dict_get (follow k state' start) k <> None ->
  dict_get (follow k state' start) k = dict_get state' k.
Proof.
  unfold follow. intros P.
  destruct (dict_get start k) as [x|] eqn:E.
  - destruct (dict_get state' k) as [v|] eqn:F.
    + intros _. rewrite dict_get_set, String.eqb_refl. reflexivity.
    + exfalso. apply P; [discriminate | reflexivity].
  - rewrite E. congruence.
Qed.

(** What a built-in command does to the engine and to the world. *)
Lemma builtin_effect (eng : GameEngine) (cmd : string) (w : world)
      (eng' : GameEngine) (w' : world) :
  builtin (Py.lower cmd) = true ->
  handle_command eng cmd w = (Ok eng', w') ->
  sent w' = sent w
  /\ transcript w' = transcript w
  /\ ((eng' = eng)
      \/ (Py.lower cmd = "load"
          /\ aliased eng' = false
          /\ rules eng' = rules eng /\ history eng' = history eng)).
Proof.
  intros B. unfold handle_command. cbv zeta.
  destruct (String.eqb_spec (Py.lower cmd) "help") as [E1|N1].
  { unfold bindM, lift, ret. destruct (join_check _); intros H;
      inversion H; subst; auto. }
  destruct (String.eqb_spec (Py.lower cmd) "inventory") as [E2|N2].
  { unfold bindM, lift, ret. destruct (join_check _); intros H;
      inversion H; subst; auto. }
  destruct (String.eqb_spec (Py.lower cmd) "save") as [E3|N3].
  { unfold bindM, save_json, ret. intros H; inversion H; subst; auto. }
  destruct (String.eqb_spec (Py.lower cmd) "load") as [E4|N4].
  { destruct (save_file w) as [content|].
    - unfold bindM, load_json, lift, ret.
      destruct (Json.loads content) as [[| | | | |]| |]; intros H;
        inversion H; subst; cbn [aliased rules history]; auto 10.
    - unfold ret. intros H; inversion H; subst; auto. }
  destruct (String.eqb_spec (Py.lower cmd) "quit") as [E5|N5].
  { unfold lift. intros H; discriminate H. }
  exfalso. unfold builtin in B.
  apply String.eqb_neq in N1, N2, N3, N4, N5.
  rewrite N1, N2, N3, N4, N5 in B. discriminate B.
Qed.

(** X18: the rules are not constant through a session.  The state is
    made of the values of [START], so the inventory list and the flags
    dictionary that the mutator changes in place are those of the rules:
    a new engine has [START] holding the inventory and the flags of the
    state, and every command that returns keeps it so, until a save is
    loaded. *)
Theorem rules_start_follows_state :
  (forall rules eng,
      new_engine rules = Ok eng ->
      aliased eng = true /\ start_tracks eng)
  /\ (forall eng eng' cmd w w',
        aliased eng = true ->
        start_tracks eng ->
        handle_command eng cmd w = (Ok eng', w') ->
        aliased eng' = true ->
        start_tracks eng').
Proof.
  split.
  - intros rules0 eng. unfold new_engine, get_default.
    destruct (dict_get rules0 "START") as [[| | | |l|start]|] eqn:E;
      try discriminate; intros H; injection H as <-; (split; [reflexivity|]);
      intros start' k Hs Hk Hp; cbn [rules state] in *.
    + congruence.
    + congruence.
  - intros eng eng' cmd w w' Al Tr H Al'.
    destruct (builtin (Py.lower cmd)) eqn:B.
    { destruct (builtin_effect eng cmd w eng' w' B H)
        as (_ & _ & [->|(_ & F & _)]); [exact Tr | congruence]. }
    destruct (turn_cases eng cmd w _ w' B H)
      as [(_ & _ & F)|(raw & parsed & narration & state_change & state'
                       & _ & _ & _ & A & _ & _ & _ & E)].
    { exfalso. now apply (F eng'). }
    specialize (E eng' eq_refl). subst eng'.
    intros start' k. unfold engine_after. cbn [rules state].
    unfold rules_after. rewrite Al.
    destruct (dict_get (rules eng) "START") as [[| | | |l|start]|] eqn:S;
      try congruence.
    rewrite dict_get_set, String.eqb_refl. intros X. injection X as <-.
    assert (P : forall k', k' = "inventory" \/ k' = "flags" ->
                           dict_get start k' <> None ->
                           dict_get state' k' <> None).
    { intros k' Hk' Hp. apply (apply_state_changes_present _ _ _ _ A).
      rewrite <- (Tr start k' S Hk' Hp). exact Hp. }
    intros [->| ->].
    + rewrite follow_other by discriminate. apply follow_same.
      apply P. now left.
    + apply follow_same. rewrite follow_other by discriminate.
      apply P. now right.
Qed.

Lemma rules_start_follows_state_witness :
  exists eng' w',
    handle_command questing_engine "Look" sample_world = (Ok eng', w')
    /\ start_tracks eng'.
Proof.
  pose (eng' := match fst (handle_command questing_engine "Look" sample_world) with
                | Ok e => e
                | _ => questing_engine
                end).
  pose (w' := snd (handle_command questing_engine "Look" sample_world)).
  assert (E : handle_command questing_engine "Look" sample_world = (Ok eng', w'))
    by (vm_compute; reflexivity).
  exists eng', w'. split; [exact E|].
  apply (proj2 rules_start_follows_state questing_engine eng' "Look"
               sample_world w').
  - reflexivity.
  - intros start k H Hk Hp. vm_compute in H. injection H as <-.
    destruct Hk as [->| ->]; [reflexivity | exfalso; apply Hp; reflexivity].
  - exact E.
  - vm_compute. reflexivity.
Defined.

(** ** The command loop *)

Lemma isspace_lower_char (c : ascii) :
  Py.isspace (Py.lower_char c) = Py.isspace c.
Proof. destruct c as [[] [] [] [] [] [] [] []]; reflexivity. Qed.

Lemma lower_char_idempotent (c : ascii) :
  Py.lower_char (Py.lower_char c) = Py.lower_char c.
Proof. destruct c as [[] [] [] [] [] [] [] []]; reflexivity. Qed.

Lemma lower_idempotent (s : string) : Py.lower (Py.lower s) = Py.lower s.
Proof.
  induction s as [|c s IH]; [reflexivity|].
  cbn [Py.lower]. now rewrite lower_char_idempotent, IH.
Qed.

Lemma lstrip_lower (s : string) : Py.lstrip (Py.lower s) = Py.lower (Py.lstrip s).
Proof.
  induction s as [|c s IH]; [reflexivity|].
  cbn [Py.lower Py.lstrip]. rewrite isspace_lower_char.
  destruct (Py.isspace c); [exact IH | reflexivity].
Qed.

Lemma rstrip_lower (s : string) : Py.rstrip (Py.lower s) = Py.lower (Py.rstrip s).
Proof.
  induction s as [|c s IH]; [reflexivity|].
  cbn [Py.lower Py.rstrip]. rewrite IH, isspace_lower_char.
  destruct (Py.rstrip s); cbn [Py.lower]; [|reflexivity].
  destruct (Py.isspace c); reflexivity.
Qed.

Lemma strip_lower (s : string) : Py.strip (Py.lower s) = Py.lower (Py.strip s).
Proof. unfold Py.strip. now rewrite lstrip_lower, rstrip_lower. Qed.

Lemma lower_empty (s : string) : (Py.lower s =? "")%string = (s =? "")%string.
Proof. destruct s; reflexivity. Qed.

(** The engine reads a command in lower case only. *)
Lemma handle_command_lower (eng : GameEngine) (cmd : string) :
  handle_command eng (Py.lower cmd) = handle_command eng cmd.
Proof. unfold handle_command. cbv zeta. now rewrite lower_idempotent. Qed.

(** X19: a session reads its input up to white space and letter case:
    dropping the blank lines, stripping the other lines and putting them
    in lower case gives the same end of the session and the same world,
    prompts sent, transcript and save file included. *)
Theorem session_reads_tidied_input
        (eng : GameEngine) (events : list event) (w : world) :
  main_loop eng (tidy events) w = main_loop eng events w.
Proof.
  revert eng w. induction events as [|[text|] events IH]; intros eng w.
  - reflexivity.
  - cbn [tidy main_loop]. cbv zeta.
    destruct (Py.strip text =? "")%string eqn:B; [apply IH|].
    cbn [main_loop]. cbv zeta.
    rewrite strip_lower, strip_idempotent, lower_empty, B, handle_command_lower.
    destruct (handle_command eng (Py.strip text) w) as [[eng1|e|] w1];
      [apply IH | reflexivity | reflexivity].
  - reflexivity.
Qed.

(** The mutator counts one turn on every state it returns on. *)
Lemma apply_state_changes_turns (s s' : dict) (changes : value) :
  apply_state_changes s changes = Ok s' ->
  int_field s' "turns" = int_field s "turns" + 1.
Proof.
  unfold apply_state_changes, bind. intros H.
  destruct (iterate changes) as [atoms| |]; try discriminate H.
  destruct (apply_atoms s atoms) as [s1| |] eqn:E; try discriminate H.
  destruct (apply_atoms_keeps _ _ _ E) as [F _].
  assert (T : dict_get s1 "turns" = dict_get s "turns")
    by (apply F; repeat split; discriminate).
  unfold get_default in H. rewrite T in H.
  unfold int_field at 2.
  destruct (dict_get s "turns") as [[|b|z|x|l|d]|]; try discriminate H;
    injection H as <-; unfold int_field; rewrite dict_get_set; reflexivity.
Qed.

(** One command that is not [load], when it returns. *)
Lemma command_counts (eng eng' : GameEngine) (cmd : string) (w w' : world) :
  Py.lower cmd <> "load" ->
  handle_command eng cmd w = (Ok eng', w') ->
  let n := if builtin (Py.lower cmd) then 0%nat else 1%nat in
  List.length (sent w') = (List.length (sent w) + n)%nat
  /\ int_field (state eng') "turns" = int_field (state eng) "turns" + Z.of_nat n
  /\ List.length (history eng') = (List.length (history eng) + n)%nat.
Proof.
  intros NL H. destruct (builtin (Py.lower cmd)) eqn:B; cbv zeta.
  - destruct (builtin_effect eng cmd w eng' w' B H)
      as (S & _ & [->|(L & _)]); [|congruence].
    rewrite S. repeat split; lia.
  - destruct (turn_cases eng cmd w _ w' B H)
      as [(_ & _ & F)|(raw & parsed & narration & state_change & state'
                       & _ & _ & _ & A & _ & _ & Ln & E)].
    { exfalso. now apply (F eng'). }
    specialize (E eng' eq_refl). subst eng'.
    unfold engine_after. cbn [state history].
    rewrite (apply_state_changes_turns _ _ _ A), length_app. cbn [List.length].
    repeat split; lia.
Qed.

(** X20: in a session without [load], whenever the loop is at a prompt
    (left there by Ctrl-C or by the end of the input), the counter
    [turns] of the state has risen by the number of commands that went
    to the backend, which is the number of lines read that are neither
    blank nor a built-in, and as many prompts were sent and as many
    entries added to the history. *)
Theorem session_counts_turns
        (eng eng' : GameEngine) (events : list event) (w : world) :
  (forall text, In (Line text) events -> Py.lower (Py.strip text) <> "load") ->
  engine_at_end (fst (main_loop eng events w)) = Some eng' ->
  let n := turns_asked events in
  int_field (state eng') "turns" = int_field (state eng) "turns" + Z.of_nat n
  /\ List.length (sent (snd (main_loop eng events w)))
     = (List.length (sent w) + n)%nat
  /\ List.length (history eng') = (List.length (history eng) + n)%nat.
Proof.
  revert eng w. induction events as [|[text|] events IH]; intros eng w NL.
  - cbn. intros H. injection H as <-. repeat split; lia.
  - cbn [main_loop turns_asked]. cbv zeta.
    assert (NL' : forall t, In (Line t) events -> Py.lower (Py.strip t) <> "load")
      by (intros t Ht; apply NL; now right).
    destruct (Py.strip text =? "")%string eqn:B; cbn [orb].
    { apply IH, NL'. }
    assert (N0 : Py.lower (Py.strip text) <> "load") by (apply NL; now left).
    destruct (handle_command eng (Py.strip text) w) as [[eng1|e|] w1] eqn:H;
      try (cbn; discriminate).
    intros He. destruct (IH eng1 w1 NL' He) as (I1 & I2 & I3).
    destruct (command_counts eng eng1 (Py.strip text) w w1 N0 H) as (C1 & C2 & C3).
    rewrite I1, I2, I3, C1, C2, C3.
    destruct (builtin (Py.lower (Py.strip text))); repeat split; lia.
  - cbn. intros H. injection H as <-. repeat split; lia.
Qed.

Lemma session_counts_turns_witness :
  exists eng',
    engine_at_end
      (fst (main_loop questing_engine
              [Line "  Look "; Line "   "; Line "Inventory"; Interrupt; Line "look"]
              sample_world)) = Some eng'
    /\ int_field (state eng') "turns" = 1.
Proof.
  pose (events := [Line "  Look "; Line "   "; Line "Inventory"; Interrupt;
                   Line "look"]).
  pose (eng' := match fst (main_loop questing_engine events sample_world) with
                | Interrupted e => e
                | _ => questing_engine
                end).
  assert (E : engine_at_end (fst (main_loop questing_engine events sample_world))
              = Some eng') by (vm_compute; reflexivity).
  exists eng'. split; [exact E|].
  refine (proj1 (session_counts_turns questing_engine eng' events sample_world _ E)).
  intros text [H|[H|[H|[H|[H|[]]]]]]; try discriminate H;
    injection H as <-; vm_compute; discriminate.
Defined.

(** ** Starting a session *)

(** X21: [main] stops before it reads any input, with the world as it
    was, when the rules file is missing ([FileNotFoundError]), is not
    JSON ([JSONDecodeError]) or is JSON for something that is not an
    object ([AttributeError]).  An object without [START] and without
    [QUEST] is accepted: the session then runs from the empty state. *)
Theorem startup_failures (events : list event) (w : world) :
  main None events w = (Stopped FileNotFoundError, w)
  /\ (forall content,
        Json.loads content = Raise JSONDecodeError ->
        main (Some content) events w = (Stopped JSONDecodeError, w))
  /\ (forall content v,
        Json.loads content = Ok v ->
        (forall d, v <> VDict d) ->
        main (Some content) events w = (Stopped AttributeError, w))
  /\ (forall content rules,
        Json.loads content = Ok (VDict rules) ->
        dict_get rules "START" = None ->
        dict_get rules "QUEST" = None ->
        main (Some content) events w
        = main_loop {| rules := rules; state := []; history := [];
                       aliased := true |} events w).
Proof.
  split; [reflexivity|]. split; [|split].
  - intros content L. unfold main. now rewrite L.
  - intros content v L N. unfold main. rewrite L.
    destruct v; try reflexivity. exfalso. now apply (N d).
  - intros content rules0 L S Q. unfold main. rewrite L.
    unfold new_engine, intro_text, get_default. rewrite S, Q. reflexivity.
Qed.

Lemma startup_failures_witness :
  main (Some "[]") [Line "look"] sample_world
  = (Stopped AttributeError, sample_world).
Proof.
  destruct (startup_failures [Line "look"] sample_world) as (_ & _ & H & _).
  apply (H "[]" (VList [])); [reflexivity | discriminate].
Defined.

(** ** Rules without a flag to win *)

Lemma rules_after_other (eng : GameEngine) (state' : dict) (k : string) :
  k <> "START" ->
  dict_get (rules_after eng state') k = dict_get (rules eng) k.
Proof.
  intros N. unfold rules_after. destruct (aliased eng); [|reflexivity].
  destruct (dict_get (rules eng) "START") as [[| | | | |start]|]; try reflexivity.
  apply get_set_other. congruence.
Qed.

(** X22: with rules whose [WIN_ALL_FLAGS] is empty or absent, no command
    sent to the backend returns: it ends the session with exit status 0,
    or it has failed with the transcript left as it was. *)
Theorem first_turn_wins_without_win_flags
        (eng : GameEngine) (cmd : string) (w : world) (e : dict) :
  builtin (Py.lower cmd) = false ->
  get_default (rules eng) "END_CONDITIONS" (VDict []) = VDict e ->
  get_default e "WIN_ALL_FLAGS" (VList []) = VList [] ->
  let (r, w') := handle_command eng cmd w in
  (forall eng', r <> Ok eng')
  /\ (r = Raise (SystemExit (ExitStatus 0)) \/ transcript w' = transcript w).
Proof.
  intros NB He Hw. destruct (not_builtin _ NB) as (H1 & H2 & H3 & H4 & H5).
  unfold handle_command. cbv zeta. rewrite H1, H2, H3, H4, H5.
  unfold bindM at 1. unfold build_prompt at 1.
  unfold bindM at 1. unfold read_gm_prompt at 1.
  destruct (gm_prompt w) as [gm|]; [|split; [discriminate | now right]].
  unfold ret at 1.
  unfold bindM at 1. unfold call_ollama at 1.
  destruct (ollama w _ _) as [out err|msg]; [|split; [discriminate | now right]].
  unfold bindM at 1. unfold lift at 1.
  destruct (safe_json_extract _) as [parsed| |];
    try (split; [discriminate | now right]).
  unfold bindM at 1. unfold lift at 1.
  destruct (method_get parsed "narration" (VStr "")) as [narration| |];
    try (split; [discriminate | now right]).
  unfold bindM at 1. unfold lift at 1.
  destruct (method_get parsed "state_change" (VList [])) as [state_change| |];
    try (split; [discriminate | now right]).
  unfold bindM at 1. unfold lift at 1.
  destruct (apply_state_changes (state eng) state_change) as [state'| |];
    try (split; [discriminate | now right]).
  unfold bindM at 1. unfold append_transcript at 1.
  unfold bindM at 1. unfold lift at 1.
  assert (He' : get_default (rules_after eng state') "END_CONDITIONS" (VDict [])
                = VDict e).
  { unfold get_default in *. rewrite rules_after_other by discriminate. exact He. }
  rewrite (check_end_conditions_unfold _ _ e He'), Hw.
  cbn [iterate bind all_flags String.eqb Ascii.eqb Bool.eqb].
  unfold lift. split; [discriminate | now left].
Qed.

Lemma first_turn_wins_without_win_flags_witness :
  fst (handle_command sample_engine "look" sample_world)
  = Raise (SystemExit (ExitStatus 0)).
Proof.
  pose proof (first_turn_wins_without_win_flags
                sample_engine "look" sample_world [] eq_refl eq_refl eq_refl) as H.
  destruct (handle_command sample_engine "look" sample_world) as [r w'] eqn:E.
  destruct H as [_ [H|H]]; [exact H|].
  exfalso. apply (f_equal snd) in E. apply (f_equal transcript) in E.
  cbn [snd] in E. rewrite H in E. vm_compute in E. discriminate E.
Defined.

(** ** After a save is loaded *)

(** X23: once a save is loaded the rules are constant: [load] with a
    save file that holds an object gives an engine whose state shares
    nothing with the rules, and from such an engine every command that
    returns leaves the rules as they are, whatever the mutator does to
    the inventory and to the flags. *)
Theorem rules_constant_after_load
        (eng eng' : GameEngine) (cmd : string) (w w' : world) :
  handle_command eng cmd w = (Ok eng', w') ->
  (Py.lower cmd = "load" -> save_file w <> None ->
   aliased eng' = false /\ rules eng' = rules eng)
  /\ (aliased eng = false -> aliased eng' = false /\ rules eng' = rules eng).
Proof.
  intros H. destruct (builtin (Py.lower cmd)) eqn:B.
  - split.
    + intros L S. revert H. unfold handle_command. cbv zeta. rewrite L.
      cbn [String.eqb Ascii.eqb Bool.eqb].
      destruct (save_file w) as [content|]; [|congruence].
      unfold bindM, load_json, lift, ret.
      destruct (Json.loads content) as [[| | | | |d]| |]; intros H;
        inversion H; subst; split; reflexivity.
    + intros Al.
      destruct (builtin_effect eng cmd w eng' w' B H)
        as (_ & _ & [->|(_ & F & R & _)]); auto.
  - destruct (turn_cases eng cmd w _ w' B H)
      as [(_ & _ & F)|(raw & parsed & narration & state_change & state'
                       & _ & _ & _ & _ & _ & _ & _ & E)].
    { exfalso. now apply (F eng'). }
    specialize (E eng' eq_refl). subst eng'. split.
    + intros L. rewrite L in B. discriminate B.
    + intros Al. unfold engine_after, rules_after. cbn [aliased rules].
      rewrite Al. split; reflexivity.
Qed.

Lemma rules_constant_after_load_witness :
  let loaded := {| rules := rules questing_engine;
                   state := [("inventory", VList [])];
                   history := []; aliased := false |} in
  exists eng' w',
    handle_command loaded "Look" sample_world = (Ok eng', w')
    /\ rules eng' = rules loaded.
Proof.
  intros loaded.
  pose (eng' := match fst (handle_command loaded "Look" sample_world) with
                | Ok e => e
                | _ => loaded
                end).
  pose (w' := snd (handle_command loaded "Look" sample_world)).
  assert (E : handle_command loaded "Look" sample_world = (Ok eng', w'))
    by (vm_compute; reflexivity).
  exists eng', w'. split; [exact E|].
  exact (proj2 (proj2 (rules_constant_after_load loaded eng' "Look"
                         sample_world w' E) eq_refl)).
Defined.

(** ** The inventory command *)

Lemma forallb_remove_first (item : string) (l : list value) :
  forallb is_str l = true -> forallb is_str (remove_first item l) = true.
Proof.
  induction l as [|x l IH]; [auto|]. cbn [forallb remove_first].
  intros H. apply andb_true_iff in H. destruct H as [Hx Hl].
  destruct (eq_str item x); [exact Hl|].
  cbn [forallb]. now rewrite Hx, IH.
Qed.

Lemma strings_only_same (s s' : dict) :
  dict_get s' "inventory" = dict_get s "inventory" ->
  strings_only s' = strings_only s.
Proof. unfold strings_only. now intros ->. Qed.

Lemma apply_atom_strings_only (s s' : dict) (atom : string) :
  strings_only s = true ->
  apply_atom s atom = Ok s' ->
  strings_only s' = true.
Proof.
  intros T H.
  destruct (atom_shape atom)
    as [[p ->]|[[p ->]|[[p ->]|[[p ->]|[[p ->]|U]]]]].
  - rewrite (strings_only_same s s'); [exact T|].
    now apply (apply_atom_touches _ _ _ _ H).
  - rewrite apply_atom_add in H. unfold inventory_append, bind in H.
    unfold strings_only in T. unfold get_default in H.
    rewrite !dict_get_setdefault in H. cbn [String.eqb Ascii.eqb Bool.eqb] in H.
    unfold get_default in H.
    destruct (dict_get s "inventory") as [[| | | |l|]|] eqn:G;
      cbn [py_in] in H; try discriminate.
    + destruct (in_list (Py.strip p) l).
      * injection H as <-. unfold strings_only, setdefault. now rewrite G, G.
      * unfold setdefault in H. rewrite G in H. cbn in H. injection H as <-.
        unfold strings_only. rewrite dict_get_set, String.eqb_refl.
        rewrite forallb_app, T. reflexivity.
    + cbn in H. injection H as <-.
      unfold strings_only. rewrite dict_get_set, String.eqb_refl. reflexivity.
  - rewrite apply_atom_remove in H. unfold inventory_remove, bind in H.
    unfold strings_only in T. unfold get_default in H.
    destruct (dict_get s "inventory") as [[| | | |l|]|] eqn:G;
      cbn [py_in] in H; try discriminate.
    + destruct (in_list (Py.strip p) l).
      * injection H as <-.
        unfold strings_only. rewrite dict_get_set, String.eqb_refl.
        now apply forallb_remove_first.
      * injection H as <-. unfold strings_only. now rewrite G.
    + cbn in H. injection H as <-. unfold strings_only. now rewrite G.
  - rewrite (strings_only_same s s'); [exact T|].
    now apply (apply_atom_touches _ _ _ _ H).
  - rewrite (strings_only_same s s'); [exact T|].
    now apply (apply_atom_touches _ _ _ _ H).
  - rewrite (apply_atom_unrecognized s atom U) in H. now injection H as <-.
Qed.

Lemma apply_atoms_strings_only (atoms : list value) :
  forall s s',
    strings_only s = true ->
    apply_atoms s atoms = Ok s' ->
    strings_only s' = true.
Proof.
  induction atoms as [|a atoms IH]; intros s s' T H; simpl in H.
  - now injection H as <-.
  - destruct a; try discriminate H.
    destruct (apply_atom s s0) as [s1| |] eqn:E; try discriminate H.
    simpl in H. apply (IH s1 s'); [|exact H].
    now apply (apply_atom_strings_only s s1 s0).
Qed.

Lemma apply_state_changes_strings_only (s s' : dict) (changes : value) :
  strings_only s = true ->
  apply_state_changes s changes = Ok s' ->
  strings_only s' = true.
Proof.
  unfold apply_state_changes, bind. intros T H.
  destruct (iterate changes) as [atoms| |]; try discriminate H.
  destruct (apply_atoms s atoms) as [s1| |] eqn:E; try discriminate H.
  destruct (add_int _ 1) as [t| |]; try discriminate H.
  injection H as <-.
  rewrite (strings_only_same s1); [now apply (apply_atoms_strings_only atoms s)|].
  now apply get_set_other.
Qed.

(** X24: the mutator puts strings only into the inventory, so the
    command [inventory] cannot fail in a session that starts with an
    inventory of strings, or with none, and loads no save: after every
    command that returns, the inventory is still a list of strings, and
    [inventory], in any letter case, returns with the engine and the
    world as they are. *)
Theorem inventory_command_stays_safe
        (eng eng' : GameEngine) (cmd : string) (w w' : world) :
  strings_only (state eng) = true ->
  Py.lower cmd <> "load" ->
  handle_command eng cmd w = (Ok eng', w') ->
  strings_only (state eng') = true
  /\ (forall spelling w2,
        Py.lower spelling = "inventory" ->
        handle_command eng' spelling w2 = (Ok eng', w2)).
Proof.
  intros T NL H.
  assert (T' : strings_only (state eng') = true).
  { destruct (builtin (Py.lower cmd)) eqn:B.
    - destruct (builtin_effect eng cmd w eng' w' B H)
        as (_ & _ & [->|(L & _)]); [exact T | congruence].
    - destruct (turn_cases eng cmd w _ w' B H)
        as [(_ & _ & F)|(raw & parsed & narration & state_change & state'
                         & _ & _ & _ & A & _ & _ & _ & E)].
      { exfalso. now apply (F eng'). }
      specialize (E eng' eq_refl). subst eng'. cbn [engine_after state].
      now apply (apply_state_changes_strings_only _ _ _ T A). }
  split; [exact T'|].
  intros spelling w2 L. unfold handle_command. cbv zeta. rewrite L.
  cbn [String.eqb Ascii.eqb Bool.eqb].
  unfold bindM, lift, ret, join_check, get_default.
  unfold strings_only in T'.
  destruct (dict_get (state eng') "inventory") as [[| | | |l|]|];
    try discriminate T'; cbn [iterate bind]; [|reflexivity].
  unfold is_str in T'. now rewrite T'.
Qed.

Lemma inventory_command_stays_safe_witness :
  exists eng' w',
    handle_command questing_engine "Look" sample_world = (Ok eng', w')
    /\ handle_command eng' "INVENTORY" w' = (Ok eng', w').
Proof.
  pose (eng' := match fst (handle_command questing_engine "Look" sample_world) with
                | Ok e => e
                | _ => questing_engine
                end).
  pose (w' := snd (handle_command questing_engine "Look" sample_world)).
  assert (E : handle_command questing_engine "Look" sample_world = (Ok eng', w'))
    by (vm_compute; reflexivity).
  exists eng', w'. split; [exact E|].
  refine (proj2 (inventory_command_stays_safe questing_engine eng' "Look"
                   sample_world w' eq_refl _ E) "INVENTORY" w' eq_refl).
  vm_compute. discriminate.
Defined.
